(** * hok-viz: the text-to-state parser ([src/parser.py]) and the part of the
    renderer that reads the parsed heroes ([src/renderer.py]).

    The parser works on Python [str] values, i.e. sequences of Unicode code
    points, with the [re] module, [str.split], [str.strip], [int] and [float].
    The embedding keeps that shape: a string is a list of code points, every
    regular expression of the source is written as a value of a small regex
    syntax and run by a backtracking matcher, and an exception is a [Raise]
    result threaded through the calls in evaluation order. *)

From Stdlib Require Import List NArith ZArith QArith Bool String Ascii Lia.
Import ListNotations.

Open Scope string_scope.
Open Scope list_scope.

(** ** Exceptions *)

Inductive exn : Type :=
| IndexError
| AttributeError
| ValueError
| OverflowError.

Inductive result (A : Type) : Type :=
| Ok (a : A)
| Raise (e : exn).

Arguments Ok {A} a.
Arguments Raise {A} e.

Definition bind {A B : Type} (r : result A) (k : A -> result B) : result B :=
  match r with
  | Ok a => k a
  | Raise e => Raise e
  end.

Notation "x <- e ;; k" := (bind e (fun x => k))
  (at level 61, e at next level, right associativity).
Notation "' p <- e ;; k" := (bind e (fun p => k))
  (at level 61, p pattern, e at next level, right associativity).

(** ** Python strings *)

Definition char := N.
Definition str := list char.

(** Decoding of the UTF-8 bytes of a Rocq string literal into code points;
    used only to write the literals of the source. *)
Fixpoint utf8_decode (bs : list N) : str :=
  match bs with
  | [] => []
  | b :: r =>
      if (b <? 128)%N then b :: utf8_decode r
      else if (b <? 224)%N then
        match r with
        | b1 :: r1 => ((b - 192) * 64 + (b1 - 128))%N :: utf8_decode r1
        | [] => []
        end
      else if (b <? 240)%N then
        match r with
        | b1 :: b2 :: r2 =>
            ((b - 224) * 4096 + (b1 - 128) * 64 + (b2 - 128))%N :: utf8_decode r2
        | _ => []
        end
      else
        match r with
        | b1 :: b2 :: b3 :: r3 =>
            ((b - 240) * 262144 + (b1 - 128) * 4096 + (b2 - 128) * 64 + (b3 - 128))%N
              :: utf8_decode r3
        | _ => []
        end
  end.

Definition u (s : string) : str :=
  utf8_decode (List.map N_of_ascii (list_ascii_of_string s)).

(** [a == b] *)
Fixpoint str_eqb (a b : str) : bool :=
  match a, b with
  | [], [] => true
  | x :: a', y :: b' => (x =? y)%N && str_eqb a' b'
  | _, _ => false
  end.

(** [s.startswith(w)] *)
Fixpoint startswith (w s : str) : bool :=
  match w, s with
  | [], _ => true
  | _ :: _, [] => false
  | a :: w', b :: s' => (a =? b)%N && startswith w' s'
  end.

(** [s.endswith(w)] *)
Definition endswith (w s : str) : bool := startswith (rev w) (rev s).

(** [w in s] *)
Fixpoint contains (w s : str) : bool :=
  startswith w s ||
  match s with
  | [] => false
  | _ :: s' => contains w s'
  end.

(** [s.split(sep)] for a non-empty separator: pieces between the successive
    non-overlapping occurrences of [sep], scanning from the left.  [skip]
    counts the characters of a separator still to pass over, [cur] is the
    current piece, reversed. *)
Fixpoint split_go (sep s : str) (skip : nat) (cur : str) : list str :=
  match s with
  | [] => [rev cur]
  | c :: s' =>
      match skip with
      | S k => split_go sep s' k cur
      | O =>
          if startswith sep s
          then rev cur :: split_go sep s' (Nat.pred (List.length sep)) []
          else split_go sep s' O (c :: cur)
      end
  end.

Definition split (sep s : str) : list str := split_go sep s O [].

(** Unicode white space, as [str.isspace] and the regex class [\s] see it. *)
Definition is_space (c : char) : bool :=
  ((9 <=? c) && (c <=? 13) || (28 <=? c) && (c <=? 32)
   || (c =? 133) || (c =? 160) || (c =? 5760)
   || (8192 <=? c) && (c <=? 8202)
   || (c =? 8232) || (c =? 8233) || (c =? 8239) || (c =? 8287) || (c =? 12288))%N.

Fixpoint lstrip_by (p : char -> bool) (s : str) : str :=
  match s with
  | [] => []
  | c :: s' => if p c then lstrip_by p s' else s
  end.

Definition strip_by (p : char -> bool) (s : str) : str :=
  rev (lstrip_by p (rev (lstrip_by p s))).

(** [s.strip()] *)
Definition strip (s : str) : str := strip_by is_space s.

(** [s.strip(chars)] *)
Definition strip_chars (chars s : str) : str :=
  strip_by (fun c => existsb (N.eqb c) chars) s.

(** [s[1:-1]] *)
Definition slice_1_m1 (s : str) : str := removelast (tl s).

(** [s.zfill(width)]: zeros go after a leading sign. *)
Definition zfill (width : nat) (s : str) : str :=
  let pad := repeat 48%N (width - List.length s) in
  match s with
  | c :: s' => if ((c =? 43) || (c =? 45))%N then c :: pad ++ s' else pad ++ s
  | [] => pad
  end.

(** Unicode decimal digits (general category Nd, Unicode 14): the class [\d]
    of a [str] pattern, and the digits [int] and [float] accept.  Every block
    starts at a digit zero and holds whole runs of ten. *)
Definition digit_blocks : list (N * N) :=
  [(48, 10); (1632, 10); (1776, 10); (1984, 10); (2406, 10); (2534, 10);
   (2662, 10); (2790, 10); (2918, 10); (3046, 10); (3174, 10); (3302, 10);
   (3430, 10); (3558, 10); (3664, 10); (3792, 10); (3872, 10); (4160, 10);
   (4240, 10); (6112, 10); (6160, 10); (6470, 10); (6608, 10); (6784, 10);
   (6800, 10); (6992, 10); (7088, 10); (7232, 10); (7248, 10); (42528, 10);
   (43216, 10); (43264, 10); (43472, 10); (43504, 10); (43600, 10);
   (44016, 10); (65296, 10); (66720, 10); (68912, 10); (69734, 10);
   (69872, 10); (69942, 10); (70096, 10); (70384, 10); (70736, 10);
   (70864, 10); (71248, 10); (71360, 10); (71472, 10); (71904, 10);
   (72016, 10); (72784, 10); (73040, 10); (73120, 10); (92768, 10);
   (92864, 10); (93008, 10); (120782, 50); (123200, 10); (123632, 10);
   (125264, 10); (130032, 10)]%N.

Fixpoint digit_in (bl : list (N * N)) (c : char) : option Z :=
  match bl with
  | [] => None
  | (start, len) :: bl' =>
      if ((start <=? c) && (c <? start + len))%N
      then Some (Z.of_N ((c - start) mod 10))
      else digit_in bl' c
  end.

Definition digit_val (c : char) : option Z := digit_in digit_blocks c.

Definition is_digit (c : char) : bool :=
  match digit_val c with Some _ => true | None => false end.

(** Value of a run of decimal digits, most significant first. *)
Fixpoint digits_val (acc : Z) (s : str) : option Z :=
  match s with
  | [] => Some acc
  | c :: s' =>
      match digit_val c with
      | Some d => digits_val (10 * acc + d) s'
      | None => None
      end
  end.

(** [int(s)].  The source applies it to captures of [\d+] only; on such a
    string it is the value of the digits.  Signs, blanks and underscores,
    which [int] also reads, cannot occur there and are answered with
    [ValueError]; the interpreter's optional cap on the number of digits is
    left out. *)
Definition py_int (s : str) : result Z :=
  match s with
  | [] => Raise ValueError
  | _ :: _ =>
      match digits_val 0 s with
      | Some n => Ok n
      | None => Raise ValueError
      end
  end.

(** Python floats are represented by the exact rational a literal denotes;
    rounding to binary64 is not part of the model. *)
Definition float := Q.

(** Digits before and after the point: value of all the digits read as one
    integer, and the number of digits after the point. *)
Fixpoint frac_digits (acc : Z) (k : nat) (s : str) : option (Z * nat) :=
  match s with
  | [] => Some (acc, k)
  | c :: s' =>
      match digit_val c with
      | Some d => frac_digits (10 * acc + d) (S k) s'
      | None => None
      end
  end.

Fixpoint unsigned_float (acc : Z) (seen : bool) (s : str) : option (Z * nat) :=
  match s with
  | [] => if seen then Some (acc, O) else None
  | c :: s' =>
      if (c =? 46)%N then
        match s' with
        | [] => if seen then Some (acc, O) else None
        | _ :: _ => frac_digits acc O s'
        end
      else
        match digit_val c with
        | Some d => unsigned_float (10 * acc + d) true s'
        | None => None
        end
  end.

(** [float(s)] on the strings the source passes, captures of [[\d\.-]+] and
    of [\d+]: an optional minus sign, then digits with at most one point and at
    least one digit.  Anything else over these characters is a [ValueError]. *)
Definition py_float (s : str) : result float :=
  let '(neg, body) :=
    match s with
    | c :: s' => if (c =? 45)%N then (true, s') else (false, s)
    | [] => (false, s)
    end in
  match unsigned_float 0 false body with
  | Some (m, O) => Ok (Qmake (if neg then - m else m) 1)
  | Some (m, S k) => Ok (Qmake (if neg then - m else m) (Pos.pow 10 (Pos.of_nat (S k))))
  | None => Raise ValueError
  end.

(** The least integer whose conversion to a float overflows: half-way
    between the largest binary64 number and [2^1024]. *)
Definition float_overflow : Z := 2 ^ 1024 - 2 ^ 970.

(** [n / 100.0] for an [int] [n]: [n] is first converted to a float. *)
Definition int_div_100 (n : Z) : result float :=
  if (n <? float_overflow)%Z then Ok (Qmake n 100) else Raise OverflowError.

(** [x / 100.0] for a float [x]. *)
Definition float_div_100 (x : float) : float :=
  Qmake (Qnum x) (Qden x * 100).

(** ** Regular expressions

    The patterns of the source use literals, alternations of literals,
    character classes, and the quantifiers [+], [*] and [*?] applied to one
    character class; groups are never nested and hold one such item.  The
    matcher backtracks in the order of [re]: a greedy repetition tries its
    longest run first, a lazy one its shortest, an alternation its branches
    from the left. *)

Inductive quant : Type := Greedy | Lazy.

Inductive item : Type :=
| Lit (w : str)
| Alt (ws : list str)
| One (c : char -> bool)
| Rep (q : quant) (min : nat) (c : char -> bool).

Inductive node : Type :=
| Plain (i : item)
| Group (i : item).

Definition regex := list node.

Definition item_of (n : node) : item :=
  match n with Plain i => i | Group i => i end.

(** [Some rest] when [s = w ++ rest]. *)
Fixpoint drop_prefix (w s : str) : option str :=
  match w, s with
  | [], _ => Some s
  | _ :: _, [] => None
  | a :: w', b :: s' => if (a =? b)%N then drop_prefix w' s' else None
  end.

(** The ways a repetition of class [c] can split [s], as (consumed, rest). *)
Fixpoint runs (q : quant) (c : char -> bool) (s : str) : list (str * str) :=
  match s with
  | [] => [([], [])]
  | x :: s' =>
      if c x then
        let longer := List.map (fun ab => (x :: fst ab, snd ab)) (runs q c s') in
        match q with
        | Greedy => longer ++ [([], s)]
        | Lazy => ([], s) :: longer
        end
      else [([], s)]
  end.

Definition lit_candidates (w s : str) : list (str * str) :=
  match drop_prefix w s with
  | Some rest => [(w, rest)]
  | None => []
  end.

(** The ways one item can match at the start of [s], in the order tried. *)
Definition candidates (i : item) (s : str) : list (str * str) :=
  match i with
  | Lit w => lit_candidates w s
  | Alt ws => flat_map (fun w => lit_candidates w s) ws
  | One c =>
      match s with
      | x :: s' => if c x then [([x], s')] else []
      | [] => []
      end
  | Rep q min c =>
      filter (fun ab => (min <=? List.length (fst ab))%nat) (runs q c s)
  end.

Fixpoint first_some {A B : Type} (f : A -> option B) (l : list A) : option B :=
  match l with
  | [] => None
  | a :: l' =>
      match f a with
      | Some b => Some b
      | None => first_some f l'
      end
  end.

(** Match [r] at the start of [s]: the texts of the groups, in order, and
    what follows the match. *)
Fixpoint mexec (r : regex) (s : str) : option (list str * str) :=
  match r with
  | [] => Some ([], s)
  | n :: r' =>
      first_some
        (fun ab =>
           match mexec r' (snd ab) with
           | Some (caps, rest) =>
               Some (match n with
                     | Group _ => fst ab :: caps
                     | Plain _ => caps
                     end, rest)
           | None => None
           end)
        (candidates (item_of n) s)
  end.

(** [re.match(r, s)]: the groups of the match at position 0. *)
Definition re_match (r : regex) (s : str) : option (list str) :=
  option_map fst (mexec r s).

(** [re.search(r, s)]: the groups of the leftmost match. *)
Fixpoint re_search (r : regex) (s : str) : option (list str) :=
  match mexec r s with
  | Some (caps, _) => Some caps
  | None =>
      match s with
      | [] => None
      | _ :: s' => re_search r s'
      end
  end.

(** [re.findall(r, s)] for a pattern with groups: the groups of the
    successive non-overlapping matches.  The search resumes where the last
    match ended; [fuel] bounds the number of positions visited. *)
Fixpoint findall_go (fuel : nat) (r : regex) (s : str) : list (list str) :=
  match fuel with
  | O => []
  | S fuel' =>
      match mexec r s with
      | Some (caps, rest) =>
          caps ::
          (if (List.length rest <? List.length s)%nat
           then findall_go fuel' r rest
           else match s with
                | [] => []
                | _ :: s' => findall_go fuel' r s'
                end)
      | None =>
          match s with
          | [] => []
          | _ :: s' => findall_go fuel' r s'
          end
      end
  end.

Definition re_findall (r : regex) (s : str) : list (list str) :=
  findall_go (S (List.length s)) r s.

(** Character classes. *)
Definition oneof (cs : str) (c : char) : bool := existsb (N.eqb c) cs.
Definition noneof (cs : str) (c : char) : bool := negb (oneof cs c).
(** [.] : anything but a line feed *)
Definition dot (c : char) : bool := negb (c =? 10)%N.
(** [[\d\.-]] *)
Definition num_char (c : char) : bool := is_digit c || oneof (u ".-") c.

Definition digits1 : item := Rep Greedy 1 is_digit.
Definition number1 : item := Rep Greedy 1 num_char.
Definition open_paren : item := One (oneof (u "（(")).
Definition close_paren : item := One (oneof (u "）)")).
Definition any_lazy : item := Rep Lazy 0 dot.

(** ** The state model ([parser.py], the dataclasses)

    [team] is the string ["blue"] (ally) or ["red"] (enemy), as in the
    source. *)

Record HeroStatus : Type := mkHeroStatus {
  name : str;
  player_name : str;
  team : str;
  role : str;
  level : Z;
  hp_percent : float;
  mana_percent : float;
  is_dead : bool;
  respawn_time : Z;
  position : option (float * float);
  kda : Z * Z * Z;
  gold : Z;
  items : list str;
  has_ult : bool;
  buffs : list str
}.

(** Assignments [hero.field = v]. *)
Definition set_role (v : str) (h : HeroStatus) : HeroStatus :=
  {| name := name h; player_name := player_name h; team := team h;
     role := v; level := level h; hp_percent := hp_percent h;
     mana_percent := mana_percent h; is_dead := is_dead h;
     respawn_time := respawn_time h; position := position h;
     kda := kda h; gold := gold h; items := items h;
     has_ult := has_ult h; buffs := buffs h |}.

Definition set_level (v : Z) (h : HeroStatus) : HeroStatus :=
  {| name := name h; player_name := player_name h; team := team h;
     role := role h; level := v; hp_percent := hp_percent h;
     mana_percent := mana_percent h; is_dead := is_dead h;
     respawn_time := respawn_time h; position := position h;
     kda := kda h; gold := gold h; items := items h;
     has_ult := has_ult h; buffs := buffs h |}.

Definition set_hp_percent (v : float) (h : HeroStatus) : HeroStatus :=
  {| name := name h; player_name := player_name h; team := team h;
     role := role h; level := level h; hp_percent := v;
     mana_percent := mana_percent h; is_dead := is_dead h;
     respawn_time := respawn_time h; position := position h;
     kda := kda h; gold := gold h; items := items h;
     has_ult := has_ult h; buffs := buffs h |}.

Definition set_mana_percent (v : float) (h : HeroStatus) : HeroStatus :=
  {| name := name h; player_name := player_name h; team := team h;
     role := role h; level := level h; hp_percent := hp_percent h;
     mana_percent := v; is_dead := is_dead h;
     respawn_time := respawn_time h; position := position h;
     kda := kda h; gold := gold h; items := items h;
     has_ult := has_ult h; buffs := buffs h |}.

Definition set_is_dead (v : bool) (h : HeroStatus) : HeroStatus :=
  {| name := name h; player_name := player_name h; team := team h;
     role := role h; level := level h; hp_percent := hp_percent h;
     mana_percent := mana_percent h; is_dead := v;
     respawn_time := respawn_time h; position := position h;
     kda := kda h; gold := gold h; items := items h;
     has_ult := has_ult h; buffs := buffs h |}.

Definition set_respawn_time (v : Z) (h : HeroStatus) : HeroStatus :=
  {| name := name h; player_name := player_name h; team := team h;
     role := role h; level := level h; hp_percent := hp_percent h;
     mana_percent := mana_percent h; is_dead := is_dead h;
     respawn_time := v; position := position h; kda := kda h;
     gold := gold h; items := items h; has_ult := has_ult h;
     buffs := buffs h |}.

Definition set_position (v : option (float * float)) (h : HeroStatus) : HeroStatus :=
  {| name := name h; player_name := player_name h; team := team h;
     role := role h; level := level h; hp_percent := hp_percent h;
     mana_percent := mana_percent h; is_dead := is_dead h;
     respawn_time := respawn_time h; position := v; kda := kda h;
     gold := gold h; items := items h; has_ult := has_ult h;
     buffs := buffs h |}.

Definition set_kda (v : Z * Z * Z) (h : HeroStatus) : HeroStatus :=
  {| name := name h; player_name := player_name h; team := team h;
     role := role h; level := level h; hp_percent := hp_percent h;
     mana_percent := mana_percent h; is_dead := is_dead h;
     respawn_time := respawn_time h; position := position h; kda := v;
     gold := gold h; items := items h; has_ult := has_ult h;
     buffs := buffs h |}.

Definition set_gold (v : Z) (h : HeroStatus) : HeroStatus :=
  {| name := name h; player_name := player_name h; team := team h;
     role := role h; level := level h; hp_percent := hp_percent h;
     mana_percent := mana_percent h; is_dead := is_dead h;
     respawn_time := respawn_time h; position := position h;
     kda := kda h; gold := v; items := items h; has_ult := has_ult h;
     buffs := buffs h |}.

Definition set_items (v : list str) (h : HeroStatus) : HeroStatus :=
  {| name := name h; player_name := player_name h; team := team h;
     role := role h; level := level h; hp_percent := hp_percent h;
     mana_percent := mana_percent h; is_dead := is_dead h;
     respawn_time := respawn_time h; position := position h;
     kda := kda h; gold := gold h; items := v; has_ult := has_ult h;
     buffs := buffs h |}.

Definition set_has_ult (v : bool) (h : HeroStatus) : HeroStatus :=
  {| name := name h; player_name := player_name h; team := team h;
     role := role h; level := level h; hp_percent := hp_percent h;
     mana_percent := mana_percent h; is_dead := is_dead h;
     respawn_time := respawn_time h; position := position h;
     kda := kda h; gold := gold h; items := items h; has_ult := v;
     buffs := buffs h |}.

Definition set_buffs (v : list str) (h : HeroStatus) : HeroStatus :=
  {| name := name h; player_name := player_name h; team := team h;
     role := role h; level := level h; hp_percent := hp_percent h;
     mana_percent := mana_percent h; is_dead := is_dead h;
     respawn_time := respawn_time h; position := position h;
     kda := kda h; gold := gold h; items := items h;
     has_ult := has_ult h; buffs := v |}.

Record TowerStatus : Type := mkTowerStatus {
  tower_team : str;
  tower_lane : str;
  tower_type : str;
  tower_hp_percent : float;
  tower_position : float * float;
  is_destroyed : bool
}.

Record MinionStatus : Type := mkMinionStatus {
  minion_team : str;
  minion_lane : str;
  minion_position : float * float;
  minion_count : Z;
  minion_hp_percent : float;
  minion_type : str
}.

Record MonsterStatus : Type := mkMonsterStatus {
  monster_name : str;
  monster_position : float * float;
  monster_hp_percent : float;
  monster_exists : bool;
  monster_description : str;
  monster_respawn_time : option Z
}.

Record MatchState : Type := mkMatchState {
  time_str : str;
  blue_kills : Z;
  red_kills : Z;
  blue_gold : Z;
  red_gold : Z;
  heroes : list HeroStatus;
  towers : list TowerStatus;
  minions : list MinionStatus;
  monsters : list MonsterStatus
}.

Definition set_time_str (v : str) (m : MatchState) : MatchState :=
  {| time_str := v; blue_kills := blue_kills m; red_kills := red_kills m;
     blue_gold := blue_gold m; red_gold := red_gold m;
     heroes := heroes m; towers := towers m; minions := minions m;
     monsters := monsters m |}.

Definition set_blue_kills (v : Z) (m : MatchState) : MatchState :=
  {| time_str := time_str m; blue_kills := v; red_kills := red_kills m;
     blue_gold := blue_gold m; red_gold := red_gold m;
     heroes := heroes m; towers := towers m; minions := minions m;
     monsters := monsters m |}.

Definition set_red_kills (v : Z) (m : MatchState) : MatchState :=
  {| time_str := time_str m; blue_kills := blue_kills m; red_kills := v;
     blue_gold := blue_gold m; red_gold := red_gold m;
     heroes := heroes m; towers := towers m; minions := minions m;
     monsters := monsters m |}.

Definition set_blue_gold (v : Z) (m : MatchState) : MatchState :=
  {| time_str := time_str m; blue_kills := blue_kills m;
     red_kills := red_kills m; blue_gold := v; red_gold := red_gold m;
     heroes := heroes m; towers := towers m; minions := minions m;
     monsters := monsters m |}.

Definition set_red_gold (v : Z) (m : MatchState) : MatchState :=
  {| time_str := time_str m; blue_kills := blue_kills m;
     red_kills := red_kills m; blue_gold := blue_gold m; red_gold := v;
     heroes := heroes m; towers := towers m; minions := minions m;
     monsters := monsters m |}.

Definition set_heroes (v : list HeroStatus) (m : MatchState) : MatchState :=
  {| time_str := time_str m; blue_kills := blue_kills m;
     red_kills := red_kills m; blue_gold := blue_gold m;
     red_gold := red_gold m; heroes := v; towers := towers m;
     minions := minions m; monsters := monsters m |}.

Definition set_towers (v : list TowerStatus) (m : MatchState) : MatchState :=
  {| time_str := time_str m; blue_kills := blue_kills m;
     red_kills := red_kills m; blue_gold := blue_gold m;
     red_gold := red_gold m; heroes := heroes m; towers := v;
     minions := minions m; monsters := monsters m |}.

Definition set_minions (v : list MinionStatus) (m : MatchState) : MatchState :=
  {| time_str := time_str m; blue_kills := blue_kills m;
     red_kills := red_kills m; blue_gold := blue_gold m;
     red_gold := red_gold m; heroes := heroes m; towers := towers m;
     minions := v; monsters := monsters m |}.

Definition set_monsters (v : list MonsterStatus) (m : MatchState) : MatchState :=
  {| time_str := time_str m; blue_kills := blue_kills m;
     red_kills := red_kills m; blue_gold := blue_gold m;
     red_gold := red_gold m; heroes := heroes m; towers := towers m;
     minions := minions m; monsters := v |}.

(** ** Helpers of the parser *)

(** [m.group(i)] for [i >= 1]. *)
Definition group (m : list str) (i : nat) : str := nth (Nat.pred i) m [].

(** [l[i]] *)
Definition index {A : Type} (l : list A) (i : nat) : result A :=
  match nth_error l i with
  | Some a => Ok a
  | None => Raise IndexError
  end.

(** [坐标[（\(]([\d\.-]+)，([\d\.-]+)[）\)]], shared by heroes and monsters *)
Definition coord_re : regex :=
  [Plain (Lit (u "坐标")); Plain open_paren; Group number1;
   Plain (Lit (u "，")); Group number1; Plain close_paren].

(** ** [MatchParser._parse_hero_line] *)

(** [<([^>]+)>] *)
Definition hero_tag_re : regex :=
  [Plain (Lit (u "<")); Group (Rep Greedy 1 (noneof (u ">")));
   Plain (Lit (u ">"))].

(** [是(我方|敌方)([^，]+)] *)
Definition role_re : regex :=
  [Plain (Lit (u "是")); Group (Alt [u "我方"; u "敌方"]);
   Group (Rep Greedy 1 (noneof (u "，")))].

(** [(\d+)级] *)
Definition level_re : regex := [Group digits1; Plain (Lit (u "级"))].

(** [还有(\d+)秒复活] *)
Definition respawn_re : regex :=
  [Plain (Lit (u "还有")); Group digits1; Plain (Lit (u "秒复活"))].

(** [血量.*?（(\d+)%）] *)
Definition hero_hp_re : regex :=
  [Plain (Lit (u "血量")); Plain any_lazy; Plain (Lit (u "（"));
   Group digits1; Plain (Lit (u "%）"))].

(** [蓝量(\d+)%] *)
Definition mana_re : regex :=
  [Plain (Lit (u "蓝量")); Group digits1; Plain (Lit (u "%"))].

(** [击杀：(\d+)，助攻：(\d+)，死亡：(\d+)] *)
Definition kda_re : regex :=
  [Plain (Lit (u "击杀：")); Group digits1; Plain (Lit (u "，助攻："));
   Group digits1; Plain (Lit (u "，死亡：")); Group digits1].

(** [当前经济：(\d+)] *)
Definition gold_re : regex := [Plain (Lit (u "当前经济：")); Group digits1].

Definition kw_dead : str := u "已阵亡".
Definition kw_no_ult : str := u "没有大招".
Definition kw_items : str := u "已出装备：".
Definition kw_tyrant_buff : str := u "暴君buff".

(** The constructor call [HeroStatus(name=..., player_name=..., team=...,
    role="", level=1, hp_percent=1.0, mana_percent=1.0)] with the defaults
    of the dataclass. *)
Definition new_hero (hero_name player_name team_str : str) : HeroStatus :=
  {| name := hero_name; player_name := player_name; team := team_str;
     role := []; level := 1; hp_percent := 1; mana_percent := 1;
     is_dead := false; respawn_time := 0; position := None;
     kda := (0, 0, 0)%Z; gold := 0; items := []; has_ult := false;
     buffs := [] |}.

(** [# Parse Role] *)
Definition parse_role (line : str) (hero : HeroStatus) : HeroStatus :=
  if contains (u "是") line && contains (u "路") line then
    match re_search role_re line with
    | Some role_match => set_role (group role_match 2) hero
    | None => hero
    end
  else hero.

(** [# Parse Level] *)
Definition parse_level (line : str) (hero : HeroStatus) : result HeroStatus :=
  match re_search level_re line with
  | Some lvl_match =>
      lvl <- py_int (group lvl_match 1) ;;
      Ok (set_level lvl hero)
  | None => Ok hero
  end.

(** [# Parse Dead/Alive], with [# Parse HP/Mana] in its [else] *)
Definition parse_dead_alive (line : str) (hero : HeroStatus) : result HeroStatus :=
  if contains kw_dead line then
    let hero := set_is_dead true hero in
    match re_search respawn_re line with
    | Some respawn_match =>
        t <- py_int (group respawn_match 1) ;;
        Ok (set_hp_percent 0 (set_respawn_time t hero))
    | None => Ok hero
    end
  else
    hero <-
      match re_search hero_hp_re line with
      | Some hp_match =>
          n <- py_int (group hp_match 1) ;;
          hp <- int_div_100 n ;;
          Ok (set_hp_percent hp hero)
      | None => Ok hero
      end ;;
    match re_search mana_re line with
    | Some mana_match =>
        n <- py_int (group mana_match 1) ;;
        mana <- int_div_100 n ;;
        Ok (set_mana_percent mana hero)
    | None => Ok hero
    end.

(** [# Parse Coordinates] *)
Definition parse_coordinates (line : str) (hero : HeroStatus) : result HeroStatus :=
  match re_search coord_re line with
  | Some coord_match =>
      x <- py_float (group coord_match 1) ;;
      y <- py_float (group coord_match 2) ;;
      Ok (set_position (Some (x, y)) hero)
  | None => Ok hero
  end.

(** [# Parse KDA]: the text gives kills, assists, deaths; the tuple is
    kills, deaths, assists. *)
Definition parse_kda (line : str) (hero : HeroStatus) : result HeroStatus :=
  match re_search kda_re line with
  | Some kda_match =>
      k <- py_int (group kda_match 1) ;;
      d <- py_int (group kda_match 3) ;;
      a <- py_int (group kda_match 2) ;;
      Ok (set_kda (k, d, a) hero)
  | None => Ok hero
  end.

(** [# Parse Gold] *)
Definition parse_gold (line : str) (hero : HeroStatus) : result HeroStatus :=
  match re_search gold_re line with
  | Some gold_match =>
      g <- py_int (group gold_match 1) ;;
      Ok (set_gold g hero)
  | None => Ok hero
  end.

(** [# Parse Items]: the [try] ... [except: pass] keeps the items unchanged
    when an index fails.  (The [re.search] for [items_match] just above it in
    the source has no effect and cannot raise.) *)
Definition parse_items (line : str) (hero : HeroStatus) : HeroStatus :=
  if contains kw_items line then
    match
      (after <- index (split kw_items line) 1 ;;
       items_part <- index (split (u "，") after) 0 ;;
       Ok (List.map strip (split (u "、") items_part)))
    with
    | Ok its => set_items its hero
    | Raise _ => hero
    end
  else hero.

(** [# Parse Buffs] *)
Definition parse_buffs (line : str) (hero : HeroStatus) : HeroStatus :=
  if contains kw_tyrant_buff line
  then set_buffs (buffs hero ++ [u "暴君"]) hero
  else hero.

(** [# Parse Ult] *)
Definition parse_ult (line : str) (hero : HeroStatus) : HeroStatus :=
  if contains kw_no_ult line then set_has_ult false hero
  else
    let hero := set_has_ult true hero in
    if contains kw_no_ult line then set_has_ult false hero else hero.

(** The hero a line describes: [None] when the line does not start with a
    tag (the early [return]). *)
Definition hero_of_line (line : str) : result (option HeroStatus) :=
  match re_match hero_tag_re line with
  | None => Ok None
  | Some name_match =>
      let full_name_tag := group name_match 1 in
      let parts := split (u "-") full_name_tag in
      part0 <- index parts 0 ;;
      let team_str := if str_eqb part0 (u "我方") then u "blue" else u "red" in
      player_name <- index parts 1 ;;
      let hero_name := last parts [] in
      let hero := new_hero hero_name player_name team_str in
      let hero := parse_role line hero in
      hero <- parse_level line hero ;;
      hero <- parse_dead_alive line hero ;;
      hero <- parse_coordinates line hero ;;
      hero <- parse_kda line hero ;;
      hero <- parse_gold line hero ;;
      let hero := parse_items line hero in
      let hero := parse_buffs line hero in
      let hero := parse_ult line hero in
      Ok (Some hero)
  end.

Definition _parse_hero_line (line : str) (match_state : MatchState)
  : result MatchState :=
  r <- hero_of_line line ;;
  match r with
  | Some hero => Ok (set_heroes (heroes match_state ++ [hero]) match_state)
  | None => Ok match_state
  end.

(** A [for] loop whose body may raise: the first exception ends it. *)
Fixpoint for_each {A B : Type} (body : A -> B -> result A) (l : list B) (a : A)
  : result A :=
  match l with
  | [] => Ok a
  | b :: l' => a' <- body a b ;; for_each body l' a'
  end.

(** ** [MatchParser._parse_tower_minion_line] *)

Definition towers_map : list str := [u "一塔"; u "二塔"; u "高地塔"].

Definition blue : str := u "blue".
Definition red : str := u "red".
Definition kw_ally : str := u "我方".
Definition kw_enemy : str := u "敌方".
Definition kw_threat : str := u "最近的威胁兵线为".

Definition owner_word : item := Alt [kw_ally; kw_enemy].
(** [[^防御塔]+] *)
Definition lane_word : item := Rep Greedy 1 (noneof (u "防御塔")).

(** [(我方|敌方)([^防御塔]+)防御塔被推到] *)
Definition tower_context_re : regex :=
  [Group owner_word; Group lane_word; Plain (Lit (u "防御塔被推到"))].

(** [最近的威胁兵线为(.*?)，.*?坐标[（\(]([\d\.-]+)，([\d\.-]+)[）\)].*?数量(\d+).*?血量(\d+)%] *)
Definition minion_re : regex :=
  [Plain (Lit kw_threat); Group any_lazy; Plain (Lit (u "，")); Plain any_lazy;
   Plain (Lit (u "坐标")); Plain open_paren; Group number1;
   Plain (Lit (u "，")); Group number1; Plain close_paren; Plain any_lazy;
   Plain (Lit (u "数量")); Group digits1; Plain any_lazy;
   Plain (Lit (u "血量")); Group digits1; Plain (Lit (u "%"))].

(** [(我方|敌方)([^防御塔]+)防御塔被推到(.*?)，.*?坐标[（\(]([\d\.-]+)，([\d\.-]+)[）\)].*?剩余血量(\d+)%] *)
Definition tower_re : regex :=
  [Group owner_word; Group lane_word; Plain (Lit (u "防御塔被推到"));
   Group any_lazy; Plain (Lit (u "，")); Plain any_lazy;
   Plain (Lit (u "坐标")); Plain open_paren; Group number1;
   Plain (Lit (u "，")); Group number1; Plain close_paren; Plain any_lazy;
   Plain (Lit (u "剩余血量")); Group digits1; Plain (Lit (u "%"))].

(** ["blue" if m.group(1) == "我方" else "red"] *)
Definition team_of_owner (w : str) : str :=
  if str_eqb w kw_ally then blue else red.

(** The team that owns the tower a segment describes, [None] when the
    segment names no pushed tower. *)
Definition context_team (seg : str) : option str :=
  match re_search tower_context_re seg with
  | Some tower_match_for_context =>
      Some (team_of_owner (group tower_match_for_context 1))
  | None => None
  end.

(** The team of a threatening wave, from the context of its segment. *)
Definition minion_team_of (context : option str) : str :=
  let minion_team := red in
  match context with
  | Some t =>
      if str_eqb t blue then red
      else if str_eqb t red then blue
      else minion_team
  | None => minion_team
  end.

(** [# Minions] part of the loop body *)
Definition segment_minions (line seg : str) (match_state : MatchState)
  : result MatchState :=
  let context := context_team seg in
  if contains kw_threat seg then
    let minion_team := minion_team_of context in
    lane0 <- index (split (u "：") line) 0 ;;
    let lane := strip lane0 in
    match re_search minion_re seg with
    | Some m_match =>
        x <- py_float (group m_match 2) ;;
        y <- py_float (group m_match 3) ;;
        count <- py_int (group m_match 4) ;;
        hp <- py_float (group m_match 5) ;;
        Ok (set_minions
              (minions match_state ++
               [{| minion_team := minion_team; minion_lane := lane;
                   minion_position := (x, y); minion_count := count;
                   minion_hp_percent := float_div_100 hp;
                   minion_type := group m_match 1 |}])
              match_state)
    | None => Ok match_state
    end
  else Ok match_state.

(** The loop that looks for the frontier tier: index of the first label of
    [towers_map] found in the name, [None] for the source's [-1]. *)
Fixpoint find_frontier (labels : list str) (i : nat) (current_tower_name : str)
  : option nat :=
  match labels with
  | [] => None
  | t :: labels' =>
      if contains t current_tower_name then Some i
      else find_frontier labels' (S i) current_tower_name
  end.

Definition frontier_idx (current_tower_name : str) : option nat :=
  find_frontier towers_map O current_tower_name.

(** [# Towers] part of the loop body.  Only the frontier tower is added; the
    block that added the inner tiers from [static_towers] is commented out in
    the source. *)
Definition segment_towers (seg : str) (match_state : MatchState)
  : result MatchState :=
  match re_search tower_re seg with
  | Some tower_match =>
      let team_str := team_of_owner (group tower_match 1) in
      let lane_str := strip (group tower_match 2) in
      let current_tower_name := strip (group tower_match 3) in
      n <- py_int (group tower_match 6) ;;
      hp <- int_div_100 n ;;
      match frontier_idx current_tower_name with
      | Some i =>
          x <- py_float (group tower_match 4) ;;
          y <- py_float (group tower_match 5) ;;
          Ok (set_towers
                (towers match_state ++
                 [{| tower_team := team_str; tower_lane := lane_str;
                     tower_type := nth i towers_map [];
                     tower_hp_percent := hp; tower_position := (x, y);
                     is_destroyed := false |}])
                match_state)
      | None => Ok match_state
      end
  | None => Ok match_state
  end.

(** The dictionary [static_towers]: (team, lane, type) -> (x, y), in
    insertion order. *)
Definition tower_key : Type := (str * str * str)%type.
Definition static_dict : Type := list (tower_key * (float * float)).

Definition key_eqb (a b : tower_key) : bool :=
  str_eqb (fst (fst a)) (fst (fst b)) && str_eqb (snd (fst a)) (snd (fst b))
  && str_eqb (snd a) (snd b).

(** [d[k] = v] *)
Fixpoint dict_set (k : tower_key) (v : float * float) (d : static_dict)
  : static_dict :=
  match d with
  | [] => [(k, v)]
  | (k', v') :: d' =>
      if key_eqb k k' then (k', v) :: d' else (k', v') :: dict_set k v d'
  end.

Definition _parse_tower_minion_line (line : str) (match_state : MatchState)
  (static_towers : static_dict) : result MatchState :=
  let segments := split (u "；") line in
  for_each
    (fun match_state seg =>
       match_state <- segment_minions line seg match_state ;;
       segment_towers seg match_state)
    segments match_state.

(** ** [MatchParser.parse] *)

(** [(蓝方|红方)([^防御塔\d]+)(一塔|二塔|高地塔)[（\(]([\d\.-]+)[,，]\s*([\d\.-]+)[）\)]] *)
Definition static_tower_re : regex :=
  [Group (Alt [u "蓝方"; u "红方"]);
   Group (Rep Greedy 1 (fun c => noneof (u "防御塔") c && negb (is_digit c)));
   Group (Alt towers_map); Plain open_paren; Group number1;
   Plain (One (oneof (u ",，"))); Plain (Rep Greedy 0 is_space);
   Group number1; Plain close_paren].

(** [(\d+)分(\d+)秒] *)
Definition clock_re : regex :=
  [Group digits1; Plain (Lit (u "分")); Group digits1; Plain (Lit (u "秒"))].

(** [\d+], the whole match taken as group 1 *)
Definition int_re : regex := [Group digits1].

(** [(\d+)秒后刷新] *)
Definition monster_respawn_re : regex :=
  [Group digits1; Plain (Lit (u "秒后刷新"))].

(** [血量(\d+)%] *)
Definition monster_hp_re : regex :=
  [Plain (Lit (u "血量")); Group digits1; Plain (Lit (u "%"))].

Definition sec_map_info : str := u "地图信息".
Definition sec_overall : str := u "整体情况".
Definition sec_totals : str := u "总体态势".
Definition sec_towers : str := u "防御塔与兵线状态".
Definition sec_monsters : str := u "野怪状态".
Definition hero_sections : list str :=
  [u "玩家情况"; u "我方英雄状态"; u "视野可见的敌方英雄";
   u "视野不可见的敌方英雄"; u "阵亡英雄"].

Definition kw_phase : str := u "游戏阶段".
Definition kw_blue_kills : str := u "我方人头数".
Definition kw_red_kills : str := u "敌方人头数".
Definition kw_blue_gold : str := u "我方总经济".
Definition kw_red_gold : str := u "敌方总经济".
Definition kw_absent : str := u "不存在".
Definition kw_present : str := u "存在".
Definition kw_hp : str := u "血量".

Definition known_monsters : list str :=
  [u "主宰"; u "暴君"; u "风暴龙王"; u "我方蓝buff"; u "敌方蓝buff";
   u "我方红buff"; u "敌方红buff"].

(** [current_section == name] *)
Definition section_is (current_section : option str) (name : str) : bool :=
  match current_section with
  | Some s => str_eqb s name
  | None => false
  end.

(** The body of the first loop: [(current_section, static_towers)] after one
    line. *)
Definition prepass_step (st : option str * static_dict) (line : str)
  : result (option str * static_dict) :=
  let '(current_section, static_towers) := st in
  if startswith (u "[地图信息]") (strip line) then
    Ok (Some sec_map_info, static_towers)
  else if startswith (u "[") (strip line) then Ok (None, static_towers)
  else if section_is current_section sec_map_info then
    static_towers <-
      for_each
        (fun static_towers m =>
           let team_code := if str_eqb (group m 1) (u "蓝方") then blue else red in
           let lane := group m 2 in
           let t_type := group m 3 in
           x <- py_float (group m 4) ;;
           y <- py_float (group m 5) ;;
           Ok (dict_set (team_code, lane, t_type) (x, y) static_towers))
        (re_findall static_tower_re line) static_towers ;;
    Ok (current_section, static_towers)
  else Ok st.

(** [int(re.search(r'\d+', p.split('：')[1]).group())] *)
Definition int_after_colon (p : str) : result Z :=
  val_str <- index (split (u "：") p) 1 ;;
  match re_search int_re val_str with
  | Some m => py_int (group m 1)
  | None => Raise AttributeError
  end.

(** Section 整体情况 *)
Definition overall_line (line : str) (match_state : MatchState) : MatchState :=
  if contains kw_phase line then
    match re_search clock_re line with
    | Some m =>
        set_time_str (group m 1 ++ u ":" ++ zfill 2 (group m 2)) match_state
    | None => match_state
    end
  else match_state.

(** Section 总体态势 *)
Definition totals_line (line : str) (match_state : MatchState)
  : result MatchState :=
  if contains kw_blue_kills line then
    for_each
      (fun match_state p =>
         if contains kw_blue_kills p then
           v <- int_after_colon p ;; Ok (set_blue_kills v match_state)
         else if contains kw_red_kills p then
           v <- int_after_colon p ;; Ok (set_red_kills v match_state)
         else Ok match_state)
      (split (u "，") line) match_state
  else if contains kw_blue_gold line then
    for_each
      (fun match_state p =>
         if contains kw_blue_gold p then
           v <- int_after_colon p ;; Ok (set_blue_gold v match_state)
         else if contains kw_red_gold p then
           v <- int_after_colon p ;; Ok (set_red_gold v match_state)
         else Ok match_state)
      (split (u "，") line) match_state
  else Ok match_state.

(** Section 野怪状态, one segment *)
Definition monster_segment (match_state : MatchState) (seg : str)
  : result MatchState :=
  let seg := strip_chars (u "。") (strip seg) in
  match seg with
  | [] => Ok match_state
  | _ :: _ =>
      if contains (u "：") seg
         && (contains kw_absent seg || contains kw_present seg || contains kw_hp seg)
      then
        match find (fun m_name => contains m_name seg) known_monsters with
        | Some current_monster =>
            '(current_exists, current_respawn) <-
              (if contains kw_absent seg then
                 match re_search monster_respawn_re seg with
                 | Some r_match =>
                     t <- py_int (group r_match 1) ;; Ok (false, Some t)
                 | None => Ok (false, None)
                 end
               else if contains kw_present seg || contains kw_hp seg then
                 Ok (true, None)
               else Ok (false, None)) ;;
            current_coord <-
              match re_search coord_re seg with
              | Some c_match =>
                  x <- py_float (group c_match 1) ;;
                  y <- py_float (group c_match 2) ;;
                  Ok (Some (x, y))
              | None => Ok None
              end ;;
            current_hp <-
              match re_search monster_hp_re seg with
              | Some hp_match =>
                  h <- py_float (group hp_match 1) ;; Ok (float_div_100 h)
              | None => Ok (if current_exists : bool then 1 else 0)
              end ;;
            Ok (set_monsters
                  (monsters match_state ++
                   [{| monster_name := current_monster;
                       monster_position :=
                         match current_coord with
                         | Some c => c
                         | None => (0, 0)
                         end;
                       monster_hp_percent := current_hp;
                       monster_exists := current_exists;
                       monster_description := seg;
                       monster_respawn_time := current_respawn |}])
                  match_state)
        | None => Ok match_state
        end
      else Ok match_state
  end.

(** The [if]/[elif] chain on [current_section] in the second loop. *)
Definition section_line (current_section : option str) (line : str)
  (match_state : MatchState) (static_towers : static_dict) : result MatchState :=
  if section_is current_section sec_overall then
    Ok (overall_line line match_state)
  else if section_is current_section sec_totals then
    totals_line line match_state
  else if existsb (section_is current_section) hero_sections then
    if startswith (u "<") line then _parse_hero_line line match_state
    else Ok match_state
  else if section_is current_section sec_towers then
    _parse_tower_minion_line line match_state static_towers
  else if section_is current_section sec_monsters then
    for_each monster_segment (split (u "；") line) match_state
  else Ok match_state.

(** [line.startswith('[') and line.endswith(']')] *)
Definition is_header (line : str) : bool :=
  startswith (u "[") line && endswith (u "]") line.

(** The body of the second loop: [(current_section, match_state)] after one
    line. *)
Definition main_step (static_towers : static_dict)
  (st : option str * MatchState) (line : str)
  : result (option str * MatchState) :=
  let '(current_section, match_state) := st in
  let line := strip line in
  match line with
  | [] => Ok st
  | _ :: _ =>
      if is_header line then Ok (Some (slice_1_m1 line), match_state)
      else
        match_state <- section_line current_section line match_state static_towers ;;
        Ok (current_section, match_state)
  end.

Definition initial_state : MatchState :=
  {| time_str := u "00:00"; blue_kills := 0; red_kills := 0; blue_gold := 0;
     red_gold := 0; heroes := []; towers := []; minions := [];
     monsters := [] |}.

Definition first_pass (lines : list str) : result static_dict :=
  st <- for_each prepass_step lines (None, []) ;;
  Ok (snd st).

Definition main_pass (static_towers : static_dict) (lines : list str)
  : result MatchState :=
  st <- for_each (main_step static_towers) lines (None, initial_state) ;;
  Ok (snd st).

Definition parse (text : str) : result MatchState :=
  let lines := split [10%N] text in
  static_towers <- first_pass lines ;;
  main_pass static_towers lines.

Definition sample : str := u "[整体情况]
游戏阶段：中期，当前时间13分4秒
[总体态势]
我方人头数：5，敌方人头数：3
我方总经济：30500，敌方总经济：28000
[我方英雄状态]
<我方-玩家-廉颇>是我方上路，14级，没有大招，血量3000/6000（50%），蓝量80%，坐标（-51.80，21.20），击杀：1，助攻：2，死亡：3，当前经济：4500，已出装备：红莲斗篷、霸者重装，剩余金币100
[阵亡英雄]
<敌方-对手-亚瑟>已阵亡，还有12秒复活
[防御塔与兵线状态]
上路：我方上路防御塔被推到上路二塔，坐标（-30.0，10.0），剩余血量40%，最近的威胁兵线为普通小兵，坐标（-28.5，11.0），数量3，血量75%；敌方上路防御塔被推到上路一塔，坐标（30.0，-10.0），剩余血量90%
[野怪状态]
核心中立野怪：主宰，坐标（-18.50，23.30）：不存在，29秒后刷新；暴君，坐标（18.20，-23.70）：存在血量100%
[地图信息]
我方防御塔坐标为：蓝方上路一塔(-52.4, 28.7)、蓝方上路高地塔（-40.1，8.2）".

(** ** [renderer.py]: what drawing a side card reads from a hero *)

Inductive value : Type :=
| VStr (s : str)
| VInt (n : Z)
| VFloat (x : float)
| VBool (b : bool)
| VPosition (p : option (float * float))
| VKda (k : Z * Z * Z)
| VList (l : list str).

(** [hero.attr]: a [HeroStatus] has the fields of its dataclass as
    attributes, and no others. *)
Definition getattr (hero : HeroStatus) (attr : string) : result value :=
  if String.eqb attr "name" then Ok (VStr (name hero))
  else if String.eqb attr "player_name" then Ok (VStr (player_name hero))
  else if String.eqb attr "team" then Ok (VStr (team hero))
  else if String.eqb attr "role" then Ok (VStr (role hero))
  else if String.eqb attr "level" then Ok (VInt (level hero))
  else if String.eqb attr "hp_percent" then Ok (VFloat (hp_percent hero))
  else if String.eqb attr "mana_percent" then Ok (VFloat (mana_percent hero))
  else if String.eqb attr "is_dead" then Ok (VBool (is_dead hero))
  else if String.eqb attr "respawn_time" then Ok (VInt (respawn_time hero))
  else if String.eqb attr "position" then Ok (VPosition (position hero))
  else if String.eqb attr "kda" then Ok (VKda (kda hero))
  else if String.eqb attr "gold" then Ok (VInt (gold hero))
  else if String.eqb attr "items" then Ok (VList (items hero))
  else if String.eqb attr "has_ult" then Ok (VBool (has_ult hero))
  else if String.eqb attr "buffs" then Ok (VList (buffs hero))
  else Raise AttributeError.

(** Truth value of an object in a condition. *)
Definition truthy (v : value) : bool :=
  match v with
  | VStr s => negb (Nat.eqb (List.length s) 0)
  | VInt n => negb (n =? 0)%Z
  | VFloat x => negb (Qeq_bool x 0)
  | VBool b => b
  | VPosition p => match p with Some _ => true | None => false end
  | VKda _ => true
  | VList l => negb (Nat.eqb (List.length l) 0)
  end.

(** What the avatar of a side card shows. *)
Record avatar : Type := mkAvatar {
  grayscale : bool;
  invisible_overlay : bool
}.

(** The [# Avatar] block of [MatchRenderer._draw_hero_card]; the texts, bars
    and item icons drawn after it are left out.  [icon] tells whether
    [_get_hero_icon(hero.name)] found an image, [invisible_icon] whether
    [invisible.png] was loaded.  The result is [None] when no icon is
    pasted. *)
Definition _draw_hero_card (icon invisible_icon : bool) (hero : HeroStatus)
  : result (option avatar) :=
  if icon then
    dead <- getattr hero "is_dead" ;;
    visible <- getattr hero "is_visible" ;;
    Ok (Some {| grayscale := truthy dead;
                invisible_overlay := negb (truthy visible) && invisible_icon |})
  else Ok None.

(** [MatchRenderer._draw_side_panels]: the cards of the blue heroes, then
    those of the red heroes.  [has_icon] stands for the icon files present. *)
Definition _draw_side_panels (has_icon : str -> bool) (invisible_icon : bool)
  (match_state : MatchState) : result (list (option avatar)) :=
  let blue_heroes := filter (fun h => str_eqb (team h) blue) (heroes match_state) in
  let red_heroes := filter (fun h => str_eqb (team h) red) (heroes match_state) in
  for_each
    (fun cards hero =>
       card <- _draw_hero_card (has_icon (name hero)) invisible_icon hero ;;
       Ok (cards ++ [card]))
    (blue_heroes ++ red_heroes) [].

(** ** Notions used in the statements *)

(** What a group of a pattern can capture. *)
Definition cap_ok (i : item) (w : str) : Prop :=
  match i with
  | Lit l => w = l
  | Alt ws => In w ws
  | One c => exists x, w = [x] /\ c x = true
  | Rep _ min c => forallb c w = true /\ (min <= List.length w)%nat
  end.

Fixpoint groups_of (r : regex) : list item :=
  match r with
  | [] => []
  | Group i :: r' => i :: groups_of r'
  | Plain _ :: r' => groups_of r'
  end.

(** The life-state invariant of a hero: alive with positive hp or dead with
    zero hp, and a respawn countdown only when dead. *)
Definition life_invariant (h : HeroStatus) : Prop :=
  ((is_dead h = false /\ 0 < hp_percent h)
   \/ (is_dead h = true /\ hp_percent h == 0))
  /\ (respawn_time h <> 0%Z -> is_dead h = true).

(** Life state of a hero: the three fields [# Parse Dead/Alive] writes. *)
Definition same_life (h h' : HeroStatus) : Prop :=
  is_dead h' = is_dead h /\ hp_percent h' = hp_percent h
  /\ respawn_time h' = respawn_time h.


(** A text given by its lines. *)
Fixpoint text_of (ls : list string) : str :=
  match ls with
  | [] => []
  | [l] => u l
  | l :: ls' => u l ++ 10%N :: text_of ls'
  end.

(** Lines used as concrete inputs below. *)
Definition kda_line : str := u "<我方-玩家-廉颇>击杀：7，助攻：12，死亡：3".
Definition no_ult_line : str := u "<我方-玩家-廉颇>14级，没有大招".
Definition dead_text : str :=
  text_of ["[阵亡英雄]"; "<敌方-对手-亚瑟>已阵亡，还有12秒复活"].

Definition tower_segment : str :=
  u "我方上路防御塔被推到上路二塔，坐标（-30.0，10.0），剩余血量40%".
Definition wave_line : str :=
  u "上路：我方上路防御塔被推到上路二塔，坐标（-30.0，10.0），剩余血量40%，最近的威胁兵线为普通小兵，坐标（-28.5，11.0），数量3，血量75%".
Definition clock_line : str := u "游戏阶段：中期，当前时间13分4秒".
Definition short_clock_text : str :=
  text_of ["[整体情况]"; "游戏阶段：对线期，当前时间5分4秒"].
Definition push_line : string :=
  "上路：我方上路防御塔被推到上路一塔，坐标（-30.0，10.0），剩余血量40%".
Definition map_text_1 : str :=
  text_of ["[地图信息]";
           "我方防御塔坐标为：蓝方上路二塔(-40.0, 20.0)、蓝方上路高地塔(-45.0, 25.0)";
           "[防御塔与兵线状态]"; push_line].
Definition map_text_2 : str :=
  text_of ["[地图信息]";
           "我方防御塔坐标为：蓝方上路二塔(-1.0, 2.0)、蓝方上路高地塔(-3.0, 4.0)";
           "[防御塔与兵线状态]"; push_line].
Definition long_percent_text : str :=
  text_of ["[玩家情况]"; "<我方-玩家-廉颇>血量（"] ++ repeat 57%N 400 ++ u "%）".
Definition dead_no_countdown_text : str :=
  text_of ["[阵亡英雄]"; "<敌方-对手-亚瑟>已阵亡"].

From Stdlib Require Import Permutation.

(** ** Notions used in the further properties *)

(** A tower as the parser records it. *)
Definition tower_ok (t : TowerStatus) : Prop :=
  In (tower_type t) towers_map
  /\ (tower_team t = blue \/ tower_team t = red)
  /\ is_destroyed t = false
  /\ 0 <= tower_hp_percent t.

(** A wave as the parser records it for a segment of a line. *)
Definition wave_of (line seg : str) (w : MinionStatus) : Prop :=
  minion_lane w = strip (nth 0 (split (u "：") line) [])
  /\ minion_team w = minion_team_of (context_team seg)
  /\ (0 <= minion_count w)%Z
  /\ 0 <= minion_hp_percent w.

Definition wave_ok (w : MinionStatus) : Prop :=
  (minion_team w = blue \/ minion_team w = red)
  /\ (0 <= minion_count w)%Z
  /\ 0 <= minion_hp_percent w.

(** A clock string: digits, a colon, at least two digits. *)
Definition clock_ok (s : str) : Prop :=
  exists mm ss,
    s = mm ++ u ":" ++ ss
    /\ forallb is_digit mm = true /\ (1 <= List.length mm)%nat
    /\ forallb is_digit ss = true /\ (2 <= List.length ss)%nat.

Definition counters_ok (m : MatchState) : Prop :=
  (0 <= blue_kills m /\ 0 <= red_kills m
   /\ 0 <= blue_gold m /\ 0 <= red_gold m)%Z.

(** A monster as the parser records it: every field is read off the
    segment kept in [monster_description]. *)
Definition monster_ok (m : MonsterStatus) : Prop :=
  let seg := monster_description m in
  find (fun n => contains n seg) known_monsters = Some (monster_name m)
  /\ contains (u "：") seg = true
  /\ monster_exists m = negb (contains kw_absent seg)
  /\ (monster_exists m = true -> monster_respawn_time m = None)
  /\ (re_search monster_respawn_re seg = None -> monster_respawn_time m = None)
  /\ (forall t, monster_respawn_time m = Some t -> (0 <= t)%Z)
  /\ (re_search coord_re seg = None -> monster_position m = (0, 0))
  /\ (re_search monster_hp_re seg = None ->
      monster_hp_percent m = if monster_exists m then 1 else 0)
  /\ 0 <= monster_hp_percent m.

(** What one line may do to the state: replace the clock by a well-formed
    one, replace counters by non-negative numbers, and append heroes built
    from the line, towers, waves and monsters of the shapes above. *)
Definition line_effect (line : str) (ms ms' : MatchState) : Prop :=
  exists t bk rk bg rg hs ts ws mons,
    ms' = {| time_str := t; blue_kills := bk; red_kills := rk;
             blue_gold := bg; red_gold := rg;
             heroes := heroes ms ++ hs; towers := towers ms ++ ts;
             minions := minions ms ++ ws; monsters := monsters ms ++ mons |}
    /\ (t = time_str ms \/ clock_ok t)
    /\ (bk = blue_kills ms \/ 0 <= bk)%Z
    /\ (rk = red_kills ms \/ 0 <= rk)%Z
    /\ (bg = blue_gold ms \/ 0 <= bg)%Z
    /\ (rg = red_gold ms \/ 0 <= rg)%Z
    /\ Forall (fun h => hero_of_line line = Ok (Some h)) hs
    /\ Forall tower_ok ts
    /\ Forall wave_ok ws
    /\ Forall monster_ok mons.

(** Further concrete inputs. *)
Definition orphan_wave_segment : str :=
  u "最近的威胁兵线为炮车，坐标（1.0，2.0），数量2，血量50%".
Definition kills_and_gold_line : str := u "我方人头数：5，我方总经济：3000".
Definition enemy_kills_only_line : str := u "敌方人头数：3".

(** The fields of a hero as the blocks of [_parse_hero_line] read them off
    a line; a phrase that is absent leaves the default of the constructor
    call. *)
Definition reads_role (line : str) (ro : str) : Prop :=
  (contains (u "是") line && contains (u "路") line = false
   \/ re_search role_re line = None) /\ ro = []
  \/ exists m,
       contains (u "是") line && contains (u "路") line = true
       /\ re_search role_re line = Some m /\ ro = group m 2.

Definition reads_int (r : regex) (default : Z) (line : str) (v : Z) : Prop :=
  re_search r line = None /\ v = default
  \/ exists m, re_search r line = Some m /\ py_int (group m 1) = Ok v.

Definition reads_percent (r : regex) (line : str) (x : float) : Prop :=
  re_search r line = None /\ x = 1
  \/ exists m n, re_search r line = Some m /\ py_int (group m 1) = Ok n
                 /\ x = Qmake n 100.

Definition reads_life (line : str) (d : bool) (r : Z) (hp mana : float) : Prop :=
  (contains kw_dead line = true ->
   d = true /\ mana = 1
   /\ (re_search respawn_re line = None /\ r = 0%Z /\ hp = 1
       \/ exists m, re_search respawn_re line = Some m
                    /\ py_int (group m 1) = Ok r /\ hp = 0))
  /\ (contains kw_dead line = false ->
      d = false /\ r = 0%Z
      /\ reads_percent hero_hp_re line hp
      /\ reads_percent mana_re line mana).

Definition reads_position (line : str) (p : option (float * float)) : Prop :=
  re_search coord_re line = None /\ p = None
  \/ exists m x y, re_search coord_re line = Some m
                   /\ py_float (group m 1) = Ok x
                   /\ py_float (group m 2) = Ok y
                   /\ p = Some (x, y).

Definition reads_kda (line : str) (k : Z * Z * Z) : Prop :=
  re_search kda_re line = None /\ k = (0, 0, 0)%Z
  \/ exists m K A D, re_search kda_re line = Some m
                     /\ py_int (group m 1) = Ok K
                     /\ py_int (group m 2) = Ok A
                     /\ py_int (group m 3) = Ok D
                     /\ k = (K, D, A).

Definition reads_items (line : str) (its : list str) : Prop :=
  contains kw_items line = false /\ its = []
  \/ exists after items_part,
       contains kw_items line = true
       /\ nth_error (split kw_items line) 1 = Some after
       /\ nth_error (split (u "，") after) 0 = Some items_part
       /\ its = List.map strip (split (u "、") items_part).

Definition two_token_line : str := u "<我方-廉颇>14级".
Definition stranger_line : str := u "<友军-玩家-廉颇>14级".
Definition bare_line : str := u "<敌方-对手-亚瑟>".
Definition dead_with_bars_line : str :=
  u "<敌方-对手-亚瑟>已阵亡，血量3000/6000（50%），蓝量80%".
Definition overfull_line : str :=
  u "<我方-玩家-廉颇>血量9000/6000（150%），蓝量120%".
Definition items_line : str :=
  u "<我方-玩家-廉颇>已出装备： 红莲斗篷 、、霸者重装，剩余金币100".

(** The numbers of a hero that are read with [int] or as percentages. *)
Definition hero_numbers_ok (h : HeroStatus) : Prop :=
  (0 <= level h)%Z /\ (0 <= respawn_time h)%Z /\ (0 <= gold h)%Z
  /\ (0 <= fst (fst (kda h)) /\ 0 <= snd (fst (kda h)) /\ 0 <= snd (kda h))%Z
  /\ 0 <= hp_percent h /\ 0 <= mana_percent h.

Definition headerless_text : str :=
  text_of ["游戏阶段：中期，当前时间13分4秒"; "<廉颇>"; "我方人头数5"].
Definition no_map_info_text : str :=
  text_of ["[整体情况]"; "游戏阶段：中期，当前时间13分4秒";
           "蓝方上路一塔(-, 1)"].

(** ** [renderer.py]: which heroes are drawn where *)

(** [_draw_side_panels]: the heroes that get a card on the left and on the
    right, in drawing order. *)
Definition blue_heroes (match_state : MatchState) : list HeroStatus :=
  filter (fun h => str_eqb (team h) blue) (heroes match_state).
Definition red_heroes (match_state : MatchState) : list HeroStatus :=
  filter (fun h => str_eqb (team h) red) (heroes match_state).

(** [_draw_top_bar]: the heroes named in the list of dead heroes of a side,
    [[... for h in match_state.heroes if h.team == side and h.is_dead]]. *)
Definition dead_heroes (side : str) (match_state : MatchState) : list HeroStatus :=
  filter (fun h => str_eqb (team h) side && is_dead h) (heroes match_state).

(** [_draw_map_elements], the loop over the heroes: the dictionary
    [hero_map_coords], hero name -> screen position, in insertion order.
    Screen positions are floats computed by [_coord_transform]; the
    transform is a parameter, the dictionary does not look into them. *)
Section MapCoords.
Variable coord : Type.
Variable _coord_transform : float * float -> coord.

(** [d[k] = v] *)
Fixpoint coords_put (k : str) (v : coord) (d : list (str * coord))
  : list (str * coord) :=
  match d with
  | [] => [(k, v)]
  | (k', v') :: d' =>
      if str_eqb k' k then (k', v) :: d' else (k', v') :: coords_put k v d'
  end.

(** [d.get(k)], [None] when [k not in d] *)
Fixpoint coords_get (k : str) (d : list (str * coord)) : option coord :=
  match d with
  | [] => None
  | (k', v') :: d' => if str_eqb k' k then Some v' else coords_get k d'
  end.

Definition hero_map_coords (match_state : MatchState) : list (str * coord) :=
  fold_left
    (fun d hero =>
       match position hero with
       | Some pos => coords_put (name hero) (_coord_transform pos) d
       | None => d
       end)
    (heroes match_state) [].

(** [_draw_hero_card], the block [# Connecting Line logic] at the end of
    the function (reached when the avatar block has not raised): the end
    point on the map when the line is drawn.  [overlap] stands for
    [_check_overlap] at the icon radius. *)
Definition card_connector (overlap : coord -> coord -> bool)
  (d : list (str * coord)) (hero : HeroStatus) : option coord :=
  match coords_get (name hero) d with
  | Some current_pos =>
      if existsb
           (fun entry =>
              negb (str_eqb (fst entry) (name hero))
              && overlap current_pos (snd entry))
           d
      then Some current_pos
      else None
  | None => None
  end.

End MapCoords.

(** The last hero of that name with a position, if any. *)
Definition last_positioned (n : str) (hs : list HeroStatus) : option HeroStatus :=
  find (fun h => str_eqb (name h) n
                 && match position h with Some _ => true | None => false end)
       (rev hs).

Definition namesake_text : str :=
  text_of ["[我方英雄状态]"; "<我方-玩家-廉颇>坐标（1.0，2.0）";
           "[视野不可见的敌方英雄]"; "<敌方-对手-廉颇>14级";
           "[视野可见的敌方英雄]"; "<敌方-对手-亚瑟>坐标（3.0，4.0）"].

(** * Properties *)

(** ** The embedding at work *)

Example u_example : u "13分4秒" = [49; 51; 20998; 52; 31186]%N.
Proof. reflexivity. Qed.

Example split_example : split (u "，") (u "a，b，") = [u "a"; u "b"; []].
Proof. reflexivity. Qed.

Example float_example : py_float (u "-51.80") = Ok (Qmake (-5180) 100).
Proof. reflexivity. Qed.

Example greedy_backtracks :
  re_search static_tower_re (u "蓝方上路高地塔（-40.1，8.2）")
  = Some [u "蓝方"; u "上路"; u "高地塔"; u "-40.1"; u "8.2"].
Proof. vm_compute. reflexivity. Qed.

Example lazy_stops_early :
  re_search hero_hp_re (u "血量3000/6000（50%），护盾（20%）") = Some [u "50"].
Proof. vm_compute. reflexivity. Qed.

(** The sample report: clock, totals, the two heroes, the two frontier
    towers, the wave and the two monsters. *)
Example parse_sample :
  exists match_state ally enemy t1 t2 wave m1 m2,
    parse sample = Ok match_state
    /\ time_str match_state = u "13:04"
    /\ (blue_kills match_state, red_kills match_state) = (5, 3)%Z
    /\ (blue_gold match_state, red_gold match_state) = (30500, 28000)%Z
    /\ heroes match_state = [ally; enemy]
    /\ (name ally, player_name ally, team ally, role ally)
       = (u "廉颇", u "玩家", blue, u "上路")
    /\ (level ally, has_ult ally, kda ally, gold ally)
       = (14, false, (1, 3, 2), 4500)%Z
    /\ items ally = [u "红莲斗篷"; u "霸者重装"]
    /\ (is_dead enemy, respawn_time enemy, has_ult enemy) = (true, 12%Z, true)
    /\ towers match_state = [t1; t2]
    /\ (tower_team t1, tower_lane t1, tower_type t1) = (blue, u "上路", u "二塔")
    /\ (tower_team t2, tower_lane t2, tower_type t2) = (red, u "上路", u "一塔")
    /\ minions match_state = [wave]
    /\ (minion_team wave, minion_count wave) = (red, 3%Z)
    /\ monsters match_state = [m1; m2]
    /\ (monster_name m1, monster_exists m1, monster_respawn_time m1)
       = (u "主宰", false, Some 29%Z)
    /\ (monster_name m2, monster_exists m2) = (u "暴君", true).
Proof.
  do 8 eexists. split; [vm_compute; reflexivity|].
  repeat (split; [reflexivity|]). reflexivity.
Qed.

(** ** The result monad *)

Lemma bind_ok {A B : Type} (e : result A) (k : A -> result B) (b : B) :
  bind e k = Ok b -> exists a, e = Ok a /\ k a = Ok b.
Proof.
  destruct e as [a|x]; simpl; intros H; [exists a; auto | discriminate].
Qed.

Ltac bind_inv H :=
  let a := fresh "v" in
  let Ha := fresh "E" in
  apply bind_ok in H; destruct H as (a & Ha & H).

Section Loops.
Context {A B : Type}.

(** A loop keeps whatever every round of its body keeps. *)
Lemma for_each_invariant (P : A -> Prop) (body : A -> B -> result A)
  (l : list B) :
  (forall a b a', In b l -> P a -> body a b = Ok a' -> P a') ->
  forall a a', P a -> for_each body l a = Ok a' -> P a'.
Proof.
  induction l as [|b l IH]; simpl; intros Hbody a a' Pa H.
  - inversion H; subst; assumption.
  - bind_inv H. eapply IH; [| |exact H].
    + intros a0 b0 a0' Hin. apply Hbody. right; exact Hin.
    + eapply Hbody; [left; reflexivity | exact Pa | exact E].
Qed.

(** Two loops whose bodies agree everywhere agree. *)
Lemma for_each_ext (f g : A -> B -> result A) (l : list B) :
  (forall a b, f a b = g a b) -> forall a, for_each f l a = for_each g l a.
Proof.
  intros Hfg. induction l as [|b l IH]; simpl; intros a; [reflexivity|].
  rewrite Hfg. destruct (g a b); simpl; [apply IH | reflexivity].
Qed.
End Loops.

(** ** Strings *)

Lemma str_eqb_eq (a b : str) : str_eqb a b = true <-> a = b.
Proof.
  revert b. induction a as [|x a IH]; intros [|y b]; simpl;
    try (split; [discriminate | discriminate]); [tauto|].
  rewrite andb_true_iff, N.eqb_eq, IH. split.
  - intros [H1 H2]; subst; reflexivity.
  - intros H; inversion H; auto.
Qed.




(** ** Digits and numbers *)

Lemma digit_in_nonneg (bl : list (N * N)) (c : char) (d : Z) :
  digit_in bl c = Some d -> (0 <= d)%Z.
Proof.
  induction bl as [|[start len] bl IH]; simpl; [discriminate|].
  destruct ((start <=? c)%N && (c <? start + len)%N).
  - intros H; inversion H; subst. apply N2Z.is_nonneg.
  - exact IH.
Qed.

Lemma digits_val_total (s : str) :
  forallb is_digit s = true ->
  forall acc, (0 <= acc)%Z -> exists n, digits_val acc s = Some n /\ (0 <= n)%Z.
Proof.
  induction s as [|c s IH]; cbn [digits_val forallb]; intros Hs acc Hacc.
  - exists acc; auto.
  - apply andb_true_iff in Hs. destruct Hs as [Hc Hs].
    unfold is_digit in Hc. destruct (digit_val c) as [d|] eqn:Ed; [|discriminate].
    apply IH; [exact Hs|].
    apply digit_in_nonneg in Ed. lia.
Qed.

(** [int] succeeds on a non-empty run of digits, with a value [>= 0]. *)
Lemma py_int_digits (s : str) :
  forallb is_digit s = true -> (1 <= List.length s)%nat ->
  exists n, py_int s = Ok n /\ (0 <= n)%Z.
Proof.
  intros Hs Hlen. destruct s as [|c s]; [simpl in Hlen; lia|].
  unfold py_int.
  destruct (digits_val_total (c :: s) Hs 0%Z (Z.le_refl 0)) as (n & Hn & Hpos).
  rewrite Hn. exists n; auto.
Qed.

(** ** Regular expressions: what a group can capture *)

Lemma first_some_elim {A B : Type} (f : A -> option B) (l : list A) (b : B) :
  first_some f l = Some b -> exists a, In a l /\ f a = Some b.
Proof.
  induction l as [|a l IH]; simpl; [discriminate|].
  destruct (f a) as [b'|] eqn:E.
  - intros H; inversion H; subst. exists a; auto.
  - intros H. destruct (IH H) as (a' & Hin & Hf). exists a'; auto.
Qed.

Lemma lit_candidates_ok (w s : str) (ab : str * str) :
  In ab (lit_candidates w s) -> fst ab = w.
Proof.
  unfold lit_candidates. destruct (drop_prefix w s); simpl; [|intros []].
  intros [H|[]]; subst; reflexivity.
Qed.

Lemma runs_ok (q : quant) (c : char -> bool) (s : str) (ab : str * str) :
  In ab (runs q c s) -> forallb c (fst ab) = true.
Proof.
  revert ab. induction s as [|x s IH]; simpl; intros ab H.
  - destruct H as [H|[]]; subst; reflexivity.
  - destruct (c x) eqn:Ec.
    + assert (Hl : forall ab', In ab'
                (List.map (fun ab0 => (x :: fst ab0, snd ab0)) (runs q c s)) ->
                forallb c (fst ab') = true).
      { intros ab' Hin. apply in_map_iff in Hin.
        destruct Hin as (ab0 & Heq & Hin0). subst ab'. simpl.
        rewrite Ec. apply IH; assumption. }
      destruct q.
      * apply in_app_or in H. destruct H as [H|[H|[]]]; [auto | subst; reflexivity].
      * destruct H as [H|H]; [subst; reflexivity | auto].
    + destruct H as [H|[]]; subst; reflexivity.
Qed.

Lemma candidates_ok (i : item) (s : str) (ab : str * str) :
  In ab (candidates i s) -> cap_ok i (fst ab).
Proof.
  destruct i as [w|ws|c|q min c]; simpl.
  - apply lit_candidates_ok.
  - intros H. apply in_flat_map in H. destruct H as (w & Hw & H).
    apply lit_candidates_ok in H. rewrite H. exact Hw.
  - destruct s as [|x s]; [intros []|].
    destruct (c x) eqn:Ec; [|intros []].
    intros [H|[]]; subst; simpl. exists x; auto.
  - intros H. apply filter_In in H. destruct H as [H Hlen].
    split; [eapply runs_ok; eassumption|].
    apply Nat.leb_le in Hlen. exact Hlen.
Qed.

Lemma mexec_caps (r : regex) :
  forall s caps rest,
    mexec r s = Some (caps, rest) -> Forall2 cap_ok (groups_of r) caps.
Proof.
  induction r as [|n r IH]; simpl; intros s caps rest H.
  - inversion H; subst. constructor.
  - apply first_some_elim in H. destruct H as (ab & Hin & H).
    destruct (mexec r (snd ab)) as [[caps' rest']|] eqn:E; [|discriminate].
    apply candidates_ok in Hin. apply IH in E.
    destruct n as [i|i]; inversion H; subst; simpl in *.
    + exact E.
    + constructor; assumption.
Qed.

Lemma re_search_caps (r : regex) (s : str) (caps : list str) :
  re_search r s = Some caps -> Forall2 cap_ok (groups_of r) caps.
Proof.
  induction s as [|x s IH]; simpl.
  - destruct (mexec r []) as [[c t]|] eqn:E; [|discriminate].
    intros H; inversion H; subst. eapply mexec_caps; eassumption.
  - destruct (mexec r (x :: s)) as [[c t]|] eqn:E.
    + intros H; inversion H; subst. eapply mexec_caps; eassumption.
    + exact IH.
Qed.

(** ** The blocks of [_parse_hero_line] *)

Ltac peel H :=
  repeat match type of H with
  | bind _ _ = Ok _ => bind_inv H
  | (match ?e with _ => _ end) = Ok _ => destruct e eqn:?
  | (if ?e then _ else _) = Ok _ => destruct e eqn:?
  | Ok _ = Ok _ => inversion H; subst; clear H
  | Raise _ = Ok _ => discriminate H
  end.

Lemma same_life_refl (h : HeroStatus) : same_life h h.
Proof. repeat split. Qed.

Lemma same_life_trans (h1 h2 h3 : HeroStatus) :
  same_life h1 h2 -> same_life h2 h3 -> same_life h1 h3.
Proof.
  unfold same_life. intros (A1 & A2 & A3) (B1 & B2 & B3).
  repeat split; congruence.
Qed.

(** Each block writes its own fields: none but [# Parse Dead/Alive] touches
    the life state, and no block after [# Parse KDA] touches the triple. *)
Section HeroBlocks.
Variable line : str.

Lemma parse_role_life (h : HeroStatus) :
  same_life h (parse_role line h).
Proof.
  unfold parse_role.
  destruct (contains (u "是") line && contains (u "路") line);
    [destruct (re_search role_re line)|]; repeat split.
Qed.

Lemma parse_level_life (h h' : HeroStatus) :
  parse_level line h = Ok h' -> same_life h h'.
Proof. unfold parse_level. intros H. peel H; repeat split. Qed.

Lemma parse_coordinates_life (h h' : HeroStatus) :
  parse_coordinates line h = Ok h' -> same_life h h'.
Proof. unfold parse_coordinates. intros H. peel H; repeat split. Qed.

Lemma parse_kda_life (h h' : HeroStatus) :
  parse_kda line h = Ok h' -> same_life h h'.
Proof. unfold parse_kda. intros H. peel H; repeat split. Qed.

Lemma parse_gold_life (h h' : HeroStatus) :
  parse_gold line h = Ok h' -> same_life h h'.
Proof. unfold parse_gold. intros H. peel H; repeat split. Qed.

Lemma parse_items_life (h : HeroStatus) :
  same_life h (parse_items line h).
Proof.
  unfold parse_items. destruct (contains kw_items line); [|repeat split].
  match goal with |- context [match ?e with _ => _ end] => destruct e end;
    repeat split.
Qed.

Lemma parse_buffs_life (h : HeroStatus) :
  same_life h (parse_buffs line h).
Proof.
  unfold parse_buffs. destruct (contains kw_tyrant_buff line); repeat split.
Qed.

Lemma parse_ult_life (h : HeroStatus) :
  same_life h (parse_ult line h).
Proof.
  unfold parse_ult. destruct (contains kw_no_ult line); repeat split.
Qed.

Lemma parse_gold_kda (h h' : HeroStatus) :
  parse_gold line h = Ok h' -> kda h' = kda h.
Proof. unfold parse_gold. intros H. peel H; reflexivity. Qed.

Lemma parse_items_kda (h : HeroStatus) :
  kda (parse_items line h) = kda h.
Proof.
  unfold parse_items. destruct (contains kw_items line); [|reflexivity].
  match goal with |- context [match ?e with _ => _ end] => destruct e end;
    reflexivity.
Qed.

Lemma parse_buffs_kda (h : HeroStatus) :
  kda (parse_buffs line h) = kda h.
Proof.
  unfold parse_buffs. destruct (contains kw_tyrant_buff line); reflexivity.
Qed.

Lemma parse_ult_kda (h : HeroStatus) :
  kda (parse_ult line h) = kda h.
Proof. unfold parse_ult. destruct (contains kw_no_ult line); reflexivity. Qed.

Lemma parse_ult_has_ult (h : HeroStatus) :
  has_ult (parse_ult line h) = negb (contains kw_no_ult line).
Proof. unfold parse_ult. destruct (contains kw_no_ult line); reflexivity. Qed.

End HeroBlocks.

(** The chain of blocks behind an emitted hero. *)
Lemma hero_of_line_blocks (line : str) (h : HeroStatus) :
  hero_of_line line = Ok (Some h) ->
  exists hero_name player team_str h1 h2 h3 h4 h5,
    parse_level line (parse_role line (new_hero hero_name player team_str)) = Ok h1
    /\ parse_dead_alive line h1 = Ok h2
    /\ parse_coordinates line h2 = Ok h3
    /\ parse_kda line h3 = Ok h4
    /\ parse_gold line h4 = Ok h5
    /\ h = parse_ult line (parse_buffs line (parse_items line h5)).
Proof.
  unfold hero_of_line. intros H.
  destruct (re_match hero_tag_re line) as [name_match|]; [|discriminate].
  do 7 bind_inv H. inversion H; subst.
  do 8 eexists. repeat split; eassumption.
Qed.

(** A line that starts with a tag yields exactly one more hero, the one
    [hero_of_line] builds. *)
Lemma _parse_hero_line_emits (line : str) (tag : list str)
  (match_state match_state' : MatchState) :
  re_match hero_tag_re line = Some tag ->
  _parse_hero_line line match_state = Ok match_state' ->
  exists hero,
    hero_of_line line = Ok (Some hero)
    /\ match_state' = set_heroes (heroes match_state ++ [hero]) match_state.
Proof.
  unfold _parse_hero_line. intros Htag H. bind_inv H.
  destruct v as [hero|].
  - inversion H; subst. exists hero; auto.
  - exfalso. unfold hero_of_line in E. rewrite Htag in E.
    do 7 bind_inv E. discriminate.
Qed.

Lemma parse_kda_spec (line : str) (h h' : HeroStatus) (m : list str) :
  re_search kda_re line = Some m ->
  parse_kda line h = Ok h' ->
  exists K A D,
    py_int (group m 1) = Ok K /\ py_int (group m 2) = Ok A
    /\ py_int (group m 3) = Ok D /\ kda h' = (K, D, A).
Proof.
  unfold parse_kda. intros Hm H. rewrite Hm in H.
  bind_inv H. bind_inv H. bind_inv H. inversion H; subst.
  exists v, v1, v0. auto.
Qed.

Lemma Qle_0_percent (n : Z) : (0 <= n)%Z -> 0 <= Qmake n 100.
Proof. intros H. unfold Qle. simpl. lia. Qed.

Lemma int_div_100_nonneg (n : Z) (x : float) :
  (0 <= n)%Z -> int_div_100 n = Ok x -> 0 <= x.
Proof.
  unfold int_div_100. intros Hn H.
  destruct (n <? float_overflow)%Z; [|discriminate].
  inversion H; subst. apply Qle_0_percent; assumption.
Qed.

(** The capture of a one-group pattern whose group is [\d+]. *)
Lemma digit_group_1 (r : regex) (s : str) (m : list str) (k : nat) :
  re_search r s = Some m ->
  nth_error (groups_of r) k = Some digits1 ->
  exists n, py_int (group m (S k)) = Ok n /\ (0 <= n)%Z.
Proof.
  intros Hm Hk. apply re_search_caps in Hm.
  unfold group. simpl Nat.pred.
  revert k Hk. induction Hm as [|i w gs caps Hw Hrest IH]; intros k Hk.
  - destruct k; discriminate.
  - destruct k as [|k]; simpl in *.
    + inversion Hk; subst. destruct Hw as [Hd Hlen].
      apply py_int_digits; assumption.
    + apply IH; assumption.
Qed.

Lemma py_int_nonneg_group (r : regex) (s : str) (m : list str) (k : nat) (n : Z) :
  re_search r s = Some m ->
  nth_error (groups_of r) k = Some digits1 ->
  py_int (group m (S k)) = Ok n -> (0 <= n)%Z.
Proof.
  intros Hm Hk Hn.
  destruct (digit_group_1 r s m k Hm Hk) as (n' & Hn' & Hpos). congruence.
Qed.

(** What [# Parse Dead/Alive] leaves in a hero that enters it alive. *)
Lemma parse_dead_alive_spec (line : str) (h h' : HeroStatus) :
  parse_dead_alive line h = Ok h' ->
  is_dead h = false -> respawn_time h = 0%Z -> 0 <= hp_percent h ->
  is_dead h' = contains kw_dead line
  /\ (is_dead h' = false -> respawn_time h' = 0%Z /\ 0 <= hp_percent h')
  /\ (forall m, is_dead h' = true -> re_search respawn_re line = Some m ->
        hp_percent h' = 0 /\ py_int (group m 1) = Ok (respawn_time h')).
Proof.
  unfold parse_dead_alive. intros H Hd Hr Hhp.
  destruct (contains kw_dead line) eqn:Ek.
  - destruct (re_search respawn_re line) as [m|] eqn:Em.
    + bind_inv H. inversion H; subst; simpl.
      split; [reflexivity|]. split; [discriminate|].
      intros m' _ Hm'. inversion Hm'; subst. auto.
    + inversion H; subst; simpl.
      split; [reflexivity|]. split; [discriminate|].
      intros m' _ Hm'. discriminate.
  - bind_inv H.
    assert (Hv : is_dead v = false /\ respawn_time v = 0%Z /\ 0 <= hp_percent v).
    { destruct (re_search hero_hp_re line) as [m|] eqn:Em.
      - bind_inv E. bind_inv E. inversion E; subst; simpl.
        repeat split; try assumption.
        eapply int_div_100_nonneg; [|eassumption].
        eapply (py_int_nonneg_group hero_hp_re line m 0); [eassumption|reflexivity|eassumption].
      - inversion E; subst. auto. }
    destruct Hv as (Hvd & Hvr & Hvh).
    assert (Hh' : is_dead h' = false /\ respawn_time h' = 0%Z /\ hp_percent h' = hp_percent v).
    { destruct (re_search mana_re line) as [m|] eqn:Em.
      - bind_inv H. bind_inv H. inversion H; subst; simpl. auto.
      - inversion H; subst. auto. }
    destruct Hh' as (A & B & C).
    split; [assumption|]. split.
    + intros _. rewrite C. auto.
    + intros m Hdead. congruence.
Qed.

(** Life state of an emitted hero, read off its line. *)
Lemma hero_of_line_life (line : str) (h : HeroStatus) :
  hero_of_line line = Ok (Some h) ->
  is_dead h = contains kw_dead line
  /\ (is_dead h = false -> respawn_time h = 0%Z /\ 0 <= hp_percent h)
  /\ (forall m, is_dead h = true -> re_search respawn_re line = Some m ->
        hp_percent h = 0 /\ py_int (group m 1) = Ok (respawn_time h)).
Proof.
  intros H. apply hero_of_line_blocks in H.
  destruct H as (hn & pl & tm & h1 & h2 & h3 & h4 & h5 & L1 & L2 & L3 & L4 & L5 & Hh).
  assert (S1 : same_life (new_hero hn pl tm) h1).
  { eapply same_life_trans; [apply parse_role_life | eapply parse_level_life; eassumption]. }
  assert (S2 : same_life h2 h).
  { subst h.
    eapply same_life_trans; [eapply parse_coordinates_life; eassumption|].
    eapply same_life_trans; [eapply parse_kda_life; eassumption|].
    eapply same_life_trans; [eapply parse_gold_life; eassumption|].
    eapply same_life_trans; [apply parse_items_life|].
    eapply same_life_trans; [apply parse_buffs_life | apply parse_ult_life]. }
  destruct S1 as (A1 & A2 & A3). destruct S2 as (B1 & B2 & B3).
  simpl in A1, A2, A3.
  assert (Hq : 0 <= hp_percent h1) by (rewrite A2; unfold Qle; simpl; lia).
  destruct (parse_dead_alive_spec line h1 h2 L2 A1 A3 Hq) as (C1 & C2 & C3).
  rewrite B1, B2, B3. auto.
Qed.

(** ** Which sections touch the heroes *)

Lemma overall_line_heroes (line : str) (ms : MatchState) :
  heroes (overall_line line ms) = heroes ms.
Proof.
  unfold overall_line. destruct (contains kw_phase line); [|reflexivity].
  destruct (re_search clock_re line); reflexivity.
Qed.

Lemma totals_line_heroes (line : str) (ms ms' : MatchState) :
  totals_line line ms = Ok ms' -> heroes ms' = heroes ms.
Proof.
  unfold totals_line. intros H.
  destruct (contains kw_blue_kills line);
    [|destruct (contains kw_blue_gold line); [|inversion H; reflexivity]];
    (eapply (for_each_invariant (fun m => heroes m = heroes ms));
     [|reflexivity|exact H]);
    intros a b a' _ Pa Hb; cbv beta in Hb; peel Hb; simpl; assumption.
Qed.

Lemma segment_minions_heroes (line seg : str) (ms ms' : MatchState) :
  segment_minions line seg ms = Ok ms' -> heroes ms' = heroes ms.
Proof. unfold segment_minions. intros H. peel H; reflexivity. Qed.

Lemma segment_towers_heroes (seg : str) (ms ms' : MatchState) :
  segment_towers seg ms = Ok ms' -> heroes ms' = heroes ms.
Proof. unfold segment_towers. intros H. peel H; reflexivity. Qed.

Lemma _parse_tower_minion_line_heroes (line : str) (ms ms' : MatchState)
  (static_towers : static_dict) :
  _parse_tower_minion_line line ms static_towers = Ok ms' ->
  heroes ms' = heroes ms.
Proof.
  unfold _parse_tower_minion_line. intros H.
  eapply (for_each_invariant (fun m => heroes m = heroes ms));
    [|reflexivity|exact H].
  intros a b a' _ Pa Hb. cbv beta in Hb. bind_inv Hb.
  apply segment_towers_heroes in Hb. apply segment_minions_heroes in E.
  congruence.
Qed.

Lemma monster_segment_heroes (ms ms' : MatchState) (seg : str) :
  monster_segment ms seg = Ok ms' -> heroes ms' = heroes ms.
Proof.
  unfold monster_segment. intros H.
  destruct (strip_chars (u "。") (strip seg)) as [|c seg'];
    [inversion H; reflexivity|].
  destruct (contains (u "：") (c :: seg')
            && (contains kw_absent (c :: seg') || contains kw_present (c :: seg')
                || contains kw_hp (c :: seg')));
    [|inversion H; reflexivity].
  destruct (find (fun m_name => contains m_name (c :: seg')) known_monsters);
    [|inversion H; reflexivity].
  bind_inv H. destruct v as [ex rs]. bind_inv H. bind_inv H.
  inversion H; reflexivity.
Qed.

(** A line of a section adds at most one hero, the one of that line. *)
Lemma section_line_heroes (sec : option str) (line : str) (ms ms' : MatchState)
  (static_towers : static_dict) :
  section_line sec line ms static_towers = Ok ms' ->
  heroes ms' = heroes ms
  \/ exists h, hero_of_line line = Ok (Some h) /\ heroes ms' = heroes ms ++ [h].
Proof.
  unfold section_line. intros H.
  destruct (section_is sec sec_overall).
  { inversion H; subst. left. apply overall_line_heroes. }
  destruct (section_is sec sec_totals).
  { left. eapply totals_line_heroes; eassumption. }
  destruct (existsb (section_is sec) hero_sections).
  { destruct (startswith (u "<") line); [|inversion H; auto].
    unfold _parse_hero_line in H. bind_inv H.
    destruct v as [h|]; inversion H; subst; simpl; [right; exists h|left]; auto. }
  destruct (section_is sec sec_towers).
  { left. eapply _parse_tower_minion_line_heroes; eassumption. }
  destruct (section_is sec sec_monsters); [|inversion H; auto].
  left. eapply (for_each_invariant (fun m => heroes m = heroes ms));
    [|reflexivity|exact H].
  intros a b a' _ Pa Hb. apply monster_segment_heroes in Hb. congruence.
Qed.

Lemma main_step_heroes (static_towers : static_dict) (sec sec' : option str)
  (ms ms' : MatchState) (line : str) :
  main_step static_towers (sec, ms) line = Ok (sec', ms') ->
  heroes ms' = heroes ms
  \/ exists h, hero_of_line (strip line) = Ok (Some h)
               /\ heroes ms' = heroes ms ++ [h].
Proof.
  unfold main_step. intros H.
  destruct (strip line) as [|c l] eqn:El; [inversion H; auto|].
  destruct (is_header (c :: l)); [inversion H; auto|].
  bind_inv H. inversion H; subst.
  eapply section_line_heroes; eassumption.
Qed.

(** Every hero of a parsed state was built from one stripped line of the
    text. *)
Lemma parse_heroes_from_lines (text : str) (ms : MatchState) (h : HeroStatus) :
  parse text = Ok ms -> In h (heroes ms) ->
  exists line,
    In line (List.map strip (split [10%N] text))
    /\ hero_of_line line = Ok (Some h).
Proof.
  unfold parse, main_pass. intros H Hin.
  bind_inv H. bind_inv H. inversion H; subst. clear H.
  revert h Hin.
  refine (for_each_invariant
            (fun st => forall h, In h (heroes (snd st)) ->
               exists line, In line (List.map strip (split [10%N] text))
                            /\ hero_of_line line = Ok (Some h))
            (main_step v) (split [10%N] text) _ (None, initial_state) v0 _ E0).
  - intros [sec m] line [sec' m'] Hl IH Hstep h Hin. simpl in *.
    apply main_step_heroes in Hstep. destruct Hstep as [Heq|(h0 & Hh0 & Heq)].
    + rewrite Heq in Hin. auto.
    + rewrite Heq in Hin. apply in_app_or in Hin.
      destruct Hin as [Hin|[Hin|[]]]; [auto|]. subst h0.
      exists (strip line). split; [apply in_map; exact Hl | exact Hh0].
  - simpl. intros h [].
Qed.

(** ** The frontier tier *)

Lemma find_frontier_some (name : str) (labels : list str) :
  forall i j, find_frontier labels i name = Some j ->
  exists t, nth_error labels (j - i) = Some t /\ (i <= j)%nat
            /\ contains t name = true.
Proof.
  induction labels as [|t labels IH]; simpl; intros i j H; [discriminate|].
  destruct (contains t name) eqn:Ec.
  - inversion H; subst. exists t. rewrite Nat.sub_diag. auto.
  - destruct (IH (S i) j H) as (t' & Hn & Hle & Hc).
    exists t'. replace (j - i)%nat with (S (j - S i)) by lia.
    simpl. split; [exact Hn|]. split; [lia | exact Hc].
Qed.

Lemma find_frontier_none (name : str) (labels : list str) :
  forall i, find_frontier labels i name = None ->
  forall t, In t labels -> contains t name = false.
Proof.
  induction labels as [|t0 labels IH]; simpl; intros i H t Hin; [destruct Hin|].
  destruct (contains t0 name) eqn:Ec; [discriminate|].
  destruct Hin as [Heq|Hin]; [subst; exact Ec | eapply IH; eassumption].
Qed.

(** The tier recorded for a name that holds a known label: a label of
    [towers_map] that occurs in the name. *)
Lemma frontier_idx_some (name : str) (i : nat) :
  frontier_idx name = Some i ->
  In (nth i towers_map []) towers_map
  /\ contains (nth i towers_map []) name = true.
Proof.
  unfold frontier_idx. intros H.
  destruct (find_frontier_some name towers_map 0 i H) as (t & Hn & _ & Hc).
  rewrite Nat.sub_0_r in Hn.
  rewrite (nth_error_nth towers_map i [] Hn).
  split; [eapply nth_error_In; eassumption | exact Hc].
Qed.

(** The owner word of a pushed tower is one of the two literals. *)
Lemma owner_word_cases (r : regex) (rest : list item) (s : str) (m : list str) :
  re_search r s = Some m ->
  groups_of r = owner_word :: rest ->
  group m 1 = kw_ally \/ group m 1 = kw_enemy.
Proof.
  intros Hm Hg. apply re_search_caps in Hm. rewrite Hg in Hm.
  inversion Hm as [|i w gs caps Hw Hrest]; subst.
  unfold group. simpl. simpl in Hw.
  destruct Hw as [Hw|[Hw|[]]]; auto.
Qed.

Lemma team_of_owner_ally : team_of_owner kw_ally = blue.
Proof. reflexivity. Qed.

Lemma team_of_owner_enemy : team_of_owner kw_enemy = red.
Proof. reflexivity. Qed.

(** ** Zero padding *)

Lemma digit_not_sign (c : char) :
  is_digit c = true -> ((c =? 43) || (c =? 45))%N = false.
Proof.
  intros H. destruct (c =? 43)%N eqn:E1.
  - apply N.eqb_eq in E1. subst c. vm_compute in H. discriminate.
  - destruct (c =? 45)%N eqn:E2; [|reflexivity].
    apply N.eqb_eq in E2. subst c. vm_compute in H. discriminate.
Qed.

(** [zfill(2)] on a non-empty run of digits: one digit gets a zero in
    front, longer runs are kept. *)
Lemma zfill_2_digits (w : str) :
  forallb is_digit w = true -> (1 <= List.length w)%nat ->
  zfill 2 w = if (List.length w =? 1)%nat then 48%N :: w else w.
Proof.
  intros Hd Hlen. destruct w as [|c w]; [simpl in Hlen; lia|].
  simpl in Hd. apply andb_true_iff in Hd. destruct Hd as [Hc _].
  unfold zfill. rewrite (digit_not_sign c Hc).
  destruct w as [|c' w]; reflexivity.
Qed.

(** * The claims *)

(** [int(...) / 100.0] raises from [2^1024] on. *)
Lemma int_div_100_overflow (n : Z) :
  (2 ^ 1024 <= n)%Z -> int_div_100 n = Raise OverflowError.
Proof.
  intros Hn. unfold int_div_100, float_overflow.
  assert (Hb : (0 < 2 ^ 970)%Z) by (apply Z.pow_pos_nonneg; lia).
  revert Hn Hb. generalize (2 ^ 1024)%Z (2 ^ 970)%Z. intros a b Hn Hb.
  destruct (Z.ltb_spec n (a - b)) as [Hlt|Hge]; [lia | reflexivity].
Qed.

(** C1 (parser totality) does not hold of the code: [parse] raises on
    malformed input instead of leaving the field at its default.  A hero tag
    without a hyphen has no [parts[1]]; a kill count without the full-width
    colon has no [split('：')[1]]; a kill count without digits makes
    [re.search] return [None]; a coordinate such as [-] is not a float, in a
    hero line and in the map-info section alike; a percentage of 400 digits
    does not convert to a float. *)
Theorem parse_raises_on_malformed_input :
  parse (text_of ["[玩家情况]"; "<廉颇>"]) = Raise IndexError
  /\ parse (text_of ["[总体态势]"; "我方人头数5"]) = Raise IndexError
  /\ parse (text_of ["[总体态势]"; "我方人头数：无"]) = Raise AttributeError
  /\ parse (text_of ["[玩家情况]"; "<我方-玩家-廉颇>坐标（-，-）"]) = Raise ValueError
  /\ parse (text_of ["[地图信息]"; "蓝方上路一塔(-, 1)"]) = Raise ValueError
  /\ parse long_percent_text = Raise OverflowError.
Proof.
  do 5 (split; [vm_compute; reflexivity|]).
  vm_compute. reflexivity.
Qed.

(** C2 (visibility flag) does not hold of the code: [HeroStatus] has no
    [is_visible] attribute, so the read in [_draw_hero_card] raises
    [AttributeError] for every hero whose icon is found; in particular for the
    hero parsed from a plain ally line, and the side panels are not drawn. *)
Theorem hero_card_visibility_read_fails :
  (forall hero, getattr hero "is_visible" = Raise AttributeError)
  /\ (forall hero invisible_icon,
        _draw_hero_card true invisible_icon hero = Raise AttributeError)
  /\ exists match_state hero,
       parse (text_of ["[玩家情况]"; "<我方-玩家-廉颇>14级"]) = Ok match_state
       /\ heroes match_state = [hero]
       /\ forall invisible_icon,
            _draw_side_panels (fun _ => true) invisible_icon match_state
            = Raise AttributeError.
Proof.
  split; [reflexivity|]. split; [reflexivity|].
  eexists. eexists. split; [vm_compute; reflexivity|].
  split; [reflexivity|]. intros inv. reflexivity.
Qed.

(** A dead hero whose line states no respawn time keeps the [hp_percent]
    of the constructor call, 1.0: the assignment of 0 is under
    [if respawn_match]. *)
Example dead_hero_without_countdown :
  exists match_state hero,
    parse dead_no_countdown_text = Ok match_state
    /\ heroes match_state = [hero]
    /\ is_dead hero = true
    /\ respawn_time hero = 0%Z
    /\ hp_percent hero = 1.
Proof.
  do 2 eexists. split; [vm_compute; reflexivity|].
  repeat (split; [reflexivity|]). reflexivity.
Qed.

(** C3 as stated fails: a hero line that is not marked 已阵亡 and reports
    0% gives an alive hero whose [hp_percent] is 0, which is neither "alive
    with hp > 0" nor "dead with hp = 0". *)
Lemma alive_hero_with_zero_hp :
  exists match_state hero,
    parse (text_of ["[玩家情况]"; "<我方-玩家-廉颇>14级，血量0/6000（0%）"])
    = Ok match_state
    /\ In hero (heroes match_state)
    /\ is_dead hero = false
    /\ hp_percent hero == 0
    /\ ~ life_invariant hero.
Proof.
  eexists. eexists. split; [vm_compute; reflexivity|].
  split; [left; reflexivity|]. split; [reflexivity|]. split; [reflexivity|].
  unfold life_invariant. simpl. intros [[[_ H]|[H _]] _].
  - unfold Qlt in H. simpl in H. lia.
  - discriminate H.
Qed.

(** C3, amended: every hero emitted by [parse] was built from one stripped
    line of the text; it is dead exactly when that line contains 已阵亡; an
    alive hero has no respawn countdown and an [hp_percent >= 0]; the respawn
    countdown is non-zero only for a dead hero; and a dead hero whose line
    states a respawn time has [hp_percent = 0] and that countdown. *)
Theorem parsed_hero_life_state (text : str) (match_state : MatchState)
  (hero : HeroStatus) :
  parse text = Ok match_state -> In hero (heroes match_state) ->
  exists line,
    In line (List.map strip (split [10%N] text))
    /\ hero_of_line line = Ok (Some hero)
    /\ is_dead hero = contains kw_dead line
    /\ (is_dead hero = false -> respawn_time hero = 0%Z /\ 0 <= hp_percent hero)
    /\ (respawn_time hero <> 0%Z -> is_dead hero = true)
    /\ (forall m, is_dead hero = true -> re_search respawn_re line = Some m ->
          hp_percent hero == 0 /\ py_int (group m 1) = Ok (respawn_time hero)).
Proof.
  intros Hparse Hin.
  destruct (parse_heroes_from_lines text match_state hero Hparse Hin)
    as (line & Hline & Hhero).
  destruct (hero_of_line_life line hero Hhero) as (Hdead & Halive & Hresp).
  exists line.
  split; [exact Hline|]. split; [exact Hhero|]. split; [exact Hdead|].
  split; [exact Halive|]. split.
  - intros Hr. destruct (is_dead hero) eqn:Ed; [reflexivity|].
    exfalso. apply Hr. apply Halive; reflexivity.
  - intros m Hd Hm. destruct (Hresp m Hd Hm) as [Hhp Hint].
    split; [rewrite Hhp; reflexivity | exact Hint].
Qed.

Lemma parsed_hero_life_state_witness :
  exists match_state hero,
    parse dead_text = Ok match_state
    /\ In hero (heroes match_state)
    /\ exists line,
         In line (List.map strip (split [10%N] dead_text))
         /\ hero_of_line line = Ok (Some hero)
         /\ is_dead hero = contains kw_dead line
         /\ (is_dead hero = false ->
             respawn_time hero = 0%Z /\ 0 <= hp_percent hero)
         /\ (respawn_time hero <> 0%Z -> is_dead hero = true)
         /\ (forall m, is_dead hero = true ->
               re_search respawn_re line = Some m ->
               hp_percent hero == 0
               /\ py_int (group m 1) = Ok (respawn_time hero)).
Proof.
  eexists. eexists. split; [vm_compute; reflexivity|].
  split; [left; reflexivity|].
  eapply parsed_hero_life_state; [vm_compute; reflexivity | left; reflexivity].
Defined.

(** C4 (ultimate-ready default law): a hero line, i.e. a line that starts
    with a tag, stores exactly one hero, whose [has_ult] is true when the line
    lacks 没有大招 and false when the line contains it, whatever else the
    line holds. *)
Theorem ult_default_law (line : str) (tag : list str)
  (match_state match_state' : MatchState) :
  re_match hero_tag_re line = Some tag ->
  _parse_hero_line line match_state = Ok match_state' ->
  exists hero,
    heroes match_state' = heroes match_state ++ [hero]
    /\ (contains kw_no_ult line = false -> has_ult hero = true)
    /\ (contains kw_no_ult line = true -> has_ult hero = false).
Proof.
  intros Htag H.
  destruct (_parse_hero_line_emits line tag match_state match_state' Htag H)
    as (hero & Hhero & Hst).
  exists hero. split; [subst; reflexivity|].
  apply hero_of_line_blocks in Hhero.
  destruct Hhero as (hn & pl & tm & h1 & h2 & h3 & h4 & h5 & _ & _ & _ & _ & _ & Hh).
  subst hero. rewrite parse_ult_has_ult.
  split; intros Hc; rewrite Hc; reflexivity.
Qed.

Lemma ult_default_law_witness :
  (exists tag match_state',
     re_match hero_tag_re no_ult_line = Some tag
     /\ _parse_hero_line no_ult_line initial_state
        = Ok match_state'
     /\ exists hero,
          heroes match_state' = heroes initial_state ++ [hero]
          /\ (contains kw_no_ult no_ult_line = false ->
              has_ult hero = true)
          /\ (contains kw_no_ult no_ult_line = true ->
              has_ult hero = false)).
Proof.
  eexists. eexists. split; [vm_compute; reflexivity|].
  split; [vm_compute; reflexivity|].
  eapply (ult_default_law no_ult_line); vm_compute; reflexivity.
Defined.

(** C10 (KDA reordering): when the KDA phrase of a hero line reports kills
    [K], assists [A] and deaths [D], in that order in the text, the hero is
    stored with the triple [(K, D, A)]; the three numbers are the values of
    the captured digits and are never negative. *)
Theorem kda_reordering (line : str) (tag m : list str)
  (match_state match_state' : MatchState) :
  re_match hero_tag_re line = Some tag ->
  re_search kda_re line = Some m ->
  _parse_hero_line line match_state = Ok match_state' ->
  exists hero K A D,
    heroes match_state' = heroes match_state ++ [hero]
    /\ py_int (group m 1) = Ok K
    /\ py_int (group m 2) = Ok A
    /\ py_int (group m 3) = Ok D
    /\ (0 <= K /\ 0 <= A /\ 0 <= D)%Z
    /\ kda hero = (K, D, A).
Proof.
  intros Htag Hm H.
  destruct (_parse_hero_line_emits line tag match_state match_state' Htag H)
    as (hero & Hhero & Hst).
  apply hero_of_line_blocks in Hhero.
  destruct Hhero as (hn & pl & tm & h1 & h2 & h3 & h4 & h5 & _ & _ & _ & L4 & L5 & Hh).
  destruct (parse_kda_spec line h3 h4 m Hm L4) as (K & A & D & HK & HA & HD & Hkda).
  exists hero, K, A, D. split; [subst; reflexivity|].
  split; [exact HK|]. split; [exact HA|]. split; [exact HD|]. split.
  - split; [|split].
    + eapply (py_int_nonneg_group kda_re line m 0); [eassumption|reflexivity|eassumption].
    + eapply (py_int_nonneg_group kda_re line m 1); [eassumption|reflexivity|eassumption].
    + eapply (py_int_nonneg_group kda_re line m 2); [eassumption|reflexivity|eassumption].
  - subst hero.
    rewrite parse_ult_kda, parse_buffs_kda, parse_items_kda.
    rewrite (parse_gold_kda line h4 h5 L5). exact Hkda.
Qed.

Lemma kda_reordering_witness :
  exists tag m match_state',
    re_match hero_tag_re (kda_line) = Some tag
    /\ re_search kda_re (kda_line) = Some m
    /\ _parse_hero_line (kda_line) initial_state
       = Ok match_state'
    /\ exists hero K A D,
         heroes match_state' = heroes initial_state ++ [hero]
         /\ py_int (group m 1) = Ok K
         /\ py_int (group m 2) = Ok A
         /\ py_int (group m 3) = Ok D
         /\ (0 <= K /\ 0 <= A /\ 0 <= D)%Z
         /\ kda hero = (K, D, A).
Proof.
  eexists. eexists. eexists. split; [vm_compute; reflexivity|].
  split; [vm_compute; reflexivity|]. split; [vm_compute; reflexivity|].
  eapply (kda_reordering kda_line); vm_compute; reflexivity.
Defined.

(** C5 (tower frontier law): take a segment that reports a pushed tower,
    i.e. one the tower pattern matches, with a readable position and a
    percentage that converts to a float.  If the reported target holds one of
    the labels 一塔, 二塔, 高地塔, exactly one tower is added, for the side and
    lane of the segment, with such a label as tier, the reported hp and the
    reported position; if it holds none of them, no tower is added. *)
Theorem tower_frontier_law (seg : str) (m : list str) (x y : float) (n : Z)
  (match_state : MatchState) :
  re_search tower_re seg = Some m ->
  py_float (group m 4) = Ok x ->
  py_float (group m 5) = Ok y ->
  py_int (group m 6) = Ok n ->
  (n < float_overflow)%Z ->
  ((exists t, In t towers_map /\ contains t (strip (group m 3)) = true) ->
   exists tier,
     In tier towers_map
     /\ contains tier (strip (group m 3)) = true
     /\ segment_towers seg match_state
        = Ok (set_towers
                (towers match_state ++
                 [{| tower_team := team_of_owner (group m 1);
                     tower_lane := strip (group m 2);
                     tower_type := tier;
                     tower_hp_percent := Qmake n 100;
                     tower_position := (x, y);
                     is_destroyed := false |}])
                match_state))
  /\ ((forall t, In t towers_map -> contains t (strip (group m 3)) = false) ->
      segment_towers seg match_state = Ok match_state)
  /\ (group m 1 = kw_ally /\ team_of_owner (group m 1) = blue
      \/ group m 1 = kw_enemy /\ team_of_owner (group m 1) = red).
Proof.
  intros Hm Hx Hy Hn Hlt.
  assert (Hdiv : int_div_100 n = Ok (Qmake n 100)).
  { unfold int_div_100. apply Z.ltb_lt in Hlt. rewrite Hlt. reflexivity. }
  split; [|split].
  - intros (t & Ht & Hc).
    destruct (frontier_idx (strip (group m 3))) as [i|] eqn:Ei.
    + destruct (frontier_idx_some _ _ Ei) as [Hin Hcont].
      exists (nth i towers_map []). split; [exact Hin|]. split; [exact Hcont|].
      unfold segment_towers. rewrite Hm, Hn. simpl bind. rewrite Hdiv. simpl bind.
      rewrite Ei, Hx, Hy. reflexivity.
    + unfold frontier_idx in Ei.
      rewrite (find_frontier_none _ _ _ Ei t Ht) in Hc. discriminate.
  - intros Hnone.
    destruct (frontier_idx (strip (group m 3))) as [i|] eqn:Ei.
    + destruct (frontier_idx_some _ _ Ei) as [Hin Hcont].
      rewrite (Hnone _ Hin) in Hcont. discriminate.
    + unfold segment_towers. rewrite Hm, Hn. simpl bind. rewrite Hdiv. simpl bind.
      rewrite Ei. reflexivity.
  - destruct (owner_word_cases tower_re _ seg m Hm eq_refl) as [Ha|He].
    + left. split; [exact Ha|]. rewrite Ha. apply team_of_owner_ally.
    + right. split; [exact He|]. rewrite He. apply team_of_owner_enemy.
Qed.

Lemma tower_frontier_law_witness :
  exists m,
    re_search tower_re tower_segment = Some m
    /\ py_float (group m 4) = Ok (Qmake (-300) 10)
    /\ py_float (group m 5) = Ok (Qmake 100 10)
    /\ py_int (group m 6) = Ok 40%Z
    /\ (40 < float_overflow)%Z
    /\ segment_towers tower_segment initial_state
       = Ok (set_towers
               [{| tower_team := blue; tower_lane := u "上路";
                   tower_type := u "二塔"; tower_hp_percent := Qmake 40 100;
                   tower_position := (Qmake (-300) 10, Qmake 100 10);
                   is_destroyed := false |}]
               initial_state)
    /\ ((exists t, In t towers_map /\ contains t (strip (group m 3)) = true) ->
        exists tier,
          In tier towers_map
          /\ contains tier (strip (group m 3)) = true
          /\ segment_towers tower_segment initial_state
             = Ok (set_towers
                     (towers initial_state ++
                      [{| tower_team := team_of_owner (group m 1);
                          tower_lane := strip (group m 2);
                          tower_type := tier;
                          tower_hp_percent := Qmake 40 100;
                          tower_position := (Qmake (-300) 10, Qmake 100 10);
                          is_destroyed := false |}])
                     initial_state))
    /\ ((forall t, In t towers_map -> contains t (strip (group m 3)) = false) ->
        segment_towers tower_segment initial_state = Ok initial_state)
    /\ (group m 1 = kw_ally /\ team_of_owner (group m 1) = blue
        \/ group m 1 = kw_enemy /\ team_of_owner (group m 1) = red).
Proof.
  eexists. split; [vm_compute; reflexivity|].
  split; [vm_compute; reflexivity|]. split; [vm_compute; reflexivity|].
  split; [vm_compute; reflexivity|]. split; [vm_compute; reflexivity|].
  split; [vm_compute; reflexivity|].
  apply (tower_frontier_law tower_segment); vm_compute; reflexivity.
Defined.

(** C6 (minion-wave ownership inversion): in a segment whose pushed tower is
    an ally one (我方) every wave the segment adds belongs to the enemy
    ([red]); when the tower is an enemy one (敌方) the wave belongs to the
    ally ([blue]).  A segment adds at most one wave. *)
Theorem wave_ownership_inversion (line seg : str) (m : list str)
  (match_state match_state' : MatchState) :
  re_search tower_context_re seg = Some m ->
  segment_minions line seg match_state = Ok match_state' ->
  exists waves,
    minions match_state' = minions match_state ++ waves
    /\ (List.length waves <= 1)%nat
    /\ (group m 1 = kw_ally \/ group m 1 = kw_enemy)
    /\ forall w, In w waves ->
         (group m 1 = kw_ally -> minion_team w = red)
         /\ (group m 1 = kw_enemy -> minion_team w = blue).
Proof.
  intros Hm H. unfold segment_minions, context_team in H. rewrite Hm in H.
  pose proof (owner_word_cases tower_context_re _ seg m Hm eq_refl) as Hown.
  destruct (contains kw_threat seg).
  - bind_inv H. destruct (re_search minion_re seg) as [mm|].
    + do 4 bind_inv H. inversion H; subst; simpl.
      eexists [_]. split; [reflexivity|]. split; [simpl; lia|].
      split; [exact Hown|].
      intros w [Hw|[]]. subst w. simpl.
      split; intros Hg; rewrite Hg; reflexivity.
    + inversion H; subst. exists []. rewrite app_nil_r.
      split; [reflexivity|]. split; [simpl; lia|]. split; [exact Hown|].
      intros w [].
  - inversion H; subst. exists []. rewrite app_nil_r.
    split; [reflexivity|]. split; [simpl; lia|]. split; [exact Hown|].
    intros w [].
Qed.

Lemma wave_ownership_inversion_witness :
  exists m match_state',
    re_search tower_context_re wave_line = Some m
    /\ group m 1 = kw_ally
    /\ segment_minions wave_line wave_line initial_state = Ok match_state'
    /\ List.map minion_team (minions match_state') = [red]
    /\ exists waves,
         minions match_state' = minions initial_state ++ waves
         /\ (List.length waves <= 1)%nat
         /\ (group m 1 = kw_ally \/ group m 1 = kw_enemy)
         /\ forall w, In w waves ->
              (group m 1 = kw_ally -> minion_team w = red)
              /\ (group m 1 = kw_enemy -> minion_team w = blue).
Proof.
  eexists. eexists. split; [vm_compute; reflexivity|].
  split; [reflexivity|]. split; [vm_compute; reflexivity|].
  split; [reflexivity|].
  eapply (wave_ownership_inversion wave_line wave_line); vm_compute; reflexivity.
Defined.




(** C8 as stated fails: the coordinates the first pass harvests from the
    map-info section are never read.  Two texts that differ only in those
    coordinates parse to the same state, whose towers are the frontier tower
    alone, at the position its own segment reports; no tower is recorded for
    the tiers 二塔 and 高地塔 the map-info section describes. *)
Lemma static_towers_not_consumed :
  exists d1 d2 match_state tower,
    first_pass (split [10%N] map_text_1) = Ok d1
    /\ first_pass (split [10%N] map_text_2) = Ok d2
    /\ List.length d1 = 2%nat
    /\ d1 <> d2
    /\ parse map_text_1 = Ok match_state
    /\ parse map_text_2 = Ok match_state
    /\ towers match_state = [tower]
    /\ tower_type tower = u "一塔"
    /\ tower_position tower = (Qmake (-300) 10, Qmake 100 10).
Proof.
  eexists. eexists. eexists. eexists.
  split; [vm_compute; reflexivity|]. split; [vm_compute; reflexivity|].
  split; [reflexivity|]. split; [discriminate|].
  split; [vm_compute; reflexivity|]. split; [vm_compute; reflexivity|].
  split; [reflexivity|]. split; reflexivity.
Qed.

(** C8, amended: the first pass runs to completion before the second one
    (and can end the parse by raising), but the second pass does not depend
    on the coordinates harvested: it computes the same result from any
    dictionary, so [parse] is the first pass followed by the second pass run
    on the empty dictionary. *)
Theorem static_towers_unused (text : str) :
  (forall d1 d2,
     main_pass d1 (split [10%N] text) = main_pass d2 (split [10%N] text))
  /\ parse text
     = (_ <- first_pass (split [10%N] text) ;; main_pass [] (split [10%N] text)).
Proof.
  assert (H : forall d1 d2 lines, main_pass d1 lines = main_pass d2 lines).
  { intros d1 d2 lines. unfold main_pass.
    rewrite (for_each_ext (main_step d1) (main_step d2)); [reflexivity|].
    intros [sec ms] line. reflexivity. }
  split; [intros d1 d2; apply H|].
  unfold parse. destruct (first_pass (split [10%N] text)) as [d|e]; simpl;
    [apply H | reflexivity].
Qed.

(** C9 as stated fails: the minutes are copied as written, so a one-digit
    minute count gives [5:04], not the zero-padded [05:04]. *)
Lemma clock_minutes_not_padded :
  exists match_state,
    parse short_clock_text = Ok match_state
    /\ time_str match_state = u "5:04"
    /\ time_str match_state <> u "05:04".
Proof.
  eexists. split; [vm_compute; reflexivity|].
  split; [reflexivity | discriminate].
Qed.

(** C9, amended: in the section 整体情况 a line that contains 游戏阶段
    and the pattern minutes分seconds秒 sets the clock to the minutes as
    written, a colon, and the seconds padded with zeros to two characters: a
    single digit gets one zero in front, longer runs are kept.  So 13分4秒
    gives [13:04]. *)
Theorem clock_normalization (static_towers : static_dict)
  (match_state : MatchState) (line : str) (m : list str) :
  strip line <> [] ->
  is_header (strip line) = false ->
  contains kw_phase (strip line) = true ->
  re_search clock_re (strip line) = Some m ->
  main_step static_towers (Some sec_overall, match_state) line
  = Ok (Some sec_overall,
        set_time_str (group m 1 ++ u ":" ++ zfill 2 (group m 2)) match_state)
  /\ zfill 2 (group m 2)
     = (if (List.length (group m 2) =? 1)%nat
        then 48%N :: group m 2 else group m 2).
Proof.
  intros Hne Hh Hc Hm. split.
  - unfold main_step. destruct (strip line) as [|c l] eqn:El; [congruence|].
    rewrite Hh. unfold section_line.
    change (section_is (Some sec_overall) sec_overall) with true.
    cbv iota. unfold overall_line. rewrite Hc, Hm. reflexivity.
  - apply re_search_caps in Hm.
    change (groups_of clock_re) with [digits1; digits1] in Hm.
    inversion Hm as [|i1 w1 g1 c1 H1 Hr1]; subst.
    inversion Hr1 as [|i2 w2 g2 c2 H2 Hr2]; subst.
    unfold group. simpl nth. destruct H2 as [Hd Hlen].
    apply zfill_2_digits; assumption.
Qed.

Lemma clock_normalization_witness :
  exists m,
    strip clock_line <> []
    /\ is_header (strip clock_line) = false
    /\ contains kw_phase (strip clock_line) = true
    /\ re_search clock_re (strip clock_line) = Some m
    /\ group m 1 ++ u ":" ++ zfill 2 (group m 2) = u "13:04"
    /\ main_step [] (Some sec_overall, initial_state) clock_line
       = Ok (Some sec_overall,
             set_time_str (group m 1 ++ u ":" ++ zfill 2 (group m 2))
               initial_state)
    /\ zfill 2 (group m 2)
       = (if (List.length (group m 2) =? 1)%nat
          then 48%N :: group m 2 else group m 2).
Proof.
  eexists. split; [vm_compute; discriminate|].
  split; [vm_compute; reflexivity|]. split; [vm_compute; reflexivity|].
  split; [vm_compute; reflexivity|]. split; [vm_compute; reflexivity|].
  apply (clock_normalization [] initial_state clock_line);
    try (vm_compute; reflexivity).
  vm_compute; discriminate.
Defined.

(** * Further properties *)

(** ** What one line of a section can do to the state *)

Lemma section_line_cases (sec : option str) (line : str) (ms ms' : MatchState)
  (static_towers : static_dict) :
  section_line sec line ms static_towers = Ok ms' ->
  ms' = overall_line line ms
  \/ totals_line line ms = Ok ms'
  \/ _parse_hero_line line ms = Ok ms'
  \/ _parse_tower_minion_line line ms static_towers = Ok ms'
  \/ for_each monster_segment (split (u "；") line) ms = Ok ms'
  \/ ms' = ms.
Proof.
  unfold section_line. intros H.
  destruct (section_is sec sec_overall); [inversion H; auto|].
  destruct (section_is sec sec_totals); [auto|].
  destruct (existsb (section_is sec) hero_sections).
  { destruct (startswith (u "<") line); [auto|].
    inversion H; subst. do 5 right. reflexivity. }
  destruct (section_is sec sec_towers); [auto 6|].
  destruct (section_is sec sec_monsters); [auto 6|].
  inversion H; subst. do 5 right. reflexivity.
Qed.

(** A property of the initial state that every line of every section keeps
    holds of every parsed state. *)
Lemma parse_invariant (P : MatchState -> Prop) :
  P initial_state ->
  (forall sec line ms static_towers ms',
     P ms -> section_line sec line ms static_towers = Ok ms' -> P ms') ->
  forall text ms, parse text = Ok ms -> P ms.
Proof.
  intros Hinit Hstep text ms H. unfold parse, main_pass in H.
  bind_inv H. bind_inv H. inversion H; subst. clear H.
  refine (for_each_invariant (fun st => P (snd st)) (main_step v)
            (split [10%N] text) _ (None, initial_state) v0 Hinit E0).
  intros [sec m] line [sec' m'] _ Pm Hs. simpl in *.
  unfold main_step in Hs.
  destruct (strip line) as [|c l]; [inversion Hs; subst; exact Pm|].
  destruct (is_header (c :: l)); [inversion Hs; subst; exact Pm|].
  bind_inv Hs. inversion Hs; subst. eapply Hstep; eassumption.
Qed.

Lemma MatchState_eta (m : MatchState) :
  m = {| time_str := time_str m; blue_kills := blue_kills m;
         red_kills := red_kills m; blue_gold := blue_gold m;
         red_gold := red_gold m; heroes := heroes m; towers := towers m;
         minions := minions m; monsters := monsters m |}.
Proof. destruct m; reflexivity. Qed.

(** ** Digits read as a float *)

Lemma digit_not_dot (c : char) : is_digit c = true -> (c =? 46)%N = false.
Proof.
  intros H. destruct (c =? 46)%N eqn:E; [|reflexivity].
  apply N.eqb_eq in E. subst c. vm_compute in H. discriminate.
Qed.

Lemma digit_not_minus (c : char) : is_digit c = true -> (c =? 45)%N = false.
Proof.
  intros H. destruct (c =? 45)%N eqn:E; [|reflexivity].
  apply N.eqb_eq in E. subst c. vm_compute in H. discriminate.
Qed.

Lemma unsigned_float_digits (s : str) :
  forallb is_digit s = true ->
  forall acc seen, seen = true \/ (1 <= List.length s)%nat ->
  unsigned_float acc seen s
  = match digits_val acc s with
    | Some v => Some (v, O)
    | None => None
    end.
Proof.
  induction s as [|c s IH]; cbn [forallb unsigned_float digits_val];
    intros Hs acc seen Hseen.
  - destruct Hseen as [->|Hlen]; [reflexivity | simpl in Hlen; lia].
  - apply andb_true_iff in Hs. destruct Hs as [Hc Hs].
    rewrite (digit_not_dot c Hc).
    unfold is_digit in Hc. destruct (digit_val c) as [d|]; [|discriminate].
    apply IH; auto.
Qed.

(** On a non-empty run of digits [float] and [int] read the same number. *)
Lemma py_float_digits (s : str) :
  forallb is_digit s = true -> (1 <= List.length s)%nat ->
  exists n, py_int s = Ok n /\ py_float s = Ok (Qmake n 1) /\ (0 <= n)%Z.
Proof.
  intros Hs Hlen.
  destruct (py_int_digits s Hs Hlen) as (n & Hn & Hpos).
  exists n. split; [exact Hn|]. split; [|exact Hpos].
  destruct s as [|c s]; [simpl in Hlen; lia|].
  unfold py_int in Hn.
  destruct (digits_val 0 (c :: s)) as [v|] eqn:Ev; [|discriminate].
  inversion Hn; subst v. unfold py_float.
  pose proof Hs as Hs'. cbn [forallb] in Hs'.
  apply andb_true_iff in Hs'. destruct Hs' as [Hc _].
  rewrite (digit_not_minus c Hc).
  rewrite (unsigned_float_digits (c :: s) Hs 0%Z false (or_intror Hlen)).
  rewrite Ev. reflexivity.
Qed.

(** What the [k]-th group captures when it is [\d+]. *)
Lemma digit_group_caps (r : regex) (s : str) (m : list str) (k : nat) :
  re_search r s = Some m ->
  nth_error (groups_of r) k = Some digits1 ->
  forallb is_digit (group m (S k)) = true
  /\ (1 <= List.length (group m (S k)))%nat.
Proof.
  intros Hm Hk. apply re_search_caps in Hm.
  unfold group. simpl Nat.pred.
  revert k Hk. induction Hm as [|i w gs caps Hw Hrest IH]; intros k Hk.
  - destruct k; discriminate.
  - destruct k as [|k]; simpl in *.
    + inversion Hk; subst. exact Hw.
    + apply IH; assumption.
Qed.

Lemma Qle_0_float_div_100 (n : Z) : (0 <= n)%Z -> 0 <= float_div_100 (Qmake n 1).
Proof. intros H. unfold float_div_100, Qle. simpl. lia. Qed.

(** ** The effect of each section on the state *)

Lemma overall_line_effect (line : str) (ms : MatchState) :
  overall_line line ms = ms
  \/ exists m,
       re_search clock_re line = Some m
       /\ overall_line line ms
          = set_time_str (group m 1 ++ u ":" ++ zfill 2 (group m 2)) ms.
Proof.
  unfold overall_line. destruct (contains kw_phase line); [|left; reflexivity].
  destruct (re_search clock_re line) as [m|]; [|left; reflexivity].
  right. exists m. split; reflexivity.
Qed.

Lemma clock_of_match (line : str) (m : list str) :
  re_search clock_re line = Some m ->
  clock_ok (group m 1 ++ u ":" ++ zfill 2 (group m 2)).
Proof.
  intros Hm.
  destruct (digit_group_caps clock_re line m 0 Hm eq_refl) as [Hd1 Hl1].
  destruct (digit_group_caps clock_re line m 1 Hm eq_refl) as [Hd2 Hl2].
  exists (group m 1), (zfill 2 (group m 2)).
  split; [reflexivity|]. split; [exact Hd1|]. split; [exact Hl1|].
  rewrite (zfill_2_digits _ Hd2 Hl2).
  destruct (List.length (group m 2) =? 1)%nat eqn:E.
  - apply Nat.eqb_eq in E. split; [|simpl; lia].
    cbn [forallb]. rewrite Hd2. reflexivity.
  - apply Nat.eqb_neq in E. split; [exact Hd2 | lia].
Qed.

Lemma int_after_colon_nonneg (p : str) (v : Z) :
  int_after_colon p = Ok v -> (0 <= v)%Z.
Proof.
  unfold int_after_colon. intros H. bind_inv H.
  destruct (re_search int_re v0) as [m|] eqn:Em; [|discriminate].
  eapply (py_int_nonneg_group int_re v0 m 0); [exact Em | reflexivity | exact H].
Qed.

(** A line of 总体态势 writes the four counters and nothing else; the kill
    clause shadows the gold clause. *)
Lemma totals_line_effect (line : str) (ms ms' : MatchState) :
  totals_line line ms = Ok ms' ->
  exists bk rk bg rg,
    ms' = set_blue_kills bk (set_red_kills rk
            (set_blue_gold bg (set_red_gold rg ms)))
    /\ (bk = blue_kills ms \/ 0 <= bk)%Z
    /\ (rk = red_kills ms \/ 0 <= rk)%Z
    /\ (bg = blue_gold ms \/ 0 <= bg)%Z
    /\ (rg = red_gold ms \/ 0 <= rg)%Z
    /\ (contains kw_blue_kills line = true ->
        bg = blue_gold ms /\ rg = red_gold ms)
    /\ (contains kw_blue_kills line = false ->
        bk = blue_kills ms /\ rk = red_kills ms)
    /\ (contains kw_blue_kills line = false ->
        contains kw_blue_gold line = false ->
        bg = blue_gold ms /\ rg = red_gold ms).
Proof.
  unfold totals_line. intros H.
  destruct (contains kw_blue_kills line) eqn:Ek.
  - assert (Q : exists bk rk,
               ms' = set_blue_kills bk (set_red_kills rk ms)
               /\ (bk = blue_kills ms \/ 0 <= bk)%Z
               /\ (rk = red_kills ms \/ 0 <= rk)%Z).
    { refine (for_each_invariant
                (fun a => exists bk rk,
                   a = set_blue_kills bk (set_red_kills rk ms)
                   /\ (bk = blue_kills ms \/ 0 <= bk)%Z
                   /\ (rk = red_kills ms \/ 0 <= rk)%Z)
                _ _ _ ms ms' _ H).
      - intros a p a' _ (bk & rk & Ha & Hbk & Hrk) Hb. cbv beta in Hb.
        destruct (contains kw_blue_kills p).
        + bind_inv Hb. inversion Hb; subst.
          exists v, rk. split; [reflexivity|].
          split; [right; eapply int_after_colon_nonneg; eassumption | exact Hrk].
        + destruct (contains kw_red_kills p).
          * bind_inv Hb. inversion Hb; subst.
            exists bk, v. split; [reflexivity|].
            split; [exact Hbk | right; eapply int_after_colon_nonneg; eassumption].
          * inversion Hb; subst. exists bk, rk. auto.
      - exists (blue_kills ms), (red_kills ms).
        split; [destruct ms; reflexivity | auto]. }
    destruct Q as (bk & rk & Hms & Hbk & Hrk).
    exists bk, rk, (blue_gold ms), (red_gold ms).
    split; [subst ms'; destruct ms; reflexivity|].
    split; [exact Hbk|]. split; [exact Hrk|].
    split; [left; reflexivity|]. split; [left; reflexivity|].
    split; [intros _; split; reflexivity|].
    split; discriminate.
  - destruct (contains kw_blue_gold line) eqn:Eg.
    + assert (Q : exists bg rg,
                 ms' = set_blue_gold bg (set_red_gold rg ms)
                 /\ (bg = blue_gold ms \/ 0 <= bg)%Z
                 /\ (rg = red_gold ms \/ 0 <= rg)%Z).
      { refine (for_each_invariant
                  (fun a => exists bg rg,
                     a = set_blue_gold bg (set_red_gold rg ms)
                     /\ (bg = blue_gold ms \/ 0 <= bg)%Z
                     /\ (rg = red_gold ms \/ 0 <= rg)%Z)
                  _ _ _ ms ms' _ H).
        - intros a p a' _ (bg & rg & Ha & Hbg & Hrg) Hb. cbv beta in Hb.
          destruct (contains kw_blue_gold p).
          + bind_inv Hb. inversion Hb; subst.
            exists v, rg. split; [reflexivity|].
            split; [right; eapply int_after_colon_nonneg; eassumption | exact Hrg].
          + destruct (contains kw_red_gold p).
            * bind_inv Hb. inversion Hb; subst.
              exists bg, v. split; [reflexivity|].
              split; [exact Hbg | right; eapply int_after_colon_nonneg; eassumption].
            * inversion Hb; subst. exists bg, rg. auto.
        - exists (blue_gold ms), (red_gold ms).
          split; [destruct ms; reflexivity | auto]. }
      destruct Q as (bg & rg & Hms & Hbg & Hrg).
      exists (blue_kills ms), (red_kills ms), bg, rg.
      split; [subst ms'; destruct ms; reflexivity|].
      split; [left; reflexivity|]. split; [left; reflexivity|].
      split; [exact Hbg|]. split; [exact Hrg|].
      split; [discriminate|].
      split; [intros _; split; reflexivity|].
      intros _ Hf. discriminate Hf.
    + inversion H; subst.
      exists (blue_kills ms'), (red_kills ms'), (blue_gold ms'), (red_gold ms').
      split; [destruct ms'; reflexivity|].
      do 4 (split; [left; reflexivity|]).
      split; [discriminate|].
      split; [intros _; split; reflexivity|].
      intros _ _. split; reflexivity.
Qed.

Lemma _parse_hero_line_effect (line : str) (ms ms' : MatchState) :
  _parse_hero_line line ms = Ok ms' ->
  ms' = ms
  \/ exists h, hero_of_line line = Ok (Some h)
               /\ ms' = set_heroes (heroes ms ++ [h]) ms.
Proof.
  unfold _parse_hero_line. intros H. bind_inv H.
  destruct v as [h|]; inversion H; subst; [right; exists h|left]; auto.
Qed.

Lemma team_of_owner_cases (w : str) :
  team_of_owner w = blue \/ team_of_owner w = red.
Proof. unfold team_of_owner. destruct (str_eqb w kw_ally); auto. Qed.

Lemma minion_team_of_cases (c : option str) :
  minion_team_of c = blue \/ minion_team_of c = red.
Proof.
  unfold minion_team_of. destruct c as [t|]; [|right; reflexivity].
  destruct (str_eqb t blue); [right; reflexivity|].
  destruct (str_eqb t red); [left|right]; reflexivity.
Qed.

Lemma set_minions_nil (ms : MatchState) : set_minions (minions ms ++ []) ms = ms.
Proof. rewrite app_nil_r. destruct ms; reflexivity. Qed.

Lemma set_towers_nil (ms : MatchState) : set_towers (towers ms ++ []) ms = ms.
Proof. rewrite app_nil_r. destruct ms; reflexivity. Qed.

Lemma set_monsters_nil (ms : MatchState) : set_monsters (monsters ms ++ []) ms = ms.
Proof. rewrite app_nil_r. destruct ms; reflexivity. Qed.

Lemma index_nth {A : Type} (l : list A) (i : nat) (a d : A) :
  index l i = Ok a -> nth i l d = a.
Proof.
  unfold index. destruct (nth_error l i) as [x|] eqn:E; [|discriminate].
  intros H; inversion H; subst. apply nth_error_nth. exact E.
Qed.

(** The [# Minions] part adds at most one wave and touches nothing else. *)
Lemma segment_minions_effect (line seg : str) (ms ms' : MatchState) :
  segment_minions line seg ms = Ok ms' ->
  exists ws,
    ms' = set_minions (minions ms ++ ws) ms
    /\ (List.length ws <= 1)%nat
    /\ Forall (wave_of line seg) ws.
Proof.
  unfold segment_minions. intros H.
  destruct (contains kw_threat seg);
    [|inversion H; subst; exists []; rewrite set_minions_nil; auto].
  bind_inv H.
  destruct (re_search minion_re seg) as [m|] eqn:Em;
    [|inversion H; subst; exists []; rewrite set_minions_nil; auto].
  bind_inv H. bind_inv H. bind_inv H. bind_inv H. inversion H; subst.
  eexists [_]. split; [reflexivity|]. split; [simpl; lia|].
  constructor; [|constructor].
  unfold wave_of. simpl.
  split; [f_equal; symmetry; exact (index_nth _ _ _ [] E)|].
  split; [reflexivity|]. split.
  - eapply (py_int_nonneg_group minion_re seg m 3);
      [exact Em | reflexivity | eassumption].
  - destruct (digit_group_caps minion_re seg m 4 Em eq_refl) as [Hd Hl].
    destruct (py_float_digits _ Hd Hl) as (n & _ & Hf & Hn).
    assert (v3 = Qmake n 1) by congruence. subst v3.
    apply Qle_0_float_div_100. exact Hn.
Qed.

(** The [# Towers] part adds at most one tower and touches nothing else. *)
Lemma segment_towers_effect (seg : str) (ms ms' : MatchState) :
  segment_towers seg ms = Ok ms' ->
  exists ts,
    ms' = set_towers (towers ms ++ ts) ms
    /\ (List.length ts <= 1)%nat
    /\ Forall tower_ok ts.
Proof.
  unfold segment_towers. intros H.
  destruct (re_search tower_re seg) as [m|] eqn:Em;
    [|inversion H; subst; exists []; rewrite set_towers_nil; auto].
  bind_inv H. bind_inv H.
  destruct (frontier_idx (strip (group m 3))) as [i|] eqn:Ei;
    [|inversion H; subst; exists []; rewrite set_towers_nil; auto].
  bind_inv H. bind_inv H. inversion H; subst.
  eexists [_]. split; [reflexivity|]. split; [simpl; lia|].
  constructor; [|constructor].
  unfold tower_ok. simpl.
  split; [apply (frontier_idx_some _ _ Ei)|].
  split; [apply team_of_owner_cases|]. split; [reflexivity|].
  eapply int_div_100_nonneg; [|eassumption].
  eapply (py_int_nonneg_group tower_re seg m 5);
    [exact Em | reflexivity | eassumption].
Qed.

(** A whole line of 防御塔与兵线状态: towers and waves are appended, at most
    one of each per segment, and nothing else changes. *)
Lemma tower_minion_segments_effect (line : str) (segs : list str) :
  forall ms ms',
    for_each
      (fun match_state seg =>
         match_state <- segment_minions line seg match_state ;;
         segment_towers seg match_state)
      segs ms = Ok ms' ->
    exists ts ws,
      ms' = set_towers (towers ms ++ ts) (set_minions (minions ms ++ ws) ms)
      /\ Forall tower_ok ts
      /\ Forall (fun w => exists seg, In seg segs /\ wave_of line seg w) ws
      /\ (List.length ts <= List.length segs)%nat
      /\ (List.length ws <= List.length segs)%nat.
Proof.
  induction segs as [|seg segs IH]; simpl; intros ms ms' H.
  - inversion H; subst. exists [], [].
    split; [rewrite set_minions_nil, set_towers_nil; reflexivity|].
    repeat split; auto.
  - bind_inv H. bind_inv E.
    destruct (segment_minions_effect _ _ _ _ E0) as (w1 & Hw1 & Lw1 & Fw1).
    destruct (segment_towers_effect _ _ _ E) as (t1 & Ht1 & Lt1 & Ft1).
    destruct (IH _ _ H) as (ts & ws & Hms & Fts & Fws & Lts & Lws).
    exists (t1 ++ ts), (w1 ++ ws).
    split.
    { subst ms' v v0. destruct ms; simpl. rewrite <- !app_assoc. reflexivity. }
    split; [apply Forall_app; auto|]. split.
    { apply Forall_app. split.
      - eapply Forall_impl; [|exact Fw1]. intros w Hw. exists seg; auto.
      - eapply Forall_impl; [|exact Fws].
        intros w (sg & Hin & Hw). exists sg; auto. }
    rewrite !length_app. split; lia.
Qed.

(** One segment of 野怪状态 adds at most one monster, described by
    [monster_ok], and touches nothing else. *)
Lemma monster_segment_effect (ms ms' : MatchState) (seg : str) :
  monster_segment ms seg = Ok ms' ->
  exists new,
    ms' = set_monsters (monsters ms ++ new) ms
    /\ (List.length new <= 1)%nat
    /\ Forall monster_ok new.
Proof.
  unfold monster_segment. intros H.
  remember (strip_chars (u "。") (strip seg)) as d eqn:Ed. cbv zeta in H.
  clear Ed seg.
  destruct d as [|c d'];
    [inversion H; subst; exists []; rewrite set_monsters_nil; auto|].
  remember (c :: d') as d eqn:Ed. clear Ed c d'.
  destruct (contains (u "：") d) eqn:Ecolon;
    [|inversion H; subst; exists []; rewrite set_monsters_nil; auto].
  destruct (contains kw_absent d || contains kw_present d || contains kw_hp d)
    eqn:Eany;
    [|inversion H; subst; exists []; rewrite set_monsters_nil; auto].
  cbn [andb] in H.
  destruct (find (fun m_name => contains m_name d) known_monsters)
    as [cm|] eqn:Efind;
    [|inversion H; subst; exists []; rewrite set_monsters_nil; auto].
  bind_inv H. destruct v as [ex rs]. bind_inv H. bind_inv H.
  injection H as Hms'. subst ms'.
  eexists [_]. split; [reflexivity|]. split; [simpl; lia|].
  constructor; [|constructor].
  assert (Hex : ex = negb (contains kw_absent d)
                /\ (ex = true -> rs = None)
                /\ (re_search monster_respawn_re d = None -> rs = None)
                /\ (forall t, rs = Some t -> (0 <= t)%Z)).
  { destruct (contains kw_absent d) eqn:Eabs.
    - destruct (re_search monster_respawn_re d) as [r|] eqn:Er.
      + bind_inv E. inversion E; subst.
        split; [reflexivity|]. split; [discriminate|]. split; [discriminate|].
        intros t Ht. inversion Ht; subst.
        eapply (py_int_nonneg_group monster_respawn_re d r 0);
          [exact Er | reflexivity | eassumption].
      + inversion E; subst.
        split; [reflexivity|]. split; [discriminate|].
        split; [reflexivity | discriminate].
    - cbn [orb] in Eany. rewrite Eany in E. inversion E; subst.
      split; [reflexivity|]. split; [reflexivity|].
      split; [reflexivity | discriminate]. }
  destruct Hex as (Hex1 & Hex2 & Hex3 & Hex4). subst ex.
  assert (Hpos : re_search coord_re d = None -> v = None).
  { intros Hn. rewrite Hn in E0. inversion E0; reflexivity. }
  assert (Hhp : (re_search monster_hp_re d = None ->
                 v0 = if negb (contains kw_absent d) then 1 else 0)
                /\ 0 <= v0).
  { destruct (re_search monster_hp_re d) as [hm|] eqn:Eh.
    - split; [discriminate|]. bind_inv E1. injection E1 as Hv0.
      destruct (digit_group_caps monster_hp_re d hm 0 Eh eq_refl) as [Hd Hl].
      destruct (py_float_digits _ Hd Hl) as (n & _ & Hf & Hn).
      assert (Hv : v1 = Qmake n 1) by congruence.
      rewrite <- Hv0, Hv. apply Qle_0_float_div_100. exact Hn.
    - injection E1 as Hv0. rewrite <- Hv0. split; [reflexivity|].
      destruct (negb (contains kw_absent d)); unfold Qle; simpl; lia. }
  destruct Hhp as [Hhp1 Hhp2].
  unfold monster_ok. simpl.
  split; [exact Efind|]. split; [exact Ecolon|]. split; [reflexivity|].
  split; [exact Hex2|]. split; [exact Hex3|]. split; [exact Hex4|].
  split; [intros Hn; rewrite (Hpos Hn); reflexivity|].
  split; [exact Hhp1 | exact Hhp2].
Qed.

Lemma monster_segments_effect (segs : list str) :
  forall ms ms',
    for_each monster_segment segs ms = Ok ms' ->
    exists new,
      ms' = set_monsters (monsters ms ++ new) ms
      /\ Forall monster_ok new
      /\ (List.length new <= List.length segs)%nat.
Proof.
  induction segs as [|seg segs IH]; simpl; intros ms ms' H.
  - inversion H; subst. exists []. rewrite set_monsters_nil. auto.
  - bind_inv H.
    destruct (monster_segment_effect _ _ _ E) as (n1 & Hn1 & Ln1 & Fn1).
    destruct (IH _ _ H) as (new & Hms & Fnew & Lnew).
    exists (n1 ++ new). split.
    { subst ms' v. destruct ms; simpl. rewrite <- app_assoc. reflexivity. }
    split; [apply Forall_app; auto|]. rewrite length_app. lia.
Qed.

Lemma wave_of_ok (line seg : str) (w : MinionStatus) :
  wave_of line seg w -> wave_ok w.
Proof.
  intros (_ & Ht & Hc & Hh). split; [|split; assumption].
  rewrite Ht. apply minion_team_of_cases.
Qed.

(** Everything one line of a section can do. *)
Lemma line_effect_clock (line : str) (ms : MatchState) (t : str) :
  t = time_str ms \/ clock_ok t -> line_effect line ms (set_time_str t ms).
Proof.
  intros Ht.
  exists t, (blue_kills ms), (red_kills ms), (blue_gold ms), (red_gold ms),
    [], [], [], [].
  split; [rewrite !app_nil_r; reflexivity|].
  split; [exact Ht|]. do 4 (split; [left; reflexivity|]).
  repeat split; constructor.
Qed.

Lemma line_effect_refl (line : str) (ms : MatchState) : line_effect line ms ms.
Proof.
  assert (Hid : set_time_str (time_str ms) ms = ms) by (destruct ms; reflexivity).
  rewrite <- Hid at 2. apply line_effect_clock. left; reflexivity.
Qed.

Lemma section_line_effect (sec : option str) (line : str) (ms ms' : MatchState)
  (static_towers : static_dict) :
  section_line sec line ms static_towers = Ok ms' -> line_effect line ms ms'.
Proof.
  intros H. apply section_line_cases in H.
  destruct H as [H|[H|[H|[H|[H|H]]]]].
  - rewrite H.
    destruct (overall_line_effect line ms) as [He|(m & Hm & He)]; rewrite He.
    + apply line_effect_refl.
    + apply line_effect_clock. right. eapply clock_of_match; eassumption.
  - destruct (totals_line_effect _ _ _ H)
      as (bk & rk & bg & rg & Hms & Hbk & Hrk & Hbg & Hrg & _).
    exists (time_str ms), bk, rk, bg, rg, [], [], [], [].
    split; [rewrite Hms, !app_nil_r; reflexivity|].
    split; [left; reflexivity|].
    split; [exact Hbk|]. split; [exact Hrk|]. split; [exact Hbg|].
    split; [exact Hrg|]. repeat split; constructor.
  - destruct (_parse_hero_line_effect _ _ _ H) as [He|(h & Hh & He)]; rewrite He.
    + apply line_effect_refl.
    + exists (time_str ms), (blue_kills ms), (red_kills ms), (blue_gold ms),
        (red_gold ms), [h], [], [], [].
      split; [rewrite !app_nil_r; reflexivity|].
      do 5 (split; [left; reflexivity|]).
      split; [constructor; [exact Hh | constructor]|].
      repeat split; constructor.
  - unfold _parse_tower_minion_line in H.
    destruct (tower_minion_segments_effect _ _ _ _ H)
      as (ts & ws & Hms & Fts & Fws & _ & _).
    exists (time_str ms), (blue_kills ms), (red_kills ms), (blue_gold ms),
      (red_gold ms), [], ts, ws, [].
    split; [rewrite Hms, !app_nil_r; reflexivity|].
    do 5 (split; [left; reflexivity|]).
    split; [constructor|]. split; [exact Fts|]. split; [|constructor].
    eapply Forall_impl; [|exact Fws].
    intros w (seg & _ & Hw). eapply wave_of_ok; eassumption.
  - destruct (monster_segments_effect _ _ _ H) as (new & Hms & Fnew & _).
    exists (time_str ms), (blue_kills ms), (red_kills ms), (blue_gold ms),
      (red_gold ms), [], [], [], new.
    split; [rewrite Hms, !app_nil_r; reflexivity|].
    do 5 (split; [left; reflexivity|]).
    split; [constructor|]. split; [constructor|]. split; [constructor|].
    exact Fnew.
  - rewrite H. apply line_effect_refl.
Qed.

(** ** Parsed states *)

Ltac by_line_effect Hs :=
  let t := fresh "t" in
  let Hms := fresh "Hms" in
  destruct (section_line_effect _ _ _ _ _ Hs)
    as (t & ?bk & ?rk & ?bg & ?rg & ?hs & ?ts & ?ws & ?mons & Hms
        & ?Ht & ?Hbk & ?Hrk & ?Hbg & ?Hrg & ?Fhs & ?Fts & ?Fws & ?Fmons);
  rewrite Hms; simpl.

(** X1: every tower of a parsed state is a frontier tower: its tier is one
    of 一塔, 二塔, 高地塔, its team is blue or red, it is not destroyed and
    its hp is not negative. *)
Theorem parsed_towers_are_frontier_towers (text : str) (match_state : MatchState) :
  parse text = Ok match_state -> Forall tower_ok (towers match_state).
Proof.
  apply (parse_invariant (fun m => Forall tower_ok (towers m))).
  - constructor.
  - intros sec line ms st ms' P Hs. by_line_effect Hs.
    apply Forall_app. split; assumption.
Qed.

Lemma parsed_towers_are_frontier_towers_witness :
  exists match_state,
    parse sample = Ok match_state
    /\ List.length (towers match_state) = 2%nat
    /\ Forall tower_ok (towers match_state).
Proof.
  eexists. split; [vm_compute; reflexivity|]. split; [reflexivity|].
  apply (parsed_towers_are_frontier_towers sample). vm_compute. reflexivity.
Defined.

(** X2: every wave of a parsed state belongs to blue or red and has a count
    and an hp that are not negative. *)
Theorem parsed_waves_have_a_side (text : str) (match_state : MatchState) :
  parse text = Ok match_state -> Forall wave_ok (minions match_state).
Proof.
  apply (parse_invariant (fun m => Forall wave_ok (minions m))).
  - constructor.
  - intros sec line ms st ms' P Hs. by_line_effect Hs.
    apply Forall_app. split; assumption.
Qed.

Lemma parsed_waves_have_a_side_witness :
  exists match_state,
    parse sample = Ok match_state
    /\ List.length (minions match_state) = 1%nat
    /\ Forall wave_ok (minions match_state).
Proof.
  eexists. split; [vm_compute; reflexivity|]. split; [reflexivity|].
  apply (parsed_waves_have_a_side sample). vm_compute. reflexivity.
Defined.

(** X3: every monster of a parsed state can be read off the segment kept in
    its description: its name is the first known name the segment contains,
    it exists exactly when the segment lacks 不存在, a respawn time is
    recorded only for a monster that does not exist and is not negative,
    the position is (0, 0) when the segment gives no coordinates, and without
    a percentage the hp is 1 for an existing monster and 0 otherwise. *)
Theorem parsed_monsters_follow_their_segment (text : str)
  (match_state : MatchState) :
  parse text = Ok match_state -> Forall monster_ok (monsters match_state).
Proof.
  apply (parse_invariant (fun m => Forall monster_ok (monsters m))).
  - constructor.
  - intros sec line ms st ms' P Hs. by_line_effect Hs.
    apply Forall_app. split; assumption.
Qed.

Lemma parsed_monsters_follow_their_segment_witness :
  exists match_state,
    parse sample = Ok match_state
    /\ List.length (monsters match_state) = 2%nat
    /\ Forall monster_ok (monsters match_state).
Proof.
  eexists. split; [vm_compute; reflexivity|]. split; [reflexivity|].
  apply (parsed_monsters_follow_their_segment sample). vm_compute. reflexivity.
Defined.

(** X4: the kill and gold totals of a parsed state are never negative. *)
Theorem parsed_counters_nonnegative (text : str) (match_state : MatchState) :
  parse text = Ok match_state -> counters_ok match_state.
Proof.
  apply (parse_invariant counters_ok).
  - unfold counters_ok. simpl. lia.
  - intros sec line ms st ms' (P1 & P2 & P3 & P4) Hs. by_line_effect Hs.
    unfold counters_ok. simpl.
    repeat split;
      match goal with
      | H : (?x = _ \/ _)%Z |- (0 <= ?x)%Z => destruct H; [subst|]; assumption
      end.
Qed.

Lemma parsed_counters_nonnegative_witness :
  exists match_state,
    parse sample = Ok match_state
    /\ blue_gold match_state = 30500%Z
    /\ counters_ok match_state.
Proof.
  eexists. split; [vm_compute; reflexivity|]. split; [reflexivity|].
  apply (parsed_counters_nonnegative sample). vm_compute. reflexivity.
Defined.

Lemma clock_ok_initial : clock_ok (u "00:00").
Proof.
  exists (u "00"), (u "00"). split; [reflexivity|].
  split; [vm_compute; reflexivity|]. split; [simpl; lia|].
  split; [vm_compute; reflexivity | simpl; lia].
Qed.

(** X5: the clock of a parsed state always has the shape digits, colon,
    at least two digits, whatever the text. *)
Theorem parsed_clock_shape (text : str) (match_state : MatchState) :
  parse text = Ok match_state -> clock_ok (time_str match_state).
Proof.
  apply (parse_invariant (fun m => clock_ok (time_str m))).
  - apply clock_ok_initial.
  - intros sec line ms st ms' P Hs. by_line_effect Hs.
    destruct Ht as [Ht|Ht]; [subst; exact P | exact Ht].
Qed.

Lemma parsed_clock_shape_witness :
  exists match_state,
    parse sample = Ok match_state
    /\ time_str match_state = u "13:04"
    /\ clock_ok (time_str match_state).
Proof.
  eexists. split; [vm_compute; reflexivity|]. split; [reflexivity|].
  apply (parsed_clock_shape sample). vm_compute. reflexivity.
Defined.

(** ** Lines of the tower section and of the totals section *)

(** X6: a line of 防御塔与兵线状态 only appends towers and waves, at most
    one of each per ；-segment, and leaves the clock, the totals, the heroes
    and the monsters as they were; every wave of the line gets as lane the
    stripped text before the first ： of the line, whichever segment it
    comes from. *)
Theorem tower_minion_line_appends (line : str) (match_state match_state' : MatchState)
  (static_towers : static_dict) :
  _parse_tower_minion_line line match_state static_towers = Ok match_state' ->
  exists ts ws,
    match_state'
    = set_towers (towers match_state ++ ts)
        (set_minions (minions match_state ++ ws) match_state)
    /\ (List.length ts <= List.length (split (u "；") line))%nat
    /\ (List.length ws <= List.length (split (u "；") line))%nat
    /\ Forall tower_ok ts
    /\ Forall (fun w => minion_lane w = strip (nth 0 (split (u "：") line) [])
                        /\ wave_ok w) ws.
Proof.
  unfold _parse_tower_minion_line. intros H.
  destruct (tower_minion_segments_effect _ _ _ _ H)
    as (ts & ws & Hms & Fts & Fws & Lts & Lws).
  exists ts, ws. split; [exact Hms|]. split; [exact Lts|].
  split; [exact Lws|]. split; [exact Fts|].
  eapply Forall_impl; [|exact Fws].
  intros w (seg & _ & Hw). split; [apply Hw | eapply wave_of_ok; exact Hw].
Qed.

Lemma tower_minion_line_appends_witness :
  exists match_state' ts ws,
    _parse_tower_minion_line wave_line initial_state [] = Ok match_state'
    /\ List.length (towers match_state') = 1%nat
    /\ List.length (minions match_state') = 1%nat
    /\ match_state'
       = set_towers (towers initial_state ++ ts)
           (set_minions (minions initial_state ++ ws) initial_state)
    /\ (List.length ts <= List.length (split (u "；") wave_line))%nat
    /\ (List.length ws <= List.length (split (u "；") wave_line))%nat
    /\ Forall tower_ok ts
    /\ Forall (fun w => minion_lane w
                        = strip (nth 0 (split (u "：") wave_line) [])
                        /\ wave_ok w) ws.
Proof.
  destruct (tower_minion_line_appends wave_line initial_state
              (set_towers
                 [{| tower_team := blue; tower_lane := u "上路";
                     tower_type := u "二塔"; tower_hp_percent := Qmake 40 100;
                     tower_position := (Qmake (-300) 10, Qmake 100 10);
                     is_destroyed := false |}]
                 (set_minions
                    [{| minion_team := red; minion_lane := u "上路";
                        minion_position := (Qmake (-285) 10, Qmake 110 10);
                        minion_count := 3;
                        minion_hp_percent := float_div_100 (Qmake 75 1);
                        minion_type := u "普通小兵" |}]
                    initial_state))
              [])
    as (ts & ws & H); [vm_compute; reflexivity|].
  eexists. exists ts, ws.
  split; [vm_compute; reflexivity|]. split; [reflexivity|].
  split; [reflexivity|]. exact H.
Defined.

(** X7: a segment that names a threatening wave but no pushed tower records
    the wave for the enemy side, [red]. *)
Theorem wave_without_tower_is_red (line seg : str)
  (match_state match_state' : MatchState) :
  re_search tower_context_re seg = None ->
  segment_minions line seg match_state = Ok match_state' ->
  exists ws,
    minions match_state' = minions match_state ++ ws
    /\ Forall (fun w => minion_team w = red) ws.
Proof.
  intros Hc H.
  destruct (segment_minions_effect _ _ _ _ H) as (ws & Hms & _ & Fws).
  exists ws. split; [rewrite Hms; reflexivity|].
  eapply Forall_impl; [|exact Fws].
  intros w (_ & Ht & _). rewrite Ht. unfold context_team. rewrite Hc. reflexivity.
Qed.

Lemma wave_without_tower_is_red_witness :
  exists match_state',
    re_search tower_context_re orphan_wave_segment = None
    /\ segment_minions orphan_wave_segment orphan_wave_segment initial_state
       = Ok match_state'
    /\ List.map minion_team (minions match_state') = [red]
    /\ exists ws,
         minions match_state' = minions initial_state ++ ws
         /\ Forall (fun w => minion_team w = red) ws.
Proof.
  eexists. split; [vm_compute; reflexivity|].
  split; [vm_compute; reflexivity|]. split; [reflexivity|].
  apply (wave_without_tower_is_red orphan_wave_segment orphan_wave_segment);
    vm_compute; reflexivity.
Defined.

(** X8: a line of 总体态势 changes nothing but the four totals.  A line that
    contains 我方人头数 never sets the gold totals, a line that lacks it never
    sets the kill counts (an enemy kill count on a line of its own is
    ignored), and a line with neither 我方人头数 nor 我方总经济 changes
    nothing. *)
Theorem totals_line_clauses (line : str) (match_state match_state' : MatchState) :
  totals_line line match_state = Ok match_state' ->
  time_str match_state' = time_str match_state
  /\ heroes match_state' = heroes match_state
  /\ towers match_state' = towers match_state
  /\ minions match_state' = minions match_state
  /\ monsters match_state' = monsters match_state
  /\ (contains kw_blue_kills line = true ->
      blue_gold match_state' = blue_gold match_state
      /\ red_gold match_state' = red_gold match_state)
  /\ (contains kw_blue_kills line = false ->
      blue_kills match_state' = blue_kills match_state
      /\ red_kills match_state' = red_kills match_state)
  /\ (contains kw_blue_kills line = false ->
      contains kw_blue_gold line = false ->
      match_state' = match_state).
Proof.
  intros H.
  destruct (totals_line_effect _ _ _ H)
    as (bk & rk & bg & rg & Hms & _ & _ & _ & _ & Hk & Hnk & Hn).
  rewrite Hms. simpl.
  do 5 (split; [reflexivity|]).
  split; [exact Hk|]. split; [exact Hnk|].
  intros H1 H2. destruct (Hnk H1) as [-> ->]. destruct (Hn H1 H2) as [-> ->].
  destruct match_state; reflexivity.
Qed.

Lemma totals_line_clauses_witness :
  exists s1 s2,
    totals_line kills_and_gold_line initial_state = Ok s1
    /\ (blue_kills s1, blue_gold s1) = (5, 0)%Z
    /\ totals_line enemy_kills_only_line initial_state = Ok s2
    /\ s2 = initial_state
    /\ (contains kw_blue_kills kills_and_gold_line = true ->
        blue_gold s1 = blue_gold initial_state
        /\ red_gold s1 = red_gold initial_state)
    /\ (contains kw_blue_kills enemy_kills_only_line = false ->
        contains kw_blue_gold enemy_kills_only_line = false ->
        s2 = initial_state).
Proof.
  eexists. eexists. split; [vm_compute; reflexivity|].
  split; [reflexivity|]. split; [vm_compute; reflexivity|].
  split; [reflexivity|]. split.
  - apply (totals_line_clauses kills_and_gold_line initial_state).
    vm_compute. reflexivity.
  - apply (totals_line_clauses enemy_kills_only_line initial_state).
    vm_compute. reflexivity.
Defined.

(** ** [str.split] always yields a piece, and two when the separator occurs *)

Lemma split_go_length (sep : str) (s : str) :
  forall skip cur, (1 <= List.length (split_go sep s skip cur))%nat.
Proof.
  induction s as [|c s IH]; simpl; intros skip cur; [lia|].
  destruct skip as [|k]; [|apply IH].
  destruct (startswith sep (c :: s)); [simpl; lia | apply IH].
Qed.

Lemma split_length (sep s : str) : (1 <= List.length (split sep s))%nat.
Proof. apply split_go_length. Qed.

Lemma split_go_contains (sep : str) (s : str) :
  sep <> [] ->
  forall cur, contains sep s = true ->
  (2 <= List.length (split_go sep s O cur))%nat.
Proof.
  intros Hsep. induction s as [|c s IH]; intros cur Hc.
  - destruct sep; [congruence | discriminate Hc].
  - cbn [contains] in Hc. cbn [split_go].
    destruct (startswith sep (c :: s)) eqn:Es.
    + cbn [List.length].
      pose proof (split_go_length sep s (Nat.pred (List.length sep)) []). lia.
    + cbn [orb] in Hc. apply IH. exact Hc.
Qed.

Lemma split_contains (sep s : str) :
  sep <> [] -> contains sep s = true -> (2 <= List.length (split sep s))%nat.
Proof. intros Hsep Hc. apply split_go_contains; assumption. Qed.

Lemma nth_error_lt {A : Type} (l : list A) (i : nat) :
  (i < List.length l)%nat -> exists a, nth_error l i = Some a.
Proof.
  intros H. destruct (nth_error l i) as [a|] eqn:E; [exists a; reflexivity|].
  apply nth_error_None in E. lia.
Qed.

(** ** What each block of [_parse_hero_line] writes *)

Lemma int_div_100_ok (n : Z) (x : float) :
  int_div_100 n = Ok x -> x = Qmake n 100.
Proof.
  unfold int_div_100. destruct (n <? float_overflow)%Z; [|discriminate].
  intros H; injection H as <-; reflexivity.
Qed.

Section HeroSpecs.
Variable line : str.

Lemma parse_role_spec (h : HeroStatus) :
  exists ro,
    parse_role line h = set_role ro h
    /\ ((contains (u "是") line && contains (u "路") line = false
         \/ re_search role_re line = None) /\ ro = role h
        \/ exists m,
             contains (u "是") line && contains (u "路") line = true
             /\ re_search role_re line = Some m /\ ro = group m 2).
Proof.
  unfold parse_role.
  destruct (contains (u "是") line && contains (u "路") line).
  - destruct (re_search role_re line) as [m|].
    + exists (group m 2). split; [reflexivity|]. right. exists m. auto.
    + exists (role h). split; [destruct h; reflexivity|]. left. auto.
  - exists (role h). split; [destruct h; reflexivity|]. left. auto.
Qed.

Lemma parse_level_spec (h h' : HeroStatus) :
  parse_level line h = Ok h' ->
  exists l,
    h' = set_level l h
    /\ (re_search level_re line = None /\ l = level h
        \/ exists m, re_search level_re line = Some m
                     /\ py_int (group m 1) = Ok l).
Proof.
  unfold parse_level. intros H.
  destruct (re_search level_re line) as [m|].
  - bind_inv H. injection H as <-. exists v. split; [reflexivity|].
    right. exists m. auto.
  - injection H as <-. exists (level h).
    split; [destruct h; reflexivity | left; auto].
Qed.

Lemma parse_dead_alive_fields (h h' : HeroStatus) :
  parse_dead_alive line h = Ok h' ->
  exists d r hp mana,
    h' = set_mana_percent mana
           (set_hp_percent hp (set_respawn_time r (set_is_dead d h)))
    /\ (contains kw_dead line = true ->
        d = true /\ mana = mana_percent h
        /\ (re_search respawn_re line = None /\ r = respawn_time h
            /\ hp = hp_percent h
            \/ exists m, re_search respawn_re line = Some m
                         /\ py_int (group m 1) = Ok r /\ hp = 0))
    /\ (contains kw_dead line = false ->
        d = is_dead h /\ r = respawn_time h
        /\ (re_search hero_hp_re line = None /\ hp = hp_percent h
            \/ exists m n, re_search hero_hp_re line = Some m
                           /\ py_int (group m 1) = Ok n
                           /\ hp = Qmake n 100)
        /\ (re_search mana_re line = None /\ mana = mana_percent h
            \/ exists m n, re_search mana_re line = Some m
                           /\ py_int (group m 1) = Ok n
                           /\ mana = Qmake n 100)).
Proof.
  unfold parse_dead_alive. intros H.
  destruct (contains kw_dead line).
  - destruct (re_search respawn_re line) as [m|].
    + bind_inv H. injection H as <-.
      exists true, v, 0, (mana_percent h).
      split; [destruct h; reflexivity|]. split; [|discriminate].
      intros _. split; [reflexivity|]. split; [reflexivity|].
      right. exists m. auto.
    + injection H as <-.
      exists true, (respawn_time h), (hp_percent h), (mana_percent h).
      split; [destruct h; reflexivity|]. split; [|discriminate].
      intros _. split; [reflexivity|]. split; [reflexivity|]. left. auto.
  - bind_inv H.
    assert (Hhp : exists hp,
              v = set_hp_percent hp h
              /\ (re_search hero_hp_re line = None /\ hp = hp_percent h
                  \/ exists m n, re_search hero_hp_re line = Some m
                                 /\ py_int (group m 1) = Ok n
                                 /\ hp = Qmake n 100)).
    { destruct (re_search hero_hp_re line) as [m|].
      - apply bind_ok in E. destruct E as (n & Hn & E).
        apply bind_ok in E. destruct E as (x & Hx & E).
        injection E as <-. apply int_div_100_ok in Hx. subst x.
        exists (Qmake n 100). split; [reflexivity|].
        right. exists m, n. auto.
      - injection E as <-. exists (hp_percent h).
        split; [destruct h; reflexivity | left; auto]. }
    destruct Hhp as (hp & Hv & Hhp). subst v.
    assert (Hm : exists mana,
              h' = set_mana_percent mana (set_hp_percent hp h)
              /\ (re_search mana_re line = None /\ mana = mana_percent h
                  \/ exists m n, re_search mana_re line = Some m
                                 /\ py_int (group m 1) = Ok n
                                 /\ mana = Qmake n 100)).
    { destruct (re_search mana_re line) as [m|].
      - apply bind_ok in H. destruct H as (n & Hn & H).
        apply bind_ok in H. destruct H as (x & Hx & H).
        injection H as <-. apply int_div_100_ok in Hx. subst x.
        exists (Qmake n 100). split; [reflexivity|].
        right. exists m, n. auto.
      - injection H as <-. exists (mana_percent h).
        split; [destruct h; reflexivity | left; auto]. }
    destruct Hm as (mana & Hh' & Hm).
    exists (is_dead h), (respawn_time h), hp, mana.
    split; [rewrite Hh'; destruct h; reflexivity|].
    split; [discriminate|]. intros _. auto.
Qed.

Lemma parse_coordinates_spec (h h' : HeroStatus) :
  parse_coordinates line h = Ok h' ->
  exists p,
    h' = set_position p h
    /\ (re_search coord_re line = None /\ p = position h
        \/ exists m x y, re_search coord_re line = Some m
                         /\ py_float (group m 1) = Ok x
                         /\ py_float (group m 2) = Ok y
                         /\ p = Some (x, y)).
Proof.
  unfold parse_coordinates. intros H.
  destruct (re_search coord_re line) as [m|].
  - bind_inv H. bind_inv H. injection H as <-.
    exists (Some (v, v0)). split; [reflexivity|].
    right. exists m, v, v0. auto.
  - injection H as <-. exists (position h).
    split; [destruct h; reflexivity | left; auto].
Qed.

Lemma parse_kda_fields (h h' : HeroStatus) :
  parse_kda line h = Ok h' ->
  exists k,
    h' = set_kda k h
    /\ (re_search kda_re line = None /\ k = kda h
        \/ exists m K A D, re_search kda_re line = Some m
                           /\ py_int (group m 1) = Ok K
                           /\ py_int (group m 2) = Ok A
                           /\ py_int (group m 3) = Ok D
                           /\ k = (K, D, A)).
Proof.
  unfold parse_kda. intros H.
  destruct (re_search kda_re line) as [m|].
  - bind_inv H. bind_inv H. bind_inv H. injection H as <-.
    exists (v, v0, v1). split; [reflexivity|].
    right. exists m, v, v1, v0. auto.
  - injection H as <-. exists (kda h).
    split; [destruct h; reflexivity | left; auto].
Qed.

Lemma parse_gold_spec (h h' : HeroStatus) :
  parse_gold line h = Ok h' ->
  exists g,
    h' = set_gold g h
    /\ (re_search gold_re line = None /\ g = gold h
        \/ exists m, re_search gold_re line = Some m
                     /\ py_int (group m 1) = Ok g).
Proof.
  unfold parse_gold. intros H.
  destruct (re_search gold_re line) as [m|].
  - bind_inv H. injection H as <-. exists v. split; [reflexivity|].
    right. exists m. auto.
  - injection H as <-. exists (gold h).
    split; [destruct h; reflexivity | left; auto].
Qed.

(** The [try] of [# Parse Items] never fails: the label occurs, so the split
    has a second piece, and every split has a first piece. *)
Lemma parse_items_spec (h : HeroStatus) :
  exists its,
    parse_items line h = set_items its h
    /\ (contains kw_items line = false /\ its = items h
        \/ exists after items_part,
             contains kw_items line = true
             /\ nth_error (split kw_items line) 1 = Some after
             /\ nth_error (split (u "，") after) 0 = Some items_part
             /\ its = List.map strip (split (u "、") items_part)).
Proof.
  unfold parse_items. destruct (contains kw_items line) eqn:Ec.
  - assert (Hk : kw_items <> []) by discriminate.
    pose proof (split_contains kw_items line Hk Ec) as Hlen.
    destruct (nth_error_lt (split kw_items line) 1 ltac:(lia)) as (after & Ha).
    destruct (nth_error_lt (split (u "，") after) 0
                ltac:(pose proof (split_length (u "，") after); lia))
      as (p0 & Hp).
    exists (List.map strip (split (u "、") p0)). split.
    + unfold index. rewrite Ha. cbn [bind]. rewrite Hp. reflexivity.
    + right. exists after, p0. auto.
  - exists (items h). split; [destruct h; reflexivity | left; auto].
Qed.

Lemma parse_buffs_spec (h : HeroStatus) :
  parse_buffs line h
  = set_buffs (if contains kw_tyrant_buff line
               then buffs h ++ [u "暴君"] else buffs h) h.
Proof.
  unfold parse_buffs. destruct (contains kw_tyrant_buff line);
    [reflexivity | destruct h; reflexivity].
Qed.

Lemma parse_ult_spec (h : HeroStatus) :
  parse_ult line h = set_has_ult (negb (contains kw_no_ult line)) h.
Proof.
  unfold parse_ult. destruct (contains kw_no_ult line); reflexivity.
Qed.

End HeroSpecs.

(** Every field of an emitted hero, read off its line. *)
Lemma hero_of_line_fields (line : str) (h : HeroStatus) :
  hero_of_line line = Ok (Some h) ->
  exists tag p0 player ro l d r hp mana p k g its,
    re_match hero_tag_re line = Some tag
    /\ nth_error (split (u "-") (group tag 1)) 0 = Some p0
    /\ nth_error (split (u "-") (group tag 1)) 1 = Some player
    /\ h = {| name := last (split (u "-") (group tag 1)) [];
              player_name := player;
              team := if str_eqb p0 (u "我方") then u "blue" else u "red";
              role := ro; level := l; hp_percent := hp;
              mana_percent := mana; is_dead := d; respawn_time := r;
              position := p; kda := k; gold := g; items := its;
              has_ult := negb (contains kw_no_ult line);
              buffs := if contains kw_tyrant_buff line
                       then [u "暴君"] else [] |}
    /\ reads_role line ro
    /\ reads_int level_re 1 line l
    /\ reads_life line d r hp mana
    /\ reads_position line p
    /\ reads_kda line k
    /\ reads_int gold_re 0 line g
    /\ reads_items line its.
Proof.
  unfold hero_of_line. intros H.
  destruct (re_match hero_tag_re line) as [tag|]; [|discriminate].
  apply bind_ok in H. destruct H as (p0 & Hp0 & H).
  apply bind_ok in H. destruct H as (player & Hpl & H).
  remember (new_hero (last (split (u "-") (group tag 1)) []) player
              (if str_eqb p0 (u "我方") then u "blue" else u "red")) as h0.
  destruct (parse_role_spec line h0) as (ro & Hro & Rro). rewrite Hro in H.
  apply bind_ok in H. destruct H as (h1 & H1 & H).
  destruct (parse_level_spec _ _ _ H1) as (l & -> & Rl).
  apply bind_ok in H. destruct H as (h2 & H2 & H).
  destruct (parse_dead_alive_fields _ _ _ H2)
    as (d & r & hp & mana & -> & Rdead & Ralive).
  apply bind_ok in H. destruct H as (h3 & H3 & H).
  destruct (parse_coordinates_spec _ _ _ H3) as (p & -> & Rp).
  apply bind_ok in H. destruct H as (h4 & H4 & H).
  destruct (parse_kda_fields _ _ _ H4) as (k & -> & Rk).
  apply bind_ok in H. destruct H as (h5 & H5 & H).
  destruct (parse_gold_spec _ _ _ H5) as (g & -> & Rg).
  rewrite parse_ult_spec, parse_buffs_spec in H.
  match type of H with
  | context [parse_items line ?x] =>
      destruct (parse_items_spec line x) as (its & Hits & Rits);
      rewrite Hits in H
  end.
  injection H as <-. subst h0.
  exists tag, p0, player, ro, l, d, r, hp, mana, p, k, g, its.
  split; [reflexivity|].
  split; [unfold index in Hp0;
          destruct (nth_error (split (u "-") (group tag 1)) 0);
          [injection Hp0 as ->; reflexivity | discriminate]|].
  split; [unfold index in Hpl;
          destruct (nth_error (split (u "-") (group tag 1)) 1);
          [injection Hpl as ->; reflexivity | discriminate]|].
  split; [reflexivity|].
  split; [exact Rro|]. split; [exact Rl|].
  split; [split; [exact Rdead | exact Ralive]|].
  split; [exact Rp|]. split; [exact Rk|]. split; [exact Rg | exact Rits].
Qed.

(** ** Heroes *)

(** X9: the identity of a hero comes from its tag, split at the hyphens: the
    name is the last token, the player label the second token (so a tag of
    two tokens gives the same text for both), and the team is blue exactly
    when the first token is 我方; any other first token gives red. *)
Theorem hero_identity_from_tag (line : str) (hero : HeroStatus) :
  hero_of_line line = Ok (Some hero) ->
  exists tag p0,
    re_match hero_tag_re line = Some tag
    /\ nth_error (split (u "-") (group tag 1)) 0 = Some p0
    /\ nth_error (split (u "-") (group tag 1)) 1 = Some (player_name hero)
    /\ name hero = last (split (u "-") (group tag 1)) []
    /\ (p0 = u "我方" -> team hero = blue)
    /\ (p0 <> u "我方" -> team hero = red)
    /\ (List.length (split (u "-") (group tag 1)) = 2%nat ->
        player_name hero = name hero).
Proof.
  intros H. destruct (hero_of_line_fields line hero H)
    as (tag & p0 & player & ro & l & d & r & hp & mana & p & k & g & its
        & Htag & Hp0 & Hpl & Hh & _).
  exists tag, p0. rewrite Hh. cbn [name player_name team].
  split; [exact Htag|]. split; [exact Hp0|]. split; [exact Hpl|].
  split; [reflexivity|]. split; [|split].
  - intros ->. reflexivity.
  - intros Hne. destruct (str_eqb p0 (u "我方")) eqn:E; [|reflexivity].
    apply str_eqb_eq in E. contradiction.
  - intros Hlen.
    destruct (split (u "-") (group tag 1)) as [|a [|b [|c rest]]];
      try discriminate Hlen.
    simpl in Hpl. injection Hpl as <-. reflexivity.
Qed.

Lemma hero_identity_from_tag_witness :
  exists h1 h2,
    hero_of_line two_token_line = Ok (Some h1)
    /\ (name h1, player_name h1, team h1) = (u "廉颇", u "廉颇", blue)
    /\ hero_of_line stranger_line = Ok (Some h2)
    /\ team h2 = red
    /\ exists tag p0,
         re_match hero_tag_re two_token_line = Some tag
         /\ nth_error (split (u "-") (group tag 1)) 0 = Some p0
         /\ nth_error (split (u "-") (group tag 1)) 1 = Some (player_name h1)
         /\ name h1 = last (split (u "-") (group tag 1)) []
         /\ (p0 = u "我方" -> team h1 = blue)
         /\ (p0 <> u "我方" -> team h1 = red)
         /\ (List.length (split (u "-") (group tag 1)) = 2%nat ->
             player_name h1 = name h1).
Proof.
  eexists. eexists. split; [vm_compute; reflexivity|].
  split; [reflexivity|]. split; [vm_compute; reflexivity|].
  split; [reflexivity|].
  apply (hero_identity_from_tag two_token_line). vm_compute. reflexivity.
Defined.

(** X10: a phrase that is absent from a hero line leaves the default of the
    constructor call: level 1, gold 0, KDA (0, 0, 0), no position, no items,
    an empty role; a line without 已阵亡 gives an alive hero without
    countdown, with hp 1.0 and mana 1.0 unless a percentage is given.  The
    only buff ever recorded is 暴君. *)
Theorem hero_defaults (line : str) (hero : HeroStatus) :
  hero_of_line line = Ok (Some hero) ->
  (re_search level_re line = None -> level hero = 1%Z)
  /\ (re_search gold_re line = None -> gold hero = 0%Z)
  /\ (re_search kda_re line = None -> kda hero = (0, 0, 0)%Z)
  /\ (re_search coord_re line = None -> position hero = None)
  /\ (contains kw_items line = false -> items hero = [])
  /\ (contains (u "是") line && contains (u "路") line = false ->
      role hero = [])
  /\ (contains kw_dead line = false ->
      is_dead hero = false /\ respawn_time hero = 0%Z
      /\ (re_search hero_hp_re line = None -> hp_percent hero = 1)
      /\ (re_search mana_re line = None -> mana_percent hero = 1))
  /\ buffs hero = (if contains kw_tyrant_buff line then [u "暴君"] else []).
Proof.
  intros H. destruct (hero_of_line_fields line hero H)
    as (tag & p0 & player & ro & l & d & r & hp & mana & p & k & g & its
        & _ & _ & _ & Hh & Rro & Rl & [_ Ralive] & Rp & Rk & Rg & Rits).
  rewrite Hh.
  cbn [role level hp_percent mana_percent is_dead respawn_time position kda
       gold items buffs].
  split.
  { intros Hn. destruct Rl as [[_ ->]|(m & Hm & _)];
      [reflexivity | congruence]. }
  split.
  { intros Hn. destruct Rg as [[_ ->]|(m & Hm & _)];
      [reflexivity | congruence]. }
  split.
  { intros Hn. destruct Rk as [[_ ->]|(m & K & A & D & Hm & _)];
      [reflexivity | congruence]. }
  split.
  { intros Hn. destruct Rp as [[_ ->]|(m & x & y & Hm & _)];
      [reflexivity | congruence]. }
  split.
  { intros Hn. destruct Rits as [[_ ->]|(a & b & Hc & _)];
      [reflexivity | congruence]. }
  split.
  { intros Hn. destruct Rro as [[_ ->]|(m & Hc & _)];
      [reflexivity | congruence]. }
  split; [|reflexivity].
  intros Hd. destruct (Ralive Hd) as (-> & -> & Rhp & Rmana).
  split; [reflexivity|]. split; [reflexivity|]. split.
  - intros Hn. destruct Rhp as [[_ ->]|(m & n & Hm & _)];
      [reflexivity | congruence].
  - intros Hn. destruct Rmana as [[_ ->]|(m & n & Hm & _)];
      [reflexivity | congruence].
Qed.

Lemma hero_defaults_witness :
  exists h,
    hero_of_line bare_line = Ok (Some h)
    /\ (level h, gold h, kda h, position h, items h, role h)
       = (1%Z, 0%Z, (0, 0, 0)%Z, None, [], [])
    /\ (re_search level_re bare_line = None -> level h = 1%Z)
    /\ (re_search gold_re bare_line = None -> gold h = 0%Z)
    /\ (re_search kda_re bare_line = None -> kda h = (0, 0, 0)%Z)
    /\ (re_search coord_re bare_line = None -> position h = None)
    /\ (contains kw_items bare_line = false -> items h = [])
    /\ (contains (u "是") bare_line && contains (u "路") bare_line = false ->
        role h = [])
    /\ (contains kw_dead bare_line = false ->
        is_dead h = false /\ respawn_time h = 0%Z
        /\ (re_search hero_hp_re bare_line = None -> hp_percent h = 1)
        /\ (re_search mana_re bare_line = None -> mana_percent h = 1))
    /\ buffs h = (if contains kw_tyrant_buff bare_line then [u "暴君"] else []).
Proof.
  eexists. split; [vm_compute; reflexivity|]. split; [reflexivity|].
  apply (hero_defaults bare_line). vm_compute. reflexivity.
Defined.

(** X11: a dead hero of a parsed state has mana 1.0 and hp 0 or 1.0: the
    hp and mana percentages of a line marked 已阵亡 are not read. *)
Theorem dead_hero_ignores_bars (text : str) (match_state : MatchState)
  (hero : HeroStatus) :
  parse text = Ok match_state -> In hero (heroes match_state) ->
  is_dead hero = true ->
  mana_percent hero = 1 /\ (hp_percent hero = 0 \/ hp_percent hero = 1).
Proof.
  intros Hp Hin Hd.
  destruct (parse_heroes_from_lines text match_state hero Hp Hin)
    as (line & _ & Hh).
  destruct (hero_of_line_fields line hero Hh)
    as (tag & p0 & player & ro & l & d & r & hp & mana & p & k & g & its
        & _ & _ & _ & Heq & _ & _ & [Rdead Ralive] & _).
  rewrite Heq in Hd |- *. cbn [is_dead mana_percent hp_percent] in Hd |- *.
  destruct (contains kw_dead line).
  - destruct (Rdead eq_refl) as (_ & -> & [(_ & _ & ->)|(m & _ & _ & ->)]);
      auto.
  - destruct (Ralive eq_refl) as (Hf & _). congruence.
Qed.

Lemma dead_hero_ignores_bars_witness :
  exists match_state hero,
    parse (text_of ["[阵亡英雄]"] ++ 10%N :: dead_with_bars_line) = Ok match_state
    /\ In hero (heroes match_state)
    /\ is_dead hero = true
    /\ mana_percent hero = 1
    /\ (hp_percent hero = 0 \/ hp_percent hero = 1).
Proof.
  eexists. eexists. split; [vm_compute; reflexivity|].
  split; [left; reflexivity|]. split; [reflexivity|].
  eapply (dead_hero_ignores_bars
            (text_of ["[阵亡英雄]"] ++ 10%N :: dead_with_bars_line));
    [vm_compute; reflexivity | left; reflexivity | reflexivity].
Defined.

Lemma reads_int_nonneg (r : regex) (default : Z) (line : str) (v : Z) :
  nth_error (groups_of r) 0 = Some digits1 ->
  (0 <= default)%Z -> reads_int r default line v -> (0 <= v)%Z.
Proof.
  intros Hg Hd [[_ ->]|(m & Hm & Hv)]; [exact Hd|].
  eapply (py_int_nonneg_group r line m 0); eassumption.
Qed.

Lemma reads_percent_nonneg (r : regex) (line : str) (x : float) :
  nth_error (groups_of r) 0 = Some digits1 ->
  reads_percent r line x -> 0 <= x.
Proof.
  intros Hg [[_ ->]|(m & n & Hm & Hn & ->)]; [unfold Qle; simpl; lia|].
  apply Qle_0_percent.
  eapply (py_int_nonneg_group r line m 0); eassumption.
Qed.

(** X12: the numbers of every hero of a parsed state are non-negative:
    level, respawn countdown, gold, kills, deaths, assists, hp and mana. *)
Theorem parsed_hero_numbers_nonnegative (text : str) (match_state : MatchState)
  (hero : HeroStatus) :
  parse text = Ok match_state -> In hero (heroes match_state) ->
  hero_numbers_ok hero.
Proof.
  intros Hp Hin.
  destruct (parse_heroes_from_lines text match_state hero Hp Hin)
    as (line & _ & Hh).
  destruct (hero_of_line_fields line hero Hh)
    as (tag & p0 & player & ro & l & d & r & hp & mana & p & k & g & its
        & _ & _ & _ & Heq & _ & Rl & [Rdead Ralive] & _ & Rk & Rg & _).
  rewrite Heq. unfold hero_numbers_ok.
  cbn [level respawn_time gold kda hp_percent mana_percent].
  assert (Hlife : (0 <= r)%Z /\ 0 <= hp /\ 0 <= mana).
  { destruct (contains kw_dead line).
    - destruct (Rdead eq_refl) as (_ & -> & [(_ & -> & ->)|(m & Hm & Hr & ->)]).
      + repeat split; try lia; unfold Qle; simpl; lia.
      + split; [|split; unfold Qle; simpl; lia].
        eapply (py_int_nonneg_group respawn_re line m 0);
          [exact Hm | reflexivity | exact Hr].
    - destruct (Ralive eq_refl) as (_ & -> & Rhp & Rmana).
      split; [lia|]. split.
      + eapply (reads_percent_nonneg hero_hp_re); [reflexivity | exact Rhp].
      + eapply (reads_percent_nonneg mana_re); [reflexivity | exact Rmana]. }
  destruct Hlife as (Hr & Hhp & Hmana).
  split; [eapply (reads_int_nonneg level_re 1); [reflexivity | lia | exact Rl]|].
  split; [exact Hr|].
  split; [eapply (reads_int_nonneg gold_re 0); [reflexivity | lia | exact Rg]|].
  split; [|split; assumption].
  destruct Rk as [[_ ->]|(m & K & A & D & Hm & HK & HA & HD & ->)];
    [simpl; lia|].
  cbn [fst snd]. split; [|split].
  - eapply (py_int_nonneg_group kda_re line m 0); [exact Hm | reflexivity | exact HK].
  - eapply (py_int_nonneg_group kda_re line m 2); [exact Hm | reflexivity | exact HD].
  - eapply (py_int_nonneg_group kda_re line m 1); [exact Hm | reflexivity | exact HA].
Qed.

Lemma parsed_hero_numbers_nonnegative_witness :
  exists match_state hero,
    parse sample = Ok match_state
    /\ In hero (heroes match_state)
    /\ level hero = 14%Z
    /\ hero_numbers_ok hero.
Proof.
  eexists. eexists. split; [vm_compute; reflexivity|].
  split; [left; reflexivity|]. split; [reflexivity|].
  eapply (parsed_hero_numbers_nonnegative sample);
    [vm_compute; reflexivity | left; reflexivity].
Defined.

(** X13: for a hero line without 已阵亡 the hp and the mana are the
    reported percentages over 100, as written: nothing clamps a percentage
    above 100. *)
Theorem alive_hero_percentages (line : str) (hero : HeroStatus) :
  hero_of_line line = Ok (Some hero) ->
  contains kw_dead line = false ->
  (forall m, re_search hero_hp_re line = Some m ->
     exists n, py_int (group m 1) = Ok n /\ hp_percent hero = Qmake n 100)
  /\ (forall m, re_search mana_re line = Some m ->
        exists n, py_int (group m 1) = Ok n
                  /\ mana_percent hero = Qmake n 100).
Proof.
  intros H Hd. destruct (hero_of_line_fields line hero H)
    as (tag & p0 & player & ro & l & d & r & hp & mana & p & k & g & its
        & _ & _ & _ & Heq & _ & _ & [_ Ralive] & _).
  rewrite Heq. cbn [hp_percent mana_percent].
  destruct (Ralive Hd) as (_ & _ & Rhp & Rmana). split.
  - intros m Hm. destruct Rhp as [[Hn _]|(m' & n & Hm' & Hn & ->)];
      [congruence|].
    exists n. split; [congruence | reflexivity].
  - intros m Hm. destruct Rmana as [[Hn _]|(m' & n & Hm' & Hn & ->)];
      [congruence|].
    exists n. split; [congruence | reflexivity].
Qed.

Lemma alive_hero_percentages_witness :
  exists h,
    hero_of_line overfull_line = Ok (Some h)
    /\ contains kw_dead overfull_line = false
    /\ (hp_percent h, mana_percent h) = (Qmake 150 100, Qmake 120 100)
    /\ (forall m, re_search hero_hp_re overfull_line = Some m ->
          exists n, py_int (group m 1) = Ok n /\ hp_percent h = Qmake n 100)
    /\ (forall m, re_search mana_re overfull_line = Some m ->
          exists n, py_int (group m 1) = Ok n
                    /\ mana_percent h = Qmake n 100).
Proof.
  eexists. split; [vm_compute; reflexivity|]. split; [vm_compute; reflexivity|].
  split; [reflexivity|].
  apply (alive_hero_percentages overfull_line); vm_compute; reflexivity.
Defined.

(** ** [str.strip] leaves nothing to strip *)

Section Strip.
Variable p : char -> bool.

Lemma lstrip_by_head (s : str) :
  match lstrip_by p s with
  | [] => True
  | c :: _ => p c = false
  end.
Proof.
  induction s as [|c s IH]; simpl; [exact I|].
  destruct (p c) eqn:E; [exact IH | exact E].
Qed.

Lemma lstrip_by_fixed (s : str) :
  match s with [] => True | c :: _ => p c = false end ->
  lstrip_by p s = s.
Proof. destruct s as [|c s]; simpl; [reflexivity|]. intros ->. reflexivity. Qed.

Lemma lstrip_by_idem (s : str) : lstrip_by p (lstrip_by p s) = lstrip_by p s.
Proof. apply lstrip_by_fixed. apply lstrip_by_head. Qed.

Lemma lstrip_by_suffix (s : str) : exists pre, s = pre ++ lstrip_by p s.
Proof.
  induction s as [|c s IH]; simpl; [exists []; reflexivity|].
  destruct (p c).
  - destruct IH as (pre & IH). exists (c :: pre). simpl. rewrite <- IH. reflexivity.
  - exists []. reflexivity.
Qed.

Lemma strip_by_idem (s : str) : strip_by p (strip_by p s) = strip_by p s.
Proof.
  unfold strip_by.
  set (a := lstrip_by p s). set (r := lstrip_by p (rev a)).
  assert (Hfix : lstrip_by p (rev r) = rev r).
  { apply lstrip_by_fixed.
    destruct (lstrip_by_suffix (rev a)) as (pre & Hpre). fold r in Hpre.
    assert (Ha : a = rev r ++ rev pre).
    { rewrite <- (rev_involutive a), Hpre, rev_app_distr. reflexivity. }
    pose proof (lstrip_by_head s) as Hh. fold a in Hh.
    destruct (rev r) as [|c t]; [exact I|].
    rewrite Ha in Hh. exact Hh. }
  rewrite Hfix, rev_involutive. unfold r. rewrite lstrip_by_idem. reflexivity.
Qed.

End Strip.

Lemma strip_idem (s : str) : strip (strip s) = strip s.
Proof. apply strip_by_idem. Qed.

(** X14: when a hero line holds the label 已出装备：, the item list is never
    empty and never fails to be read: it is the text between the first label
    and the next ，, split at 、, each piece stripped, so no item has blanks
    around it (an empty piece gives an empty item name).  Without the label
    the list is empty. *)
Theorem hero_items_from_label (line : str) (hero : HeroStatus) :
  hero_of_line line = Ok (Some hero) ->
  (contains kw_items line = false -> items hero = [])
  /\ (contains kw_items line = true ->
      exists after items_part,
        nth_error (split kw_items line) 1 = Some after
        /\ nth_error (split (u "，") after) 0 = Some items_part
        /\ items hero = List.map strip (split (u "、") items_part)
        /\ (1 <= List.length (items hero))%nat
        /\ Forall (fun i => strip i = i) (items hero)).
Proof.
  intros H. destruct (hero_of_line_fields line hero H)
    as (tag & p0 & player & ro & l & d & r & hp & mana & p & k & g & its
        & _ & _ & _ & Heq & _ & _ & _ & _ & _ & _ & Rits).
  rewrite Heq. cbn [items]. split.
  - intros Hn. destruct Rits as [[_ ->]|(a & b & Hc & _)];
      [reflexivity | congruence].
  - intros Hc. destruct Rits as [[Hn _]|(a & b & _ & Ha & Hb & ->)];
      [congruence|].
    exists a, b. split; [exact Ha|]. split; [exact Hb|].
    split; [reflexivity|]. split.
    + rewrite length_map. apply split_length.
    + apply Forall_forall. intros i Hi. apply in_map_iff in Hi.
      destruct Hi as (x & <- & _). apply strip_idem.
Qed.

Lemma hero_items_from_label_witness :
  exists h,
    hero_of_line items_line = Ok (Some h)
    /\ items h = [u "红莲斗篷"; []; u "霸者重装"]
    /\ (contains kw_items items_line = false -> items h = [])
    /\ (contains kw_items items_line = true ->
        exists after items_part,
          nth_error (split kw_items items_line) 1 = Some after
          /\ nth_error (split (u "，") after) 0 = Some items_part
          /\ items h = List.map strip (split (u "、") items_part)
          /\ (1 <= List.length (items h))%nat
          /\ Forall (fun i => strip i = i) (items h)).
Proof.
  eexists. split; [vm_compute; reflexivity|]. split; [reflexivity|].
  apply (hero_items_from_label items_line). vm_compute. reflexivity.
Defined.

(** ** Texts without headers, texts without a map-info section *)

Lemma startswith_map_info_bracket (s : str) :
  startswith (u "[") s = false -> startswith (u "[地图信息]") s = false.
Proof.
  change (u "[") with [91%N].
  change (u "[地图信息]") with (91%N :: [22320; 22270; 20449; 24687; 93]%N).
  destruct s as [|c s]; [reflexivity|]. cbn [startswith].
  destruct (91 =? c)%N; [discriminate | reflexivity].
Qed.

Lemma first_pass_without_map_info (lines : list str) :
  (forall l, In l lines -> startswith (u "[地图信息]") (strip l) = false) ->
  forall sec, section_is sec sec_map_info = false ->
  exists sec', for_each prepass_step lines (sec, []) = Ok (sec', [])
               /\ section_is sec' sec_map_info = false.
Proof.
  induction lines as [|l lines IH]; intros Hl sec Hsec.
  - exists sec. split; [reflexivity | exact Hsec].
  - cbn [for_each]. unfold prepass_step at 1.
    rewrite (Hl l (or_introl eq_refl)).
    destruct (startswith (u "[") (strip l)).
    + cbn [bind]. apply IH; [intros x Hx; apply Hl; right; exact Hx | reflexivity].
    + rewrite Hsec. cbn [bind].
      apply IH; [intros x Hx; apply Hl; right; exact Hx | exact Hsec].
Qed.

Lemma parse_is_main_pass (text : str) :
  (forall l, In l (split [10%N] text) ->
     startswith (u "[地图信息]") (strip l) = false) ->
  first_pass (split [10%N] text) = Ok []
  /\ parse text = main_pass [] (split [10%N] text).
Proof.
  intros Hl.
  destruct (first_pass_without_map_info _ Hl None eq_refl) as (sec' & Hf & _).
  assert (Hfp : first_pass (split [10%N] text) = Ok []).
  { unfold first_pass. rewrite Hf. reflexivity. }
  split; [exact Hfp|]. unfold parse. rewrite Hfp. reflexivity.
Qed.

(** X15: when no line of the text starts (once stripped) with [地图信息],
    the first pass harvests nothing and cannot raise, so the result of
    [parse] is that of the second pass alone. *)
Theorem parse_without_map_info (text : str) :
  (forall l, In l (split [10%N] text) ->
     startswith (u "[地图信息]") (strip l) = false) ->
  first_pass (split [10%N] text) = Ok []
  /\ parse text = main_pass [] (split [10%N] text).
Proof.
  intros Hl. split.
  - apply (parse_is_main_pass text Hl).
  - apply (parse_is_main_pass text Hl).
Qed.

Lemma parse_without_map_info_witness :
  (forall l, In l (split [10%N] no_map_info_text) ->
     startswith (u "[地图信息]") (strip l) = false)
  /\ first_pass (split [10%N] no_map_info_text) = Ok []
  /\ parse no_map_info_text = main_pass [] (split [10%N] no_map_info_text).
Proof.
  assert (H : forall l, In l (split [10%N] no_map_info_text) ->
                startswith (u "[地图信息]") (strip l) = false).
  { intros l Hin. vm_compute in Hin.
    destruct Hin as [<-|[<-|[<-|[]]]]; vm_compute; reflexivity. }
  split; [exact H|]. apply (parse_without_map_info no_map_info_text H).
Defined.

Lemma main_pass_headerless (static_towers : static_dict) (lines : list str) :
  (forall l, In l lines -> startswith (u "[") (strip l) = false) ->
  forall ms, for_each (main_step static_towers) lines (None, ms) = Ok (None, ms).
Proof.
  induction lines as [|l lines IH]; intros Hl ms; [reflexivity|].
  cbn [for_each].
  assert (Hs : main_step static_towers (None, ms) l = Ok (None, ms)).
  { unfold main_step. destruct (strip l) as [|c s] eqn:El; [reflexivity|].
    unfold is_header. rewrite <- El, (Hl l (or_introl eq_refl)). reflexivity. }
  rewrite Hs. cbn [bind]. apply IH. intros x Hx. apply Hl. right; exact Hx.
Qed.

(** X16: a text in which no line starts (once stripped) with a bracket has
    no section at all: [parse] does not raise and returns the initial state,
    clock 00:00, zero totals and empty collections, whatever the lines
    hold. *)
Theorem parse_headerless_text (text : str) :
  (forall l, In l (split [10%N] text) -> startswith (u "[") (strip l) = false) ->
  parse text = Ok initial_state.
Proof.
  intros Hl.
  destruct (parse_is_main_pass text) as [_ Hp].
  { intros l Hin. apply startswith_map_info_bracket. apply Hl. exact Hin. }
  rewrite Hp. unfold main_pass.
  rewrite (main_pass_headerless [] _ Hl). reflexivity.
Qed.

Lemma parse_headerless_text_witness :
  (forall l, In l (split [10%N] headerless_text) ->
     startswith (u "[") (strip l) = false)
  /\ parse headerless_text = Ok initial_state.
Proof.
  assert (H : forall l, In l (split [10%N] headerless_text) ->
                startswith (u "[") (strip l) = false).
  { intros l Hin. vm_compute in Hin.
    destruct Hin as [<-|[<-|[<-|[]]]]; vm_compute; reflexivity. }
  split; [exact H|]. apply (parse_headerless_text headerless_text H).
Defined.

(** ** From the parsed state to the drawing *)

Lemma parsed_hero_team (text : str) (ms : MatchState) (h : HeroStatus) :
  parse text = Ok ms -> In h (heroes ms) -> team h = blue \/ team h = red.
Proof.
  intros Hp Hin.
  destruct (parse_heroes_from_lines text ms h Hp Hin) as (line & _ & Hh).
  destruct (hero_of_line_fields line h Hh)
    as (tag & p0 & player & ro & l & d & r & hp & mana & p & k & g & its
        & _ & _ & _ & Heq & _).
  rewrite Heq. cbn [team].
  destruct (str_eqb p0 (u "我方")); [left | right]; reflexivity.
Qed.




(** X18: in the top bar every dead hero of a parsed state is named in
    exactly one of the two lists of dead heroes: the dead heroes listed for
    blue followed by those listed for red are a rearrangement of all the dead
    heroes. *)
Theorem every_dead_hero_is_listed_once (text : str) (match_state : MatchState) :
  parse text = Ok match_state ->
  Permutation (filter is_dead (heroes match_state))
    (dead_heroes blue match_state ++ dead_heroes red match_state).
Proof.
  intros Hp. unfold dead_heroes.
  assert (Hall : forall h, In h (heroes match_state) ->
                   team h = blue \/ team h = red).
  { intros h Hin. eapply parsed_hero_team; eassumption. }
  induction (heroes match_state) as [|h hs IH]; [constructor|].
  assert (IH' : Permutation (filter is_dead hs)
                  (filter (fun h => str_eqb (team h) blue && is_dead h) hs
                   ++ filter (fun h => str_eqb (team h) red && is_dead h) hs)).
  { apply IH. intros x Hx. apply Hall. right; exact Hx. }
  cbn [filter].
  destruct (Hall h (or_introl eq_refl)) as [Ht|Ht]; rewrite Ht;
    destruct (is_dead h);
    change (str_eqb blue blue) with true; change (str_eqb blue red) with false;
    change (str_eqb red blue) with false; change (str_eqb red red) with true;
    cbn [andb].
  - simpl. constructor. exact IH'.
  - exact IH'.
  - apply Permutation_cons_app. exact IH'.
  - exact IH'.
Qed.

Lemma every_dead_hero_is_listed_once_witness :
  exists match_state,
    parse sample = Ok match_state
    /\ List.map name (dead_heroes red match_state) = [u "亚瑟"]
    /\ Permutation (filter is_dead (heroes match_state))
         (dead_heroes blue match_state ++ dead_heroes red match_state).
Proof.
  eexists. split; [vm_compute; reflexivity|]. split; [reflexivity|].
  apply (every_dead_hero_is_listed_once sample). vm_compute. reflexivity.
Defined.

Section MapCoordsFacts.
Variable coord : Type.
Variable transform : float * float -> coord.

Lemma coords_get_put (n k : str) (v : coord) (d : list (str * coord)) :
  coords_get coord n (coords_put coord k v d)
  = if str_eqb k n then Some v else coords_get coord n d.
Proof.
  induction d as [|[k' v'] d IH]; [reflexivity|].
  cbn [coords_put]. destruct (str_eqb k' k) eqn:Ek.
  - apply str_eqb_eq in Ek. subst k'. cbn [coords_get].
    destruct (str_eqb k n); reflexivity.
  - cbn [coords_get]. rewrite IH.
    destruct (str_eqb k' n) eqn:En; [|reflexivity].
    apply str_eqb_eq in En. subst k'.
    destruct (str_eqb k n) eqn:Ekn; [|reflexivity].
    apply str_eqb_eq in Ekn. subst k.
    assert (Hr : str_eqb n n = true) by (apply str_eqb_eq; reflexivity).
    congruence.
Qed.

Lemma fold_coords_get (n : str) (hs : list HeroStatus) :
  coords_get coord n
    (fold_left
       (fun d hero =>
          match position hero with
          | Some pos => coords_put coord (name hero) (transform pos) d
          | None => d
          end)
       hs [])
  = match last_positioned n hs with
    | Some h => option_map transform (position h)
    | None => None
    end.
Proof.
  induction hs as [|h hs IH] using rev_ind; [reflexivity|].
  rewrite fold_left_app. cbn [fold_left].
  unfold last_positioned in *. rewrite rev_app_distr. cbn [rev app find].
  destruct (position h) as [pos|] eqn:Ep.
  - rewrite coords_get_put. rewrite andb_true_r.
    destruct (str_eqb (name h) n); [rewrite Ep; reflexivity | exact IH].
  - rewrite andb_false_r. exact IH.
Qed.

End MapCoordsFacts.

(** X19: the dictionary [hero_map_coords] is keyed by hero name alone and
    the last write wins: the entry of a name is the transformed position of
    the last hero of that name that has a position, whatever its team, and
    there is no entry when no hero of that name has one.  So the connecting
    line of a side card starts from that entry, also for a hero that has no
    position of its own. *)
Theorem hero_map_coords_last_write_wins (coord : Type)
  (transform : float * float -> coord) (overlap : coord -> coord -> bool)
  (match_state : MatchState) (hero : HeroStatus) :
  (forall n,
     coords_get coord n (hero_map_coords coord transform match_state)
     = match last_positioned n (heroes match_state) with
       | Some h => option_map transform (position h)
       | None => None
       end)
  /\ (forall pos,
        card_connector coord overlap
          (hero_map_coords coord transform match_state) hero = Some pos ->
        exists h,
          last_positioned (name hero) (heroes match_state) = Some h
          /\ option_map transform (position h) = Some pos).
Proof.
  assert (Hget : forall n,
            coords_get coord n (hero_map_coords coord transform match_state)
            = match last_positioned n (heroes match_state) with
              | Some h => option_map transform (position h)
              | None => None
              end).
  { intros n. unfold hero_map_coords. apply fold_coords_get. }
  split; [exact Hget|].
  intros pos Hc. unfold card_connector in Hc. rewrite Hget in Hc.
  destruct (last_positioned (name hero) (heroes match_state)) as [h|];
    [|discriminate].
  exists h. split; [reflexivity|].
  destruct (option_map transform (position h)) as [q|]; [|discriminate].
  destruct (existsb _ _) in Hc; [exact Hc | discriminate].
Qed.

Lemma hero_map_coords_last_write_wins_witness :
  exists match_state unseen,
    parse namesake_text = Ok match_state
    /\ nth_error (heroes match_state) 1 = Some unseen
    /\ position unseen = None
    /\ card_connector (float * float) (fun _ _ => true)
         (hero_map_coords (float * float) (fun p => p) match_state) unseen
       = Some (Qmake 10 10, Qmake 20 10)
    /\ exists h,
         last_positioned (name unseen) (heroes match_state) = Some h
         /\ option_map (fun p : float * float => p) (position h)
            = Some (Qmake 10 10, Qmake 20 10).
Proof.
  eexists. eexists. split; [vm_compute; reflexivity|].
  split; [reflexivity|]. split; [reflexivity|].
  split; [vm_compute; reflexivity|].
  eapply (hero_map_coords_last_write_wins (float * float) (fun p => p)
            (fun _ _ => true)).
  vm_compute. reflexivity.
Defined.
